(** * Task manager backend: query, authorization and audit layer

    A shallow embedding of the Express/Mongoose backend
    (controllers/tasks.ts, controllers/users.ts, controllers/auth.ts,
    middleware/auth.ts, middleware/errorHandler.ts, utils/jwt.ts and the
    Mongoose schemas of Task, User and ActivityLog), followed by the
    properties of the specification that concern it.

    Conventions of the embedding:
    - a collection is the list of its documents in insertion order;
    - an [ObjectId] is kept as its canonical 24 character lower-case
      hexadecimal text, the value of [toString()];
    - a [Date] is its number of milliseconds since the epoch;
    - a JavaScript string is a Rocq [string]; case mapping and white
      space are those of the ASCII range;
    - a handler is a function of the database that returns either the
      response sent or the error thrown, together with the database it
      leaves behind; [new Date()] and the identifier drawn for a new
      document are arguments of the handler;
    - the request validators that the routes put before the handlers
      (validation/task.ts, validation/user.ts) are chains of
      express-validator and are not modelled: a handler is modelled on
      every query, and on every body made of the fields it reads. A body
      with further keys is outside the model; this matters for
      [updateTask], which hands the whole body to the store. *)

From Stdlib Require Import ZArith String Ascii List Bool Lia.
From stdpp Require Import base option list gmap strings sorting pretty.

Local Open Scope string_scope.
Local Open Scope list_scope.
Local Open Scope Z_scope.

(** ** JavaScript primitives used by the handlers *)

Module Js.

(** Numbers that [parseInt] can return: [NaN], an integer that a
    double holds, or an infinity. The negative zero is not told from
    zero. *)
Inductive Num := NaN | Int (z : Z) | Infinity (negative : bool).

Definition Math_max (a : Z) (b : Num) : Num :=
  match b with
  | NaN => NaN
  | Int z => Int (Z.max a z)
  | Infinity negative => if negative then Int a else Infinity false
  end.

Definition Math_min (a : Z) (b : Num) : Num :=
  match b with
  | NaN => NaN
  | Int z => Int (Z.min a z)
  | Infinity negative => if negative then Infinity true else Int a
  end.

(** The double nearest to an integer: the integer itself when its
    magnitude has at most 53 bits; otherwise the magnitude is rounded to
    53 leading bits, a tie going to the even one, and from [2^1024] on
    the result is an infinity. *)
Definition to_double (z : Z) : Num :=
  let a := Z.abs z in
  let shift := Z.log2 a - 52 in
  if shift <=? 0 then Int z
  else
    let q := Z.shiftr a shift in
    let r := a - Z.shiftl q shift in
    let half := Z.shiftl 1 (shift - 1) in
    let q' := if (half <? r) || ((half =? r) && Z.odd q) then q + 1 else q in
    let v := Z.shiftl q' shift in
    if Z.shiftl 1 1024 <=? v then Infinity (z <? 0) else Int (Z.sgn z * v).

(** [Math.ceil(a / b)] for an integer [a] and a positive integer [b]. *)
Definition Math_ceil_div (a b : Z) : Z := - ((- a) / b).

(** A string is truthy unless it is empty. *)
Definition truthy (s : string) : bool :=
  match s with EmptyString => false | String _ _ => true end.

(** White space removed by [String.prototype.trim], among the
    characters of the ASCII range: TAB, LF, VT, FF, CR and SPACE. *)
Definition is_space (c : ascii) : bool :=
  let n := nat_of_ascii c in
  ((9 <=? n)%nat && (n <=? 13)%nat) || (n =? 32)%nat.

Fixpoint trimStart (s : string) : string :=
  match s with
  | EmptyString => EmptyString
  | String c r => if is_space c then trimStart r else s
  end.

Fixpoint trimEnd (s : string) : string :=
  match s with
  | EmptyString => EmptyString
  | String c r =>
      match trimEnd r with
      | EmptyString => if is_space c then EmptyString else String c EmptyString
      | r' => String c r'
      end
  end.

Definition trim (s : string) : string := trimEnd (trimStart s).

(** [toLowerCase] maps the letters A to Z; any other character is left
    as it is, which is what JavaScript does within the ASCII range
    only. *)
Definition lower_ascii (c : ascii) : ascii :=
  let n := nat_of_ascii c in
  if ((65 <=? n)%nat && (n <=? 90)%nat)%bool then ascii_of_nat (n + 32) else c.

Fixpoint toLowerCase (s : string) : string :=
  match s with
  | EmptyString => EmptyString
  | String c r => String (lower_ascii c) (toLowerCase r)
  end.

(** Value of a digit in a radix, if it is one. *)
Definition digit_value (radix : Z) (c : ascii) : option Z :=
  let n := Z.of_nat (nat_of_ascii c) in
  let v :=
    if (48 <=? n) && (n <=? 57) then Some (n - 48)
    else if (97 <=? n) && (n <=? 122) then Some (n - 87)
    else if (65 <=? n) && (n <=? 90) then Some (n - 55)
    else None in
  match v with
  | Some d => if d <? radix then Some d else None
  | None => None
  end.

(** Longest prefix of digits, read from the left; [None] when the
    prefix is empty. *)
Fixpoint parse_digits (radix : Z) (acc : option Z) (s : string) : option Z :=
  match s with
  | EmptyString => acc
  | String c r =>
      match digit_value radix c with
      | Some d => parse_digits radix (Some (radix * default 0 acc + d)) r
      | None => acc
      end
  end.

Definition parse_unsigned (s : string) : option Z :=
  match s with
  | String "0" (String "x" r) | String "0" (String "X" r) =>
      parse_digits 16 None r
  | _ => parse_digits 10 None s
  end.

(** [parseInt(s)] with no radix: leading white space, an optional
    sign, an optional hexadecimal prefix, then the digits; the number
    returned is the double nearest to the integer they denote. *)
Definition parseInt (s : string) : Num :=
  let s := trimStart s in
  let '(sign, s) :=
    match s with
    | String "-" r => (-1, r)
    | String "+" r => (1, r)
    | _ => (1, s)
    end in
  match parse_unsigned s with
  | Some z => to_double (sign * z)
  | None => NaN
  end.

(** The decimal digits of [n], exactly [width] of them, before [acc]. *)
Fixpoint digits (width : nat) (n : Z) (acc : string) : string :=
  match width with
  | O => acc
  | S w =>
      digits w (n / 10)
        (String (ascii_of_nat (Z.to_nat (48 + n mod 10))) acc)
  end.

Definition pad (width : nat) (n : Z) : string := digits width n "".

(** [Date.prototype.toISOString] of an instant: the date of the
    proleptic Gregorian calendar and the time of day in UTC, as
    [YYYY-MM-DDTHH:mm:ss.sssZ]; a year outside 0..9999 is written with
    its sign and six digits. *)
Definition toISOString (t : Z) : string :=
  let day := t / 86400000 in
  let ms := t mod 86400000 in
  let z := day + 719468 in
  let era := z / 146097 in
  let doe := z mod 146097 in
  let yoe := (doe - doe / 1460 + doe / 36524 - doe / 146096) / 365 in
  let doy := doe - (365 * yoe + yoe / 4 - yoe / 100) in
  let mp := (5 * doy + 2) / 153 in
  let d := doy - (153 * mp + 2) / 5 + 1 in
  let m := if mp <? 10 then mp + 3 else mp - 9 in
  let y := yoe + era * 400 + (if m <=? 2 then 1 else 0) in
  let year :=
    if (0 <=? y) && (y <=? 9999) then pad 4 y
    else String (if y <? 0 then "-" else "+") (pad 6 (Z.abs y)) in
  year +:+ "-" +:+ pad 2 m +:+ "-" +:+ pad 2 d
  +:+ "T" +:+ pad 2 (ms / 3600000) +:+ ":" +:+ pad 2 (ms / 60000 mod 60)
  +:+ ":" +:+ pad 2 (ms / 1000 mod 60) +:+ "." +:+ pad 3 (ms mod 1000)
  +:+ "Z".

(** The text of a character inside a JSON string: the quote and the
    backslash are escaped, a control character is written by its short
    escape or as [\u00XX], every other character stands for itself. *)
Definition hex_digit (n : nat) : ascii :=
  if (n <? 10)%nat then ascii_of_nat (48 + n) else ascii_of_nat (87 + n).

Definition JSON_escape (c : ascii) : string :=
  let n := nat_of_ascii c in
  if (n =? 34)%nat then String "\" (String c "")
  else if (n =? 92)%nat then String "\" (String c "")
  else if (n =? 8)%nat then "\b"
  else if (n =? 9)%nat then "\t"
  else if (n =? 10)%nat then "\n"
  else if (n =? 12)%nat then "\f"
  else if (n =? 13)%nat then "\r"
  else if (n <? 32)%nat
  then "\u00" +:+ String (hex_digit (n / 16)) (String (hex_digit (n mod 16)) "")
  else String c "".

Fixpoint JSON_escape_all (s : string) : string :=
  match s with
  | EmptyString => EmptyString
  | String c r => JSON_escape c +:+ JSON_escape_all r
  end.

(** [JSON.stringify] of a string. *)
Definition JSON_quote (s : string) : string :=
  String "034" (JSON_escape_all s +:+ String "034" "").



(** [arr.indexOf(x)], -1 when absent. *)
Fixpoint indexOf (arr : list string) (x : string) : Z :=
  match arr with
  | [] => -1
  | y :: r =>
      if decide (y = x) then 0
      else let i := indexOf r x in if i <? 0 then -1 else 1 + i
  end.

End Js.

(** ** Data model (types/index.ts) *)

Inductive UserRole := ADMIN | MEMBER.
Inductive TaskStatus := TODO | IN_PROGRESS | DONE.
Inductive TaskPriority := LOW | MEDIUM | HIGH | URGENT.
Inductive ActivityAction := CREATE | UPDATE | DELETE.

#[global] Instance UserRole_eq_dec : EqDecision UserRole.
Proof. solve_decision. Defined.
#[global] Instance TaskStatus_eq_dec : EqDecision TaskStatus.
Proof. solve_decision. Defined.
#[global] Instance TaskPriority_eq_dec : EqDecision TaskPriority.
Proof. solve_decision. Defined.
#[global] Instance ActivityAction_eq_dec : EqDecision ActivityAction.
Proof. solve_decision. Defined.

(** The string value of each enum member. *)
Definition UserRole_value (r : UserRole) : string :=
  match r with ADMIN => "admin" | MEMBER => "member" end.

Definition TaskStatus_value (s : TaskStatus) : string :=
  match s with TODO => "todo" | IN_PROGRESS => "in-progress" | DONE => "done" end.

Definition TaskPriority_value (p : TaskPriority) : string :=
  match p with
  | LOW => "low" | MEDIUM => "medium" | HIGH => "high" | URGENT => "urgent"
  end.

(** Membership in [Object.values(E)], as the schema's enum validators
    test it. *)
Definition UserRole_of (s : string) : option UserRole :=
  List.find (λ r, bool_decide (UserRole_value r = s)) [ADMIN; MEMBER].

Definition TaskStatus_of (s : string) : option TaskStatus :=
  List.find (λ r, bool_decide (TaskStatus_value r = s)) [TODO; IN_PROGRESS; DONE].

Definition TaskPriority_of (s : string) : option TaskPriority :=
  List.find (λ r, bool_decide (TaskPriority_value r = s))
    [LOW; MEDIUM; HIGH; URGENT].

Definition ObjectId := string.
Definition Date := Z.

Record IUser := mkUser {
  user_id : ObjectId;
  email : string;
  (** [None] when the field was not selected by the query, or cleared. *)
  password : option string;
  role : UserRole;
  firstName : string;
  lastName : string;
  user_createdAt : Date;
  user_updatedAt : Date;
}.

Record ITask := mkTask {
  task_id : ObjectId;
  title : string;
  description : option string;
  status : TaskStatus;
  priority : TaskPriority;
  dueDate : option Date;
  tags : list string;
  assignee : ObjectId;
  createdBy : ObjectId;
  createdAt : Date;
  updatedAt : Date;
}.

(** A due date as a request gives it: the text of the JSON string,
    and the instant that the schema casts this text to
    ([new Date(text)]). The parsing of dates is not modelled: a request
    comes with the instant its text denotes. *)
Record DateInput := mkDateInput {
  date_text : string;
  date_value : Date;
}.

(** The body of a create or update request, after the JSON parser: a
    field is [None] when the key is absent ([undefined]). The body holds
    the seven fields that the handlers read and no other key; a due date
    is a text that denotes an instant (a due date that is [null] or the
    empty text, which clears the field, is not modelled). *)
Record TaskBody := mkBody {
  b_title : option string;
  b_description : option string;
  b_status : option string;
  b_priority : option string;
  b_due : option DateInput;
  b_tags : option (list string);
  b_assignee : option string;
}.

(** The due date of a body, once cast by the schema. *)
Definition b_dueDate (b : TaskBody) : option Date := date_value <$> b_due b.

(** Values that occur in a serialized document or in the [changes] of an
    activity entry. *)
Inductive JsVal :=
| JUndefined
| JBool (b : bool)
| JStr (s : string)
| JDate (d : Date)
| JStrs (l : list string).

Record Change := mkChange { from : JsVal; to : JsVal }.

(** An entry of the [changes] object: a plain value, a [{from, to}]
    pair, or the update object of a bulk call. *)
Inductive ChangeVal :=
| CVal (v : JsVal)
| CFromTo (c : Change)
| CUpdates (u : TaskBody).

Record IActivityLog := mkLog {
  taskId : ObjectId;
  userId : ObjectId;
  action : ActivityAction;
  changes : gmap string ChangeVal;
  timestamp : Date;
}.

#[global] Instance IUser_eq_dec : EqDecision IUser.
Proof. solve_decision. Defined.
#[global] Instance ITask_eq_dec : EqDecision ITask.
Proof. solve_decision. Defined.
#[global] Instance DateInput_eq_dec : EqDecision DateInput.
Proof. solve_decision. Defined.
#[global] Instance TaskBody_eq_dec : EqDecision TaskBody.
Proof. solve_decision. Defined.
#[global] Instance JsVal_eq_dec : EqDecision JsVal.
Proof. solve_decision. Defined.
#[global] Instance Change_eq_dec : EqDecision Change.
Proof. solve_decision. Defined.
#[global] Instance ChangeVal_eq_dec : EqDecision ChangeVal.
Proof. solve_decision. Defined.

(** The three collections. *)
Record Db := mkDb {
  users : list IUser;
  tasks : list ITask;
  activityLogs : list IActivityLog;
}.

(** ** Errors and the centralized error handler (types/index.ts,
    middleware/errorHandler.ts) *)

Inductive Error :=
| AppError (message : string) (statusCode : Z)
| ValidationError (messages : list string)
| DuplicateKey (field : string)
| CastError
| InternalError.

(** [errorHandler]: the status code of the JSON error envelope. *)
Definition errorHandler_status (e : Error) : Z :=
  match e with
  | AppError _ statusCode => statusCode
  | ValidationError _ => 400
  | DuplicateKey _ => 400
  | CastError => 400
  | InternalError => 500
  end.

(** What a handler leaves: the response sent, with its status code, or
    the error handed to [errorHandler]. *)
Inductive Outcome (A : Type) :=
| Sent (statusCode : Z) (body : A)
| Thrown (e : Error).
Arguments Sent {A} statusCode body.
Arguments Thrown {A} e.

(** The status code the client receives. *)
Definition http_status {A} (o : Outcome A) : Z :=
  match o with
  | Sent statusCode _ => statusCode
  | Thrown e => errorHandler_status e
  end.

(** A computation over the database that may throw. *)
Definition Action (A : Type) : Type := Db → (Error + A) * Db.

Definition ret {A} (a : A) : Action A := λ db, (inr a, db).
Definition throw {A} (e : Error) : Action A := λ db, (inl e, db).
Definition bind {A B} (m : Action A) (k : A → Action B) : Action B :=
  λ db, match m db with
        | (inr a, db') => k a db'
        | (inl e, db') => (inl e, db')
        end.
Definition read {A} (f : Db → A) : Action A := λ db, (inr (f db), db).
Definition write (f : Db → Db) : Action unit := λ db, (inr tt, f db).

Notation "'do' x <- m ; k" := (bind m (λ x, k))
  (at level 10, x name, m at level 100, k at level 200).
Notation "'run' m ; k" := (bind m (λ _, k))
  (at level 10, m at level 100, k at level 200).

(** A handler answers [res.status(code).json(body)] at its end. *)
Definition respond {A} (m : Action (Z * A)) (db : Db) : Outcome A * Db :=
  match m db with
  | (inr (code, body), db') => (Sent code body, db')
  | (inl e, db') => (Thrown e, db')
  end.

(** ** Library functions that stay abstract

    bcrypt, jsonwebtoken and the regular expression engine are used
    through their interface only. *)

Class External := {
  bcrypt_hash : string → string;
  bcrypt_compare : string → string → bool;
  jwt_sign : ObjectId → string;
  (** [regex_test pattern ignoreCase s] *)
  regex_test : string → bool → string → bool;
}.

(** ** Mongoose: identifiers *)

Definition is_hex (c : ascii) : bool :=
  match Js.digit_value 16 c with Some _ => true | None => false end.

(** Modelled from the spec: [mongoose.Types.ObjectId.isValid] belongs to
    the driver library, which is not among the sources; an identifier
    is a string of 24 hexadecimal characters. *)
Definition ObjectId_isValid (s : string) : bool :=
  bool_decide (String.length s = 24%nat)
  && forallb is_hex (list_ascii_of_string s).

(** Casting a string to an [ObjectId]; [None] is a [CastError]. *)
Definition castObjectId (s : string) : option ObjectId :=
  if ObjectId_isValid s then Some (Js.toLowerCase s) else None.

(** ** Mongoose: the User model (models/User.ts) *)

Definition set_password (p : option string) (u : IUser) : IUser :=
  mkUser (user_id u) (email u) p (role u) (firstName u) (lastName u)
         (user_createdAt u) (user_updatedAt u).

(** The [password] path is declared [select: false]: a query returns it
    only under [.select("+password")]. *)
Inductive Select := DefaultSelect | PlusPassword | MinusPassword.

Definition select (sel : Select) (u : IUser) : IUser :=
  match sel with
  | PlusPassword => u
  | DefaultSelect | MinusPassword => set_password None u
  end.

Definition has_id (oid : ObjectId) (u : IUser) : bool :=
  bool_decide (user_id u = oid).

Definition User_findById (sel : Select) (id : string) : Action (option IUser) :=
  match castObjectId id with
  | None => throw CastError
  | Some oid => read (λ db, select sel <$> List.find (has_id oid) (users db))
  end.

(** The setters of the [email] path ([lowercase], [trim]). *)
Definition cast_email (e : string) : string := Js.trim (Js.toLowerCase e).

Definition User_findOne_email (sel : Select) (e : string)
  : Action (option IUser) :=
  read (λ db, select sel <$>
    List.find (λ u, bool_decide (email u = cast_email e)) (users db)).

Definition User_findByIdAndDelete (id : string) : Action unit :=
  match castObjectId id with
  | None => throw CastError
  | Some oid =>
      write (λ db, mkDb (filter (λ u, user_id u ≠ oid) (users db))
                        (tasks db) (activityLogs db))
  end.

Definition check (ok : bool) (message : string) : list string :=
  if ok then [] else [message].

Definition email_pattern : string :=
  "^\w+([.-]?\w+)*@\w+([.-]?\w+)*(\.\w{2,3})+$".
Definition name_pattern : string := "^[a-zA-Z\s]+$".

(** Body of a registration request. *)
Record RegisterBody := mkRegister {
  r_email : option string;
  r_password : option string;
  r_firstName : option string;
  r_lastName : option string;
  r_role : option string;
}.

Definition required (v : option string) (message : string)
    (rest : string → list string) : list string :=
  match v with
  | Some s => if Js.truthy s then rest s else [message]
  | None => [message]
  end.

(** Validation of a new user document, path by path. *)
Definition User_validate `{External} (e p f l : option string)
    (r : option UserRole) : list string :=
  concat [
    required e "Email is required" (λ s,
      check (regex_test email_pattern false s) "Please provide a valid email");
    required p "Password is required" (λ s,
      check (6 <=? Z.of_nat (String.length s))
            "Password must be at least 6 characters long");
    required f "First name is required" (λ s, concat [
      check (Z.of_nat (String.length s) <=? 50)
            "First name cannot exceed 50 characters";
      check (regex_test name_pattern false s)
            "First name can only contain letters and spaces" ]);
    required l "Last name is required" (λ s, concat [
      check (Z.of_nat (String.length s) <=? 50)
            "Last name cannot exceed 50 characters";
      check (regex_test name_pattern false s)
            "Last name can only contain letters and spaces" ]);
    check (bool_decide (is_Some r)) "Role must be either admin or member" ].

(** [User.create]: setters, validation, the [pre("save")] hook that
    hashes the password, then the insertion under the unique indexes
    on [_id] and [email]. The document returned is the one saved, with
    its hashed password. *)
Definition User_create `{External} (newId : ObjectId) (now : Date)
    (e p f l : option string) (r : string) : Action IUser :=
  let e := cast_email <$> e in
  let f := Js.trim <$> f in
  let l := Js.trim <$> l in
  let r := UserRole_of r in
  match User_validate e p f l r, e, p, f, l, r with
  | [], Some e, Some p, Some f, Some l, Some r =>
      let u := mkUser newId e (Some (bcrypt_hash p)) r f l now now in
      do dup_id <- read (λ db, List.existsb (has_id newId) (users db));
      do dup_email <- read (λ db,
        List.existsb (λ v, bool_decide (email v = e)) (users db));
      if dup_id then throw (DuplicateKey "_id")
      else if dup_email then throw (DuplicateKey "email")
      else run write (λ db, mkDb (users db ++ [u]) (tasks db) (activityLogs db));
           ret u
  | messages, _, _, _, _, _ => throw (ValidationError messages)
  end.

(** [toObject] of a user document: the paths it holds. *)
Definition User_toObject (u : IUser) : gmap string JsVal :=
  let o : gmap string JsVal :=
    {[ "_id" := JStr (user_id u); "email" := JStr (email u);
       "role" := JStr (UserRole_value (role u));
       "firstName" := JStr (firstName u); "lastName" := JStr (lastName u);
       "createdAt" := JDate (user_createdAt u);
       "updatedAt" := JDate (user_updatedAt u) ]} in
  match password u with
  | Some h => <["password" := JStr h]> o
  | None => o
  end.

(** [toJSON] with the schema's transform, [delete ret.password]. *)
Definition User_toJSON (u : IUser) : gmap string JsVal :=
  delete "password" (User_toObject u).

(** ** Mongoose: the Task model (models/Task.ts) *)

(** The [pre("save")] hook: every tag is lower-cased and trimmed, then
    the empty ones and the repeated ones are dropped, the first
    occurrence being kept. (Faithful on tags of the ASCII range, as
    [Js.toLowerCase] and [Js.trim] are.) *)
Definition normalize_tags (tags : list string) : list string :=
  let arr := (λ tag, Js.trim (Js.toLowerCase tag)) <$> tags in
  (filter (λ it, Js.truthy it.2 ∧ Js.indexOf arr it.2 = Z.of_nat it.1)
          (imap (λ index tag, (index, tag)) arr)).*2.

(** The virtual [isOverdue]: the value of
    [this.dueDate && this.dueDate < new Date() && this.status !== DONE],
    which is [undefined] when no due date is set and a boolean
    otherwise. *)
Definition isOverdue (now : Date) (t : ITask) : JsVal :=
  match dueDate t with
  | None => JUndefined
  | Some d => JBool (bool_decide (d < now) && bool_decide (status t ≠ DONE))
  end.

Definition JsVal_truthy (v : JsVal) : bool :=
  match v with
  | JUndefined => false
  | JBool b => b
  | JStr s => Js.truthy s
  | JDate _ | JStrs _ => true
  end.

(** The validators of the schema paths, on values already cast. *)
Definition validate_title (v : string) : list string :=
  if Js.truthy v
  then check (Z.of_nat (String.length v) <=? 200)
             "Title cannot exceed 200 characters"
  else ["Task title is required"].

Definition validate_description (v : string) : list string :=
  check (Z.of_nat (String.length v) <=? 2000)
        "Description cannot exceed 2000 characters".

Definition validate_status (v : string) : list string :=
  check (bool_decide (is_Some (TaskStatus_of v)))
        "Status must be todo, in-progress, or done".

Definition validate_priority (v : string) : list string :=
  check (bool_decide (is_Some (TaskPriority_of v)))
        "Priority must be low, medium, high, or urgent".

(** [!value || value > new Date()]; a [Date] is never falsy. *)
Definition validate_dueDate (now : Date) (v : Date) : list string :=
  check (bool_decide (now < v)) "Due date must be in the future".

Definition validate_tags (v : list string) : list string :=
  check (Z.of_nat (length v) <=? 10) "Cannot have more than 10 tags".

Definition on_present {A} (v : option A) (f : A → list string) : list string :=
  match v with Some a => f a | None => [] end.

(** A body with the setters of the string paths applied ([trim] on
    [title] and [description]). *)
Definition cast_body (b : TaskBody) : TaskBody :=
  mkBody (Js.trim <$> b_title b) (Js.trim <$> b_description b)
         (b_status b) (b_priority b) (b_due b) (b_tags b) (b_assignee b).

(** The messages of the paths of [b] that fail their validators. *)
Definition validate_paths (now : Date) (b : TaskBody) : list string :=
  concat [
    on_present (b_title b) validate_title;
    on_present (b_description b) validate_description;
    on_present (b_status b) validate_status;
    on_present (b_priority b) validate_priority;
    on_present (b_dueDate b) (validate_dueDate now);
    on_present (b_tags b) validate_tags ].

Definition has_task_id (oid : ObjectId) (t : ITask) : bool :=
  bool_decide (task_id t = oid).

(** [Task.create]: defaults and setters, validation of the document,
    the [pre("save")] hook, then the insertion under the unique index on
    [_id]. *)
Definition Task_create (newId : ObjectId) (now : Date) (b : TaskBody)
    (creator : ObjectId) : Action ITask :=
  let b := cast_body b in
  let messages :=
    concat [
      match b_title b with
      | Some v => validate_title v
      | None => ["Task title is required"]
      end;
      validate_paths now
        (mkBody None (b_description b) (b_status b) (b_priority b)
                (b_due b) (b_tags b) None);
      match b_assignee b with
      | Some v => check (bool_decide (is_Some (castObjectId v)))
                        "Cast to ObjectId failed"
      | None => ["Assignee is required"]
      end ] in
  match messages, b_title b, b_assignee b ≫= castObjectId with
  | [], Some ttl, Some who =>
      let t :=
        mkTask newId ttl (b_description b)
          (default TODO (b_status b ≫= TaskStatus_of))
          (default MEDIUM (b_priority b ≫= TaskPriority_of))
          (b_dueDate b)
          (normalize_tags (default [] (b_tags b)))
          who creator now now in
      do dup <- read (λ db, List.existsb (has_task_id newId) (tasks db));
      if dup then throw (DuplicateKey "_id")
      else run write (λ db, mkDb (users db) (tasks db ++ [t]) (activityLogs db));
           ret t
  | messages, _, _ => throw (ValidationError messages)
  end.

Definition Task_findById (id : string) : Action (option ITask) :=
  match castObjectId id with
  | None => throw CastError
  | Some oid => read (λ db, List.find (has_task_id oid) (tasks db))
  end.

(** The fields set by an update, once cast and validated. *)
Record TaskSet := mkSet {
  set_title : option string;
  set_description : option string;
  set_status : option TaskStatus;
  set_priority : option TaskPriority;
  set_dueDate : option Date;
  set_tags : option (list string);
  set_assignee : option ObjectId;
}.

(** Casting and validating an update document ([runValidators: true]).
    Only the paths present are validated; no [save] middleware runs on
    an update. *)
Definition cast_update (now : Date) (b : TaskBody) : Error + TaskSet :=
  let b := cast_body b in
  match b_assignee b, b_assignee b ≫= castObjectId with
  | Some _, None => inl CastError
  | _, who =>
      match validate_paths now b with
      | [] =>
          inr (mkSet (b_title b) (b_description b)
                     (b_status b ≫= TaskStatus_of)
                     (b_priority b ≫= TaskPriority_of)
                     (b_dueDate b) (b_tags b) who)
      | messages => inl (ValidationError messages)
      end
  end.

(** [$set] of the fields present; [timestamps: true] refreshes
    [updatedAt]. *)
Definition apply_set (now : Date) (s : TaskSet) (t : ITask) : ITask :=
  mkTask (task_id t)
    (default (title t) (set_title s))
    (match set_description s with Some d => Some d | None => description t end)
    (default (status t) (set_status s))
    (default (priority t) (set_priority s))
    (match set_dueDate s with Some d => Some d | None => dueDate t end)
    (default (tags t) (set_tags s))
    (default (assignee t) (set_assignee s))
    (createdBy t) (createdAt t) now.

(** Replace the first document that satisfies [p]. *)
Fixpoint update_first (p : ITask → bool) (f : ITask → ITask) (l : list ITask)
  : list ITask :=
  match l with
  | [] => []
  | t :: r => if p t then f t :: r else t :: update_first p f r
  end.

(** [Task.findByIdAndUpdate(id, updates, {new: true, runValidators:
    true})]: the updated document, or [null] when there is none. *)
Definition Task_findByIdAndUpdate (now : Date) (id : string) (b : TaskBody)
  : Action (option ITask) :=
  match castObjectId id, cast_update now b with
  | None, _ => throw CastError
  | _, inl e => throw e
  | Some oid, inr s =>
      run write (λ db,
        mkDb (users db) (update_first (has_task_id oid) (apply_set now s) (tasks db))
             (activityLogs db));
      read (λ db, List.find (has_task_id oid) (tasks db))
  end.

Definition Task_findByIdAndDelete (id : string) : Action unit :=
  match castObjectId id with
  | None => throw CastError
  | Some oid =>
      write (λ db, mkDb (users db)
                        (filter (λ t, task_id t ≠ oid) (tasks db))
                        (activityLogs db))
  end.

(** The result of [updateMany]. *)
Record UpdateResult := mkResult { matchedCount : Z; modifiedCount : Z }.

(** [Task.updateMany({_id: {$in: ids}}, updates, {runValidators:
    true})]. *)
Definition Task_updateMany_ids (now : Date) (ids : list string) (b : TaskBody)
  : Action UpdateResult :=
  match mapM castObjectId ids, cast_update now b with
  | None, _ => throw CastError
  | _, inl e => throw e
  | Some oids, inr s =>
      let hit (t : ITask) := bool_decide (task_id t ∈ oids) in
      do old <- read tasks;
      run write (λ db,
        mkDb (users db)
             ((λ t, if hit t then apply_set now s t else t) <$> tasks db)
             (activityLogs db));
      ret (mkResult
             (Z.of_nat (length (filter (λ t, hit t) old)))
             (Z.of_nat (length (filter
                (λ t, hit t ∧ apply_set now s t ≠ t) old))))
  end.

Definition ActivityLog_create (task : string) (user : ObjectId)
    (a : ActivityAction) (c : gmap string ChangeVal) (now : Date)
  : Action unit :=
  match castObjectId task with
  | None => throw (ValidationError ["Cast to ObjectId failed"])
  | Some oid =>
      write (λ db, mkDb (users db) (tasks db)
                        (activityLogs db ++ [mkLog oid user a c now]))
  end.

(** ** Queries on tasks *)

(** The conditions a handler puts in a [filter] object; a filter is the
    conjunction of its conditions. *)
Inductive Cond :=
| Assignee_is (oid : ObjectId)
| Assignee_eq (id : string)
| Search (pattern : string)
| Status_eq (s : string)
| Status_ne (s : string)
| Priority_eq (p : string)
| Tags_in (l : list string)
| DueDate_gte (d : Date)
| DueDate_lte (d : Date)
| DueDate_lt (d : Date).

(** Only an identifier given as a string needs casting ([Assignee_eq]; an
    [ObjectId] is taken as it is, [Assignee_is]); a string that is not
    an identifier raises a [CastError] when the query runs. *)
Definition castable (c : Cond) : bool :=
  match c with
  | Assignee_eq id => bool_decide (is_Some (castObjectId id))
  | _ => true
  end.

Definition matches_cond `{External} (c : Cond) (t : ITask) : bool :=
  match c with
  | Assignee_is oid => bool_decide (assignee t = oid)
  | Assignee_eq id => bool_decide (castObjectId id = Some (assignee t))
  | Search pattern =>
      regex_test pattern true (title t)
      || from_option (regex_test pattern true) false (description t)
  | Status_eq s => bool_decide (TaskStatus_value (status t) = s)
  | Status_ne s => bool_decide (TaskStatus_value (status t) ≠ s)
  | Priority_eq p => bool_decide (TaskPriority_value (priority t) = p)
  | Tags_in l => existsb (λ tag, bool_decide (tag ∈ l)) (tags t)
  | DueDate_gte d => from_option (λ x, bool_decide (d ≤ x)) false (dueDate t)
  | DueDate_lte d => from_option (λ x, bool_decide (x ≤ d)) false (dueDate t)
  | DueDate_lt d => from_option (λ x, bool_decide (x < d)) false (dueDate t)
  end.

Definition matches `{External} (f : list Cond) (t : ITask) : bool :=
  forallb (λ c, matches_cond c t) f.

(** Sort keys, in the order the store compares them: a missing value
    first, then numbers and dates, then strings. *)
Inductive SortKey := KNull | KNum (z : Z) | KStr (s : string).

Definition SortKey_le (a b : SortKey) : bool :=
  match a, b with
  | KNull, _ => true
  | _, KNull => false
  | KNum x, KNum y => x <=? y
  | KNum _, KStr _ => true
  | KStr _, KNum _ => false
  | KStr x, KStr y => String.leb x y
  end.

(** The key of a task under [sort[sortBy]]; a field outside the
    sortable ones orders nothing. *)
Definition task_sort_key (sortBy : string) (t : ITask) : SortKey :=
  if decide (sortBy = "title") then KStr (title t)
  else if decide (sortBy = "status") then KStr (TaskStatus_value (status t))
  else if decide (sortBy = "priority") then KStr (TaskPriority_value (priority t))
  else if decide (sortBy = "dueDate") then from_option KNum KNull (dueDate t)
  else if decide (sortBy = "createdAt") then KNum (createdAt t)
  else if decide (sortBy = "updatedAt") then KNum (updatedAt t)
  else KNull.

(** The order of a sort on one key: ascending for direction 1,
    descending for -1. *)
Definition sorted_by {A} (key : A → SortKey) (ascending : bool) : relation A :=
  λ a b, if ascending then SortKey_le (key a) (key b)
         else SortKey_le (key b) (key a).

#[global] Instance sorted_by_dec {A} (key : A → SortKey) ascending a b :
  Decision (sorted_by key ascending a b).
Proof. unfold sorted_by. destruct ascending; apply _. Defined.

Definition skip_limit {A} (skip limit : Z) (l : list A) : list A :=
  take (Z.to_nat limit) (drop (Z.to_nat skip) l).

(** [Task.find(filter)], the documents in insertion order. *)
Definition Task_find `{External} (f : list Cond) : Action (list ITask) :=
  if forallb castable f
  then read (λ db, filter (λ t, matches f t) (tasks db))
  else throw CastError.

Definition Task_countDocuments `{External} (f : list Cond) : Action Z :=
  do found <- Task_find f; ret (Z.of_nat (length found)).

(** A reference replaced by [populate(path, "firstName lastName email")]:
    the identifier and the three selected fields. *)
Record UserRef := mkRef {
  ref_id : ObjectId;
  ref_firstName : string;
  ref_lastName : string;
  ref_email : string;
}.

(** A task whose [assignee] and [createdBy] have been populated; a
    reference to a user that no longer exists becomes [null]. *)
Record PopulatedTask := mkPopulated {
  doc : ITask;
  assignee_ref : option UserRef;
  createdBy_ref : option UserRef;
}.

Definition user_ref (u : IUser) : UserRef :=
  mkRef (user_id u) (firstName u) (lastName u) (email u).

Definition populate_ref (db : Db) (oid : ObjectId) : option UserRef :=
  user_ref <$> List.find (has_id oid) (users db).

Definition populated (db : Db) (t : ITask) : PopulatedTask :=
  mkPopulated t (populate_ref db (assignee t)) (populate_ref db (createdBy t)).

Definition populate (t : ITask) : Action PopulatedTask :=
  read (λ db, populated db t).

Definition populate_all (l : list ITask) : Action (list PopulatedTask) :=
  read (λ db, populated db <$> l).

Definition UserRef_toJSON (r : UserRef) : gmap string JsVal :=
  {[ "_id" := JStr (ref_id r); "firstName" := JStr (ref_firstName r);
     "lastName" := JStr (ref_lastName r); "email" := JStr (ref_email r) ]}.

(** ** controllers/tasks.ts *)

(** The query string of the task list. *)
Record TaskQuery := mkQuery {
  q_search : option string;
  q_status : option string;
  q_priority : option string;
  q_assignee : option string;
  q_tags : option (list string);
  q_dueDateFrom : option Date;
  q_dueDateTo : option Date;
  q_page : option string;
  q_limit : option string;
  q_sortBy : option string;
  q_sortOrder : option string;
}.

Record Pagination := mkPagination {
  currentPage : Z;
  totalPages : Z;
  totalItems : Z;
  itemsPerPage : Z;
  hasNextPage : bool;
  hasPrevPage : bool;
}.

Record PaginatedResponse (A : Type) := mkPaginated {
  page_message : string;
  page_data : list A;
  pagination : Pagination;
}.
Arguments mkPaginated {A} _ _ _.
Arguments page_message {A} _.
Arguments page_data {A} _.
Arguments pagination {A} _.

(** A condition added only when the value is given and truthy. *)
Definition when_truthy (v : option string) (c : string → Cond) : list Cond :=
  match v with
  | Some s => if Js.truthy s then [c s] else []
  | None => []
  end.

Definition when_given {A} (v : option A) (c : A → Cond) : list Cond :=
  match v with Some a => [c a] | None => [] end.

(** The [filter] object of [getTasks]. *)
Definition getTasks_filter (user : IUser) (q : TaskQuery) : list Cond :=
  concat [
    if decide (role user = MEMBER) then [Assignee_is (user_id user)]
    else when_truthy (q_assignee q) Assignee_eq;
    when_truthy (q_search q) Search;
    when_truthy (q_status q) Status_eq;
    when_truthy (q_priority q) Priority_eq;
    match q_tags q with
    | Some (tag :: l) => [Tags_in (tag :: l)]
    | _ => []
    end;
    when_given (q_dueDateFrom q) DueDate_gte;
    when_given (q_dueDateTo q) DueDate_lte ].

(** [Math.max(1, parseInt(page))] and
    [Math.min(100, Math.max(1, parseInt(limit)))], the defaults being 1
    and 10. The skip and the number of pages are then computed in the
    integers; the handler computes them in doubles, which gives another
    skip only from [2^53] on, beyond the end of any collection. *)
Definition pageNumber_of (page : option string) : Js.Num :=
  Js.Math_max 1 (Js.parseInt (default "1" page)).

Definition limitNumber_of (limit : option string) : Js.Num :=
  Js.Math_min 100 (Js.Math_max 1 (Js.parseInt (default "10" limit))).

Definition paginate (pageNumber limitNumber total : Z) : Pagination :=
  let totalPages := Js.Math_ceil_div total limitNumber in
  mkPagination pageNumber totalPages total limitNumber
               (pageNumber <? totalPages) (1 <? pageNumber).

Definition getTasks `{External} (user : option IUser) (q : TaskQuery)
  : Action (Z * PaginatedResponse PopulatedTask) :=
  match user with
  | None => throw (AppError "Authentication required" 401)
  | Some user =>
      let filter := getTasks_filter user q in
      match pageNumber_of (q_page q), limitNumber_of (q_limit q) with
      | Js.Int pageNumber, Js.Int limitNumber =>
          let skip := (pageNumber - 1) * limitNumber in
          let sortBy := default "createdAt" (q_sortBy q) in
          let ascending := bool_decide (q_sortOrder q = Some "asc") in
          do found <- Task_find filter;
          do tasks <- populate_all
            (skip_limit skip limitNumber
               (merge_sort (sorted_by (task_sort_key sortBy) ascending) found));
          do totalTasks <- Task_countDocuments filter;
          ret (200, mkPaginated "Tasks retrieved successfully" tasks
                      (paginate pageNumber limitNumber totalTasks))
      | _, _ =>
          (* the store refuses a skip or a limit that is [NaN] or
             infinite *)
          throw InternalError
      end
  end.

Definition ActivityLog_history (id : string) : Action (list IActivityLog) :=
  match castObjectId id with
  | None => throw CastError
  | Some oid =>
      read (λ db,
        take 20 (merge_sort (sorted_by (λ e, KNum (timestamp e)) false)
                   (filter (λ e, taskId e = oid) (activityLogs db))))
  end.

Record TaskDetail := mkDetail {
  detail_task : PopulatedTask;
  activityHistory : list IActivityLog;
}.

Definition getTaskById (user : option IUser) (id : string)
  : Action (Z * TaskDetail) :=
  match user with
  | None => throw (AppError "Authentication required" 401)
  | Some user =>
      do found <- Task_findById id;
      match found with
      | None => throw (AppError "Task not found" 404)
      | Some t =>
          do task <- populate t;
          let denied :=
            if decide (role user = MEMBER) then
              match assignee_ref task with
              | Some r => inr (bool_decide (ref_id r ≠ user_id user))
              | None => inl InternalError (* [task.assignee] is [null] *)
              end
            else inr false in
          match denied with
          | inl e => throw e
          | inr true =>
              throw (AppError
                "Access denied. You can only view your assigned tasks." 403)
          | inr false =>
              do history <- ActivityLog_history id;
              ret (200, mkDetail task history)
          end
      end
  end.

Definition createTask `{External} (user : option IUser) (body : TaskBody)
    (newId : ObjectId) (now : Date) : Action (Z * PopulatedTask) :=
  match user with
  | None => throw (AppError "Authentication required" 401)
  | Some user =>
      do assigneeUser <-
        match b_assignee body with
        | Some a => User_findById DefaultSelect a
        | None => ret None
        end;
      match assigneeUser with
      | None => throw (AppError "Assignee not found" 404)
      | Some assigneeUser =>
          do created <- Task_create newId now body (user_id user);
          do task <- populate created;
          run ActivityLog_create (task_id created) (user_id user) CREATE
                {[ "title" := CVal (from_option JStr JUndefined (b_title body));
                   "assignee" := CVal (JStr (email assigneeUser)) ]} now;
          ret (201, task)
      end
  end.

(** [JSON.stringify] of a value: no text for [undefined], a string
    between quotes, a date as the string [toISOString] gives
    ([Date.prototype.toJSON]), an array as its elements between
    brackets. *)
Fixpoint JSON_items (l : list string) : string :=
  match l with
  | [] => ""
  | s :: l =>
      Js.JSON_quote s
      +:+ match l with [] => "" | _ :: _ => "," +:+ JSON_items l end
  end.

Definition JSON_stringify (v : JsVal) : option string :=
  match v with
  | JUndefined => None
  | JBool b => Some (if b then "true" else "false")
  | JStr s => Some (Js.JSON_quote s)
  | JDate d => Some (Js.JSON_quote (Js.toISOString d))
  | JStrs l => Some ("[" +:+ JSON_items l +:+ "]")
  end.

(** One step of the field-level diff of [updateTask]: the field enters
    [changes] when the update carries it and its JSON text differs from
    that of the original value. *)
Definition diff_field (field : string) (originalValue : JsVal)
    (newValue : option JsVal) (changes : gmap string ChangeVal)
  : gmap string ChangeVal :=
  match newValue with
  | Some v =>
      if decide (JSON_stringify v ≠ JSON_stringify originalValue)
      then <[field := CFromTo (mkChange originalValue v)]> changes
      else changes
  | None => changes
  end.

Definition diff_fields (originalTask : ITask) (updates : TaskBody)
    (changes : gmap string ChangeVal) : gmap string ChangeVal :=
  let changes :=
    diff_field "title" (JStr (title originalTask))
      (JStr <$> b_title updates) changes in
  let changes :=
    diff_field "description"
      (from_option JStr JUndefined (description originalTask))
      (JStr <$> b_description updates) changes in
  let changes :=
    diff_field "status" (JStr (TaskStatus_value (status originalTask)))
      (JStr <$> b_status updates) changes in
  let changes :=
    diff_field "priority" (JStr (TaskPriority_value (priority originalTask)))
      (JStr <$> b_priority updates) changes in
  let changes :=
    diff_field "dueDate" (from_option JDate JUndefined (dueDate originalTask))
      (JStr ∘ date_text <$> b_due updates) changes in
  diff_field "tags" (JStrs (tags originalTask)) (JStrs <$> b_tags updates)
    changes.

Definition member_of_other (user : IUser) (t : ITask) : bool :=
  bool_decide (role user = MEMBER) && bool_decide (assignee t ≠ user_id user).

Definition updateTask (user : option IUser) (id : string) (updates : TaskBody)
    (now : Date) : Action (Z * option PopulatedTask) :=
  match user with
  | None => throw (AppError "Authentication required" 401)
  | Some user =>
      do found <- Task_findById id;
      match found with
      | None => throw (AppError "Task not found" 404)
      | Some task =>
          if member_of_other user task then
            throw (AppError
              "Access denied. You can only update your assigned tasks." 403)
          else
            do changes <-
              match b_assignee updates with
              | Some a =>
                  if Js.truthy a && bool_decide (a ≠ assignee task) then
                    do assigneeUser <- User_findById DefaultSelect a;
                    match assigneeUser with
                    | None => throw (AppError "Assignee not found" 404)
                    | Some _ =>
                        ret {[ "assignee" :=
                          CFromTo (mkChange (JStr (assignee task)) (JStr a)) ]}
                    end
                  else ret ∅
              | None => ret ∅
              end;
            let changes := diff_fields task updates changes in
            do updated <- Task_findByIdAndUpdate now id updates;
            do updatedTask <-
              match updated with
              | Some t => do p <- populate t; ret (Some p)
              | None => ret None
              end;
            run (if decide (changes ≠ ∅)
                 then ActivityLog_create id (user_id user) UPDATE changes now
                 else ret tt);
            ret (200, updatedTask)
      end
  end.

Definition deleteTask (user : option IUser) (id : string) (now : Date)
  : Action (Z * string) :=
  match user with
  | None => throw (AppError "Authentication required" 401)
  | Some user =>
      do found <- Task_findById id;
      match found with
      | None => throw (AppError "Task not found" 404)
      | Some task =>
          if member_of_other user task then
            throw (AppError
              "Access denied. You can only delete your assigned tasks." 403)
          else
            run Task_findByIdAndDelete id;
            run ActivityLog_create id (user_id user) DELETE
                  {[ "title" := CVal (JStr (title task)) ]} now;
            ret (200, "Task deleted successfully")
      end
  end.

(** Run an action on each element, in order. *)
Fixpoint for_each {A} (l : list A) (f : A → Action unit) : Action unit :=
  match l with
  | [] => ret tt
  | a :: r => run f a; for_each r f
  end.

Definition bulkUpdateTasks (user : option IUser) (taskIds : list string)
    (updates : TaskBody) (now : Date) : Action (Z * UpdateResult) :=
  match user with
  | None => throw (AppError "Authentication required" 401)
  | Some user =>
      let validTaskIds := List.filter ObjectId_isValid taskIds in
      if decide (length validTaskIds ≠ length taskIds) then
        throw (AppError "One or more task IDs are invalid" 400)
      else
        run match b_assignee updates with
            | Some a =>
                if Js.truthy a then
                  do assigneeUser <- User_findById DefaultSelect a;
                  match assigneeUser with
                  | None => throw (AppError "Assignee not found" 404)
                  | Some _ => ret tt
                  end
                else ret tt
            | None => ret tt
            end;
        do result <- Task_updateMany_ids now validTaskIds updates;
        run for_each validTaskIds (λ taskId,
              ActivityLog_create taskId (user_id user) UPDATE
                {[ "bulk" := CVal (JBool true); "updates" := CUpdates updates ]}
                now);
        ret (200, result)
  end.

Definition getOverdueTasks `{External} (user : option IUser) (now : Date)
  : Action (Z * list PopulatedTask) :=
  match user with
  | None => throw (AppError "Authentication required" 401)
  | Some user =>
      let filter :=
        [DueDate_lt now; Status_ne "done"]
        ++ (if decide (role user = MEMBER) then [Assignee_is (user_id user)]
            else []) in
      do found <- Task_find filter;
      do overdueTasks <- populate_all
        (merge_sort (sorted_by (task_sort_key "dueDate") true) found);
      ret (200, overdueTasks)
  end.

(** ** controllers/users.ts *)

Record UserQuery := mkUserQuery {
  uq_search : option string;
  uq_role : option string;
  uq_page : option string;
  uq_limit : option string;
  uq_sortBy : option string;
  uq_sortOrder : option string;
}.

Definition user_matches `{External} (q : UserQuery) (u : IUser) : bool :=
  match uq_search q with
  | Some s =>
      if Js.truthy s
      then regex_test s true (firstName u) || regex_test s true (lastName u)
           || regex_test s true (email u)
      else true
  | None => true
  end
  && match uq_role q with
     | Some r => if Js.truthy r then bool_decide (UserRole_value (role u) = r)
                 else true
     | None => true
     end.

Definition user_sort_key (sortBy : string) (u : IUser) : SortKey :=
  if decide (sortBy = "firstName") then KStr (firstName u)
  else if decide (sortBy = "lastName") then KStr (lastName u)
  else if decide (sortBy = "email") then KStr (email u)
  else if decide (sortBy = "role") then KStr (UserRole_value (role u))
  else if decide (sortBy = "createdAt") then KNum (user_createdAt u)
  else if decide (sortBy = "updatedAt") then KNum (user_updatedAt u)
  else KNull.

(** The user list; every document is serialized by [res.json]. *)
Definition getUsers `{External} (q : UserQuery)
  : Action (Z * PaginatedResponse (gmap string JsVal)) :=
  match pageNumber_of (uq_page q), limitNumber_of (uq_limit q) with
  | Js.Int pageNumber, Js.Int limitNumber =>
      let skip := (pageNumber - 1) * limitNumber in
      let sortBy := default "createdAt" (uq_sortBy q) in
      let ascending := bool_decide (uq_sortOrder q = Some "asc") in
      do found <- read (λ db, filter (λ u, user_matches q u) (users db));
      let users :=
        select MinusPassword <$>
          skip_limit skip limitNumber
            (merge_sort (sorted_by (user_sort_key sortBy) ascending) found) in
      let totalUsers := Z.of_nat (length found) in
      ret (200, mkPaginated "Users retrieved successfully"
                  (User_toJSON <$> users)
                  (paginate pageNumber limitNumber totalUsers))
  | _, _ => throw InternalError
  end.

Record UserTaskStats := mkStats {
  stat_todo : Z;
  stat_in_progress : Z;
  stat_done : Z;
  stat_total : Z;
}.

Definition count_status (oid : ObjectId) (s : TaskStatus) (l : list ITask) : Z :=
  Z.of_nat (length (filter (λ t, assignee t = oid ∧ status t = s) l)).

Definition getUserById (id : string)
  : Action (Z * (gmap string JsVal * UserTaskStats)) :=
  if ObjectId_isValid id then
    do user <- User_findById MinusPassword id;
    match user with
    | None => throw (AppError "User not found" 404)
    | Some user =>
        do all <- read tasks;
        let oid := Js.toLowerCase id in
        let todo := count_status oid TODO all in
        let in_progress := count_status oid IN_PROGRESS all in
        let done := count_status oid DONE all in
        ret (200, (User_toJSON user,
                   mkStats todo in_progress done (todo + in_progress + done)))
    end
  else throw (AppError "Invalid user ID format" 400).

Definition deleteUser `{External} (caller : option IUser) (id : string)
  : Action (Z * string) :=
  if negb (ObjectId_isValid id) then
    throw (AppError "Invalid user ID format" 400)
  else if bool_decide (user_id <$> caller = Some id) then
    throw (AppError "You cannot delete your own account" 400)
  else
    do user <- User_findById DefaultSelect id;
    match user with
    | None => throw (AppError "User not found" 404)
    | Some _ =>
        do assignedTasks <- Task_countDocuments [Assignee_eq id];
        if 0 <? assignedTasks then
          throw (AppError
            ("Cannot delete user. They have " +:+ pretty assignedTasks
             +:+ " assigned task(s). Please reassign these tasks first.") 400)
        else
          run User_findByIdAndDelete id;
          ret (200, "User deleted successfully")
    end.

(** ** middleware/auth.ts, utils/jwt.ts and controllers/auth.ts *)

(** [authenticate], from the user identifier the verified token
    carries; [None] stands for a missing or rejected token. *)
Definition authenticate (decoded : option string) : Action IUser :=
  match decoded with
  | None => throw (AppError "Access denied. No token provided." 401)
  | Some userId =>
      do user <- User_findById MinusPassword userId;
      match user with
      | None => throw (AppError "Token is valid but user no longer exists." 401)
      | Some user => ret user
      end
  end.

Definition requireAdmin (user : option IUser) : Action unit :=
  match user with
  | None => throw (AppError "Authentication required." 401)
  | Some user =>
      if decide (role user ≠ ADMIN)
      then throw (AppError "Access denied. Admin privileges required." 403)
      else ret tt
  end.

Record AuthResponse := mkAuth {
  auth_message : string;
  auth_user : gmap string JsVal;
  auth_token : string;
}.

(** [sendTokenResponse]: [res.json] serializes the user document
    through its [toJSON]. *)
Definition sendTokenResponse `{External} (user : IUser) (statusCode : Z)
    (message : string) : Z * AuthResponse :=
  (statusCode, mkAuth message (User_toJSON user) (jwt_sign (user_id user))).

Definition register `{External} (body : RegisterBody) (newId : ObjectId)
    (now : Date) : Action (Z * AuthResponse) :=
  do existingUser <-
    match r_email body with
    | Some e => User_findOne_email DefaultSelect e
    | None => ret None
    end;
  match existingUser with
  | Some _ => throw (AppError "User with this email already exists" 400)
  | None =>
      let role :=
        match r_role body with
        | Some r => if Js.truthy r then r else "member"
        | None => "member"
        end in
      do user <- User_create newId now (r_email body) (r_password body)
                   (r_firstName body) (r_lastName body) role;
      ret (sendTokenResponse user 201 "User registered successfully")
  end.

Record LoginBody := mkLogin { l_email : string; l_password : string }.

Definition login `{External} (body : LoginBody) : Action (Z * AuthResponse) :=
  do user <- User_findOne_email PlusPassword (l_email body);
  match user with
  | None => throw (AppError "Invalid credentials" 401)
  | Some user =>
      let isMatch := from_option (bcrypt_compare (l_password body)) false (password user) in
      if isMatch then
        let user := set_password None user in
        ret (sendTokenResponse user 200 "Logged in successfully")
      else throw (AppError "Invalid credentials" 401)
  end.

Definition getProfile (user : option IUser)
  : Action (Z * gmap string JsVal) :=
  match user with
  | None => throw (AppError "User not found" 404)
  | Some user => ret (200, User_toJSON user)
  end.

(** ** Notions used to state the properties *)

(** A query that asks for no filter, its assignee apart. *)
Definition unfiltered (q : TaskQuery) : Prop :=
  q_search q = None ∧ q_status q = None ∧ q_priority q = None
  ∧ q_tags q = None ∧ q_dueDateFrom q = None ∧ q_dueDateTo q = None.

(** The window of a sorted list that a page shows. *)
Definition page_window (q : TaskQuery) (p l : Z) (found : list ITask)
  : list ITask :=
  skip_limit ((Z.max 1 p - 1) * Z.min 100 (Z.max 1 l)) (Z.min 100 (Z.max 1 l))
    (merge_sort
       (sorted_by (task_sort_key (default "createdAt" (q_sortBy q)))
                  (bool_decide (q_sortOrder q = Some "asc")))
       found).

(** Overdue, in the words of the specification: the due date is set,
    it lies before now, and the task is not done. *)
Definition overdue_spec (now : Date) (t : ITask) : bool :=
  bool_decide (dueDate t ≠ None)
  && from_option (λ d, bool_decide (d < now)) false (dueDate t)
  && bool_decide (status t ≠ DONE).

(** The check of a new assignee made by [updateTask], which opens the
    [changes] of the call. *)
Definition check_new_assignee (task : ITask) (updates : TaskBody)
  : Action (gmap string ChangeVal) :=
  match b_assignee updates with
  | Some a =>
      if Js.truthy a && bool_decide (a ≠ assignee task) then
        do assigneeUser <- User_findById DefaultSelect a;
        match assigneeUser with
        | None => throw (AppError "Assignee not found" 404)
        | Some _ =>
            ret {[ "assignee" :=
              CFromTo (mkChange (JStr (assignee task)) (JStr a)) ]}
        end
      else ret ∅
  | None => ret ∅
  end.

(** The [changes] that [updateTask] computes for a task and an update
    when the new assignee, if any, exists. *)
Definition assignee_changes (task : ITask) (updates : TaskBody)
  : gmap string ChangeVal :=
  match b_assignee updates with
  | Some a =>
      if Js.truthy a && bool_decide (a ≠ assignee task)
      then {[ "assignee" := CFromTo (mkChange (JStr (assignee task)) (JStr a)) ]}
      else ∅
  | None => ∅
  end.

Definition update_changes (task : ITask) (updates : TaskBody)
  : gmap string ChangeVal :=
  diff_fields task updates (assignee_changes task updates).



(** The new assignee an update asks for, if it asks for one, exists. *)
Definition new_assignee_exists (db : Db) (task : ITask) (updates : TaskBody)
  : Prop :=
  ∀ a, b_assignee updates = Some a → Js.truthy a = true → a ≠ assignee task →
       ∃ u, u ∈ users db ∧ castObjectId a = Some (user_id u).

(** When a requested value counts as a change of the original one. A
    due date is requested as a text and kept as a date: the text
    differs from the date unless it is the text [toISOString] gives for
    it. Every other pair of values differs unless the two are equal. *)
Definition differs (v originalValue : JsVal) : Prop :=
  match v, originalValue with
  | JStr s, JDate d => s ≠ Js.toISOString d
  | _, _ => v ≠ originalValue
  end.

#[global] Instance differs_dec v o : Decision (differs v o).
Proof. unfold differs. destruct v, o; apply _. Defined.





(** The check of the new assignee made by the bulk update. *)
Definition bulk_check_assignee (updates : TaskBody) : Action unit :=
  match b_assignee updates with
  | Some a =>
      if Js.truthy a then
        do assigneeUser <- User_findById DefaultSelect a;
        match assigneeUser with
        | None => throw (AppError "Assignee not found" 404)
        | Some _ => ret tt
        end
      else ret tt
  | None => ret tt
  end.

(** The [changes] of the entry a bulk update logs. *)
Definition bulk_changes (updates : TaskBody) : gmap string ChangeVal :=
  {[ "bulk" := CVal (JBool true); "updates" := CUpdates updates ]}.

(** The reading of "one entry per affected task" under which the
    entries written by a successful bulk update are as many as the
    tasks the batch matched. *)
Definition bulk_logs_count_matched : Prop :=
  ∀ user taskIds updates now db code result db',
    respond (bulkUpdateTasks user taskIds updates now) db
      = (Sent code result, db') →
    Z.of_nat (length (activityLogs db')) - Z.of_nat (length (activityLogs db))
      = matchedCount result.

(** The user objects embedded in a task of a response. *)
Definition task_users (t : PopulatedTask) : list (gmap string JsVal) :=
  UserRef_toJSON <$> (option_list (assignee_ref t)
                      ++ option_list (createdBy_ref t)).

(** A text of the ASCII range: every character is below 128. On such
    a text [toLowerCase] and [trim] above are those of JavaScript. *)
Definition is_ascii (s : string) : Prop :=
  forallb (λ c, (nat_of_ascii c <? 128)%nat) (list_ascii_of_string s) = true.


(** A normalized list of tags: every tag is lower-cased, trimmed and
    not empty, no tag occurs twice, and there are at most ten. *)
Definition tag_normalized (tag : string) : Prop :=
  Js.toLowerCase tag = tag ∧ Js.trim tag = tag ∧ tag ≠ "".

Definition tags_normalized (l : list string) : Prop :=
  Forall tag_normalized l ∧ NoDup l ∧ (length l ≤ 10)%nat.

(** A string that does not begin with white space. *)
Definition starts_clean (s : string) : Prop :=
  match s with
  | EmptyString => True
  | String c _ => Js.is_space c = false
  end.

(** A decimal numeral: one digit or more, nothing else. *)
Definition is_digit (c : ascii) : bool :=
  let n := Z.of_nat (nat_of_ascii c) in (48 <=? n) && (n <=? 57).

Definition is_decimal (s : string) : Prop :=
  s ≠ "" ∧ forallb is_digit (list_ascii_of_string s) = true.

(** ** Sample data *)

Module Sample.

Definition ext : External :=
  {| bcrypt_hash := λ p, String "#" p;
     bcrypt_compare := λ p h, bool_decide (h = String "#" p);
     jwt_sign := λ i, String "t" i;
     regex_test := λ _ _ _, true |}.

Definition ada_id : ObjectId := "64f000000000000000000a01".
Definition bob_id : ObjectId := "64f000000000000000000b02".
Definition task1_id : ObjectId := "650000000000000000000001".
Definition task2_id : ObjectId := "650000000000000000000002".
Definition absent_id : ObjectId := "65000000000000000000ffff".

Definition ada : IUser :=
  mkUser ada_id "ada@example.com" (Some "#engine") ADMIN "Ada" "L" 0 0.
Definition bob : IUser :=
  mkUser bob_id "bob@example.com" (Some "#hunter2") MEMBER "Bob" "B" 0 0.

Definition task1 : ITask :=
  mkTask task1_id "Write report" None TODO MEDIUM (Some 50) ["docs"]
         bob_id ada_id 10 10.
Definition task2 : ITask :=
  mkTask task2_id "Review" (Some "second pass") DONE HIGH None []
         ada_id ada_id 20 20.

Definition db : Db := mkDb [ada; bob] [task1; task2] [].

Definition no_query : TaskQuery :=
  mkQuery None None None None None None None None None None None.
Definition set_status_to (s : string) : TaskBody :=
  mkBody None None (Some s) None None None None.
Definition set_tags_to (l : list string) : TaskBody :=
  mkBody None None None None None (Some l) None.

End Sample.

(** * Further handlers and model methods *)

(** ** controllers/tasks.ts: the tasks of one assignee *)

(** A task whose [createdBy] alone has been populated. *)
Record CreatorTask := mkCreatorTask {
  ct_doc : ITask;
  ct_createdBy : option UserRef;
}.

Record AssigneeTasks := mkAssigneeTasks {
  at_assignee : UserRef;
  at_tasks : list CreatorTask;
  at_count : Z;
}.

Definition getTasksByAssignee `{External} (assigneeId : string)
  : Action (Z * AssigneeTasks) :=
  if negb (ObjectId_isValid assigneeId) then
    throw (AppError "Invalid assignee ID format" 400)
  else
    do found <- User_findById DefaultSelect assigneeId;
    match found with
    | None => throw (AppError "Assignee not found" 404)
    | Some who =>
        do all <- Task_find [Assignee_eq assigneeId];
        do tasks <- read (λ db,
          (λ t, mkCreatorTask t (populate_ref db (createdBy t)))
          <$> merge_sort (sorted_by (task_sort_key "createdAt") false) all);
        ret (200, mkAssigneeTasks (user_ref who) tasks (Z.of_nat (length tasks)))
    end.

(** ** models/Task.ts, models/User.ts: statics *)

Definition Task_findOverdue `{External} (now : Date) : Action (list ITask) :=
  Task_find [DueDate_lt now; Status_ne (TaskStatus_value DONE)].

Definition Task_findByAssignee `{External} (assigneeId : string)
  : Action (list ITask) :=
  Task_find [Assignee_eq assigneeId].

(** [findByEmail]: the argument is lower-cased, then cast by the query. *)
Definition User_findByEmail (e : string) : Action (option IUser) :=
  User_findOne_email DefaultSelect (Js.toLowerCase e).

Definition User_getAdmins : Action (list IUser) :=
  read (λ db, select DefaultSelect
              <$> filter (λ u, role u = ADMIN) (users db)).

Definition User_getMembers : Action (list IUser) :=
  read (λ db, select DefaultSelect
              <$> filter (λ u, role u = MEMBER) (users db)).

(** ** controllers/users.ts: role change, bulk update, dashboard *)

Definition set_role (r : UserRole) (now : Date) (u : IUser) : IUser :=
  mkUser (user_id u) (email u) (password u) r (firstName u) (lastName u)
         (user_createdAt u) now.

Definition validate_role (v : string) : list string :=
  check (bool_decide (is_Some (UserRole_of v)))
        "Role must be either admin or member".

Fixpoint update_first_user (p : IUser → bool) (f : IUser → IUser)
    (l : list IUser) : list IUser :=
  match l with
  | [] => []
  | u :: r => if p u then f u :: r else u :: update_first_user p f r
  end.

(** [User.findByIdAndUpdate(id, {role}, {new: true, runValidators:
    true})]. *)
Definition User_findByIdAndUpdate_role (sel : Select) (now : Date)
    (id : string) (r : string) : Action (option IUser) :=
  match castObjectId id, UserRole_of r with
  | None, _ => throw CastError
  | Some _, None => throw (ValidationError (validate_role r))
  | Some oid, Some newRole =>
      run write (λ db,
        mkDb (update_first_user (has_id oid) (set_role newRole now) (users db))
             (tasks db) (activityLogs db));
      read (λ db, select sel <$> List.find (has_id oid) (users db))
  end.

Definition updateUserRole (caller : option IUser) (id : string) (r : string)
    (now : Date) : Action (Z * gmap string JsVal) :=
  if negb (ObjectId_isValid id) then
    throw (AppError "Invalid user ID format" 400)
  else if bool_decide (user_id <$> caller = Some id) then
    throw (AppError "You cannot change your own role" 400)
  else
    do user <- User_findByIdAndUpdate_role MinusPassword now id r;
    match user with
    | None => throw (AppError "User not found" 404)
    | Some user => ret (200, User_toJSON user)
    end.

(** [User.updateMany({_id: {$in: ids}}, {role}, {runValidators: true})]:
    the update object of the bulk update of users holds the one key its
    route allows. *)
Definition User_updateMany_ids (now : Date) (ids : list string) (r : string)
  : Action UpdateResult :=
  match mapM castObjectId ids, UserRole_of r with
  | None, _ => throw CastError
  | Some _, None => throw (ValidationError (validate_role r))
  | Some oids, Some newRole =>
      let hit (u : IUser) := bool_decide (user_id u ∈ oids) in
      do old <- read users;
      run write (λ db,
        mkDb ((λ u, if hit u then set_role newRole now u else u) <$> users db)
             (tasks db) (activityLogs db));
      ret (mkResult
             (Z.of_nat (length (filter (λ u, hit u) old)))
             (Z.of_nat (length (filter
                (λ u, hit u ∧ set_role newRole now u ≠ u) old))))
  end.

Definition bulkUpdateUsers (caller : option IUser) (userIds : list string)
    (r : string) (now : Date) : Action (Z * UpdateResult) :=
  let validUserIds := List.filter ObjectId_isValid userIds in
  if decide (length validUserIds ≠ length userIds) then
    throw (AppError "One or more user IDs are invalid" 400)
  else if Js.truthy r
          && from_option (λ c, bool_decide (user_id c ∈ userIds)) false caller
  then throw (AppError "You cannot change your own role" 400)
  else
    do result <- User_updateMany_ids now validUserIds r;
    ret (200, result).

(** The identifier a dashboard is asked for: the text of the route
    parameter, or the identifier of the caller. *)
Inductive IdArg := Raw (s : string) | Oid (o : ObjectId).

Definition IdArg_isValid (a : IdArg) : bool :=
  match a with Raw s => ObjectId_isValid s | Oid _ => true end.

Definition IdArg_toString (a : IdArg) : string :=
  match a with Raw s => s | Oid o => o end.

Definition IdArg_cast (a : IdArg) : option ObjectId :=
  match a with Raw s => castObjectId s | Oid o => Some o end.

Record DashboardStats := mkDashboardStats {
  ds_totalTasks : Z;
  ds_todo : Z;
  ds_inProgress : Z;
  ds_done : Z;
  ds_highPriority : Z;
  ds_urgentPriority : Z;
}.

Definition count_where (p : ITask → Prop) `{∀ t, Decision (p t)}
    (l : list ITask) : Z :=
  Z.of_nat (length (filter p l)).

(** The [$group] stage with [_id: null]: one document of counters, none
    when no task comes in. *)
Definition dashboard_group (l : list ITask) : option DashboardStats :=
  match l with
  | [] => None
  | _ =>
      Some (mkDashboardStats
              (Z.of_nat (length l))
              (count_where (λ t, status t = TODO) l)
              (count_where (λ t, status t = IN_PROGRESS) l)
              (count_where (λ t, status t = DONE) l)
              (count_where (λ t, priority t = HIGH) l)
              (count_where (λ t, priority t = URGENT) l))
  end.

(** A reference replaced by [populate("createdBy", "firstName
    lastName")]. *)
Record NameRef := mkNameRef {
  nr_id : ObjectId;
  nr_firstName : string;
  nr_lastName : string;
}.

Definition name_ref (db : Db) (oid : ObjectId) : option NameRef :=
  (λ u, mkNameRef (user_id u) (firstName u) (lastName u))
  <$> List.find (has_id oid) (users db).

Record Dashboard := mkDashboard {
  db_user : gmap string JsVal;
  db_stats : DashboardStats;
  db_recentTasks : list (ITask * option NameRef);
  db_overdueTasks : list ITask;
}.

Definition getUserDashboard (caller : option IUser) (param : option string)
    (now : Date) : Action (Z * Dashboard) :=
  let userId : option IdArg :=
    match param with
    | Some s => if Js.truthy s then Some (Raw s) else Oid ∘ user_id <$> caller
    | None => Oid ∘ user_id <$> caller
    end in
  match userId with
  | None => throw (AppError "User ID is required" 400)
  | Some userId =>
      if negb (IdArg_isValid userId) then
        throw (AppError "Invalid user ID format" 400)
      else if from_option
                (λ c, bool_decide (role c = MEMBER)
                      && bool_decide (user_id c ≠ IdArg_toString userId))
                false caller
      then throw (AppError
                    "Access denied. You can only access your own dashboard." 403)
      else
        match IdArg_cast userId with
        | None => throw CastError
        | Some oid =>
            do found <- read (λ db,
              select MinusPassword <$> List.find (has_id oid) (users db));
            match found with
            | None => throw (AppError "User not found" 404)
            | Some user =>
                do mine <- read (λ db, filter (λ t, assignee t = oid) (tasks db));
                do creators <- read name_ref;
                let stats :=
                  default (mkDashboardStats 0 0 0 0 0 0) (dashboard_group mine) in
                let recentTasks :=
                  (λ t, (t, creators (createdBy t)))
                  <$> take 5 (merge_sort
                                (sorted_by (task_sort_key "updatedAt") false)
                                mine) in
                let overdueTasks :=
                  merge_sort (sorted_by (task_sort_key "dueDate") true)
                    (filter (λ t, from_option (λ d, bool_decide (d < now)) false
                                    (dueDate t)
                                  ∧ status t ≠ DONE) mine) in
                ret (200, mkDashboard (User_toJSON user) stats recentTasks
                            overdueTasks)
            end
        end
  end.

(** ** middleware/auth.ts: ownership, optional authentication *)

(** [requireOwnershipOrAdmin(userIdField)], on the value of the field in
    the route parameters and in the body. *)
Definition requireOwnershipOrAdmin (caller : option IUser)
    (param body : option string) : Action unit :=
  match caller with
  | None => throw (AppError "Authentication required." 401)
  | Some user =>
      if decide (role user = ADMIN) then ret tt
      else
        let resourceUserId :=
          match param with
          | Some s => if Js.truthy s then Some s else body
          | None => body
          end in
        match resourceUserId with
        | Some s =>
            if Js.truthy s && bool_decide (s ≠ user_id user)
            then throw (AppError
                   "Access denied. You can only access your own resources." 403)
            else ret tt
        | None => ret tt
        end
  end.

(** [optionalAuth]: the user of a token that verifies and whose user
    exists; any failure leaves the request anonymous. *)
Definition optionalAuth (decoded : option string) : Action (option IUser) :=
  match decoded with
  | None => ret None
  | Some userId =>
      λ db, match User_findById MinusPassword userId db with
            | (inr user, db') => (inr user, db')
            | (inl _, db') => (inr None, db')
            end
  end.

(** ** controllers/auth.ts: profile, password *)

Definition verifyToken (user : option IUser) : Action (Z * gmap string JsVal) :=
  match user with
  | None => throw (AppError "Token is invalid" 401)
  | Some user => ret (200, User_toJSON user)
  end.

Definition validate_name `{External} (label : string) (v : string)
  : list string :=
  if Js.truthy v then
    concat [
      check (Z.of_nat (String.length v) <=? 50)
            (label +:+ " cannot exceed 50 characters");
      check (regex_test name_pattern false v)
            (label +:+ " can only contain letters and spaces") ]
  else [label +:+ " is required"].

Definition set_names (f l : option string) (now : Date) (u : IUser) : IUser :=
  mkUser (user_id u) (email u) (password u) (role u)
         (default (firstName u) f) (default (lastName u) l)
         (user_createdAt u) now.

(** [updateProfile]: only the names given are updated. *)
Definition updateProfile `{External} (caller : option IUser)
    (first last : option string) (now : Date)
  : Action (Z * option (gmap string JsVal)) :=
  match caller with
  | None => throw (AppError "User not found" 404)
  | Some caller =>
      let first := Js.trim <$> first in
      let last := Js.trim <$> last in
      match concat [ on_present first (validate_name "First name");
                     on_present last (validate_name "Last name") ] with
      | [] =>
          run write (λ db,
            mkDb (update_first_user (has_id (user_id caller))
                    (set_names first last now) (users db))
                 (tasks db) (activityLogs db));
          do user <- read (λ db,
            select DefaultSelect
            <$> List.find (has_id (user_id caller)) (users db));
          ret (200, User_toJSON <$> user)
      | messages => throw (ValidationError messages)
      end
  end.

Definition set_hash (h : string) (now : Date) (u : IUser) : IUser :=
  mkUser (user_id u) (email u) (Some h) (role u) (firstName u) (lastName u)
         (user_createdAt u) now.

(** [changePassword]: the document is read with its hash, the current
    password compared, the new one assigned and the document saved:
    validation, then the hook, which hashes the password when the
    assignment modified it, then the write. *)
Definition changePassword `{External} (caller : option IUser)
    (currentPassword newPassword : string) (now : Date)
  : Action (Z * string) :=
  match caller with
  | None => throw (AppError "User not found" 404)
  | Some caller =>
      do found <- read (λ db, List.find (has_id (user_id caller)) (users db));
      match found with
      | None => throw (AppError "User not found" 404)
      | Some user =>
          let isMatch :=
            from_option (bcrypt_compare currentPassword) false (password user) in
          if isMatch then
            match User_validate (Some (email user)) (Some newPassword)
                    (Some (firstName user)) (Some (lastName user))
                    (Some (role user)) with
            | [] =>
                run (if decide (password user = Some newPassword) then ret tt
                     else write (λ db,
                       mkDb (update_first_user (has_id (user_id caller))
                               (set_hash (bcrypt_hash newPassword) now)
                               (users db))
                            (tasks db) (activityLogs db)));
                ret (200, "Password changed successfully")
            | messages => throw (ValidationError messages)
            end
          else throw (AppError "Current password is incorrect" 400)
      end
  end.

(** ** controllers/stats.ts: the overview *)

(** [{$lt: ["$dueDate", now]}] inside an aggregation expression compares
    in the order of the BSON types, where a missing value comes before
    every date. *)
Definition agg_lt_date (d : option Date) (now : Date) : bool :=
  match d with
  | None => true
  | Some x => x <? now
  end.

Record TaskCounts := mkCounts {
  totalTasks : Z;
  todoTasks : Z;
  inProgressTasks : Z;
  doneTasks : Z;
  lowPriority : Z;
  mediumPriority : Z;
  highPriority : Z;
  urgentPriority : Z;
  overdueTasks : Z;
}.

Definition overview_group (now : Date) (l : list ITask) : option TaskCounts :=
  match l with
  | [] => None
  | _ =>
      Some (mkCounts
              (Z.of_nat (length l))
              (count_where (λ t, status t = TODO) l)
              (count_where (λ t, status t = IN_PROGRESS) l)
              (count_where (λ t, status t = DONE) l)
              (count_where (λ t, priority t = LOW) l)
              (count_where (λ t, priority t = MEDIUM) l)
              (count_where (λ t, priority t = HIGH) l)
              (count_where (λ t, priority t = URGENT) l)
              (count_where (λ t, agg_lt_date (dueDate t) now ∧ status t ≠ DONE) l))
  end.

Record WeeklyCounts := mkWeekly {
  tasksCreatedThisWeek : Z;
  tasksCompletedThisWeek : Z;
}.

Definition weekly_group (oneWeekAgo : Date) (l : list ITask)
  : option WeeklyCounts :=
  match l with
  | [] => None
  | _ =>
      Some (mkWeekly
              (count_where (λ t, oneWeekAgo ≤ createdAt t) l)
              (count_where (λ t, status t = DONE ∧ oneWeekAgo ≤ updatedAt t) l))
  end.

Record Overview := mkOverview {
  ov_counts : TaskCounts;
  ov_weekly : WeeklyCounts;
  ov_totalUsers : option Z;
}.

(** The [taskFilter] of the statistics: every task for an administrator,
    the caller's own tasks otherwise. *)
Definition in_stats_scope (user : IUser) (t : ITask) : bool :=
  bool_decide (role user = ADMIN) || bool_decide (assignee t = user_id user).

(** [getOverviewStats]; [oneWeekAgo] is the date seven days before now,
    as the calendar of the server computes it. *)
Definition getOverviewStats (caller : option IUser) (now oneWeekAgo : Date)
  : Action (Z * Overview) :=
  match caller with
  | None => throw (AppError "Authentication required" 401)
  | Some user =>
      let isAdmin := bool_decide (role user = ADMIN) in
      do scoped <- read (λ db, filter (λ t, in_stats_scope user t) (tasks db));
      do userCounts <- read (λ db,
        if isAdmin then Z.of_nat (length (users db)) else 0);
      let stats :=
        default (mkCounts 0 0 0 0 0 0 0 0 0) (overview_group now scoped) in
      let weekly :=
        filter (λ t, oneWeekAgo ≤ createdAt t
                     ∨ (oneWeekAgo ≤ updatedAt t ∧ status t = DONE)) scoped in
      let weeklyData := default (mkWeekly 0 0) (weekly_group oneWeekAgo weekly) in
      ret (200, mkOverview stats weeklyData
                  (if isAdmin then Some userCounts else None))
  end.

(** ** Further sample data *)

Module Sample2.

Definition task3_id : ObjectId := "650000000000000000000003".

(** A request for a new task, assigned to Bob. *)
Definition new_task : TaskBody :=
  mkBody (Some "  Plan the release ") None None (Some "high")
         (Some (mkDateInput "1970-01-01T00:00:00.200Z" 200))
         (Some ["Ops"; " ops"; "Q3"]) (Some Sample.bob_id).

(** A request whose due date has passed. *)
Definition late_task : TaskBody :=
  mkBody (Some "Archive") None None None
         (Some (mkDateInput "1970-01-01T00:00:00.050Z" 50)) None
         (Some Sample.bob_id).




Definition cy_id : ObjectId := "64f000000000000000000c03".

(** A registration, with an address to be lower-cased and trimmed. *)
Definition new_user : RegisterBody :=
  mkRegister (Some " Cy@Example.com ") (Some "secret1") (Some " Cy ")
             (Some "Dee") None.

(** A query for the tasks still to do, and one for the second page of
    a list cut in pages of one. *)
Definition todo_query : TaskQuery :=
  mkQuery None (Some "todo") None None None None None None None None None.
Definition second_page : TaskQuery :=
  mkQuery None None None None None None None (Some "2") (Some "1") None None.

Definition admins_query : UserQuery :=
  mkUserQuery None (Some "admin") None None None None.

End Sample2.

(** ** Notions used to state the further properties *)

(** Whatever its outcome, the action takes a store to one related to it
    by [R]. *)
Definition preserves {A} (R : relation Db) (m : Action A) : Prop :=
  ∀ db, R db (m db).2.

(** The users are the same and the activity log has only grown at its
    end. *)
Definition log_extended (db db' : Db) : Prop :=
  users db' = users db ∧ activityLogs db `prefix_of` activityLogs db'.

(** Every task is assigned to a user of the store, by an identifier in
    the form the store keeps. *)
Definition assignees_exist (db : Db) : Prop :=
  ∀ t, t ∈ tasks db →
       castObjectId (assignee t) = Some (assignee t)
       ∧ ∃ u, u ∈ users db ∧ user_id u = assignee t.

(** [after] is [before] with the fields of the update set and the others
    kept: title and description are stored trimmed, status and priority
    as the value they name, the assignee as the identifier its text
    denotes, the due date and the tags as they are given; the author
    and the date of creation are those of [before]. (The date of the
    update is not: it is refreshed.) *)
Definition takes_update (updates : TaskBody) (before after : ITask) : Prop :=
  task_id after = task_id before
  ∧ title after = default (title before) (Js.trim <$> b_title updates)
  ∧ description after
    = match b_description updates with
      | Some d => Some (Js.trim d)
      | None => description before
      end
  ∧ match b_status updates with
    | Some v => TaskStatus_value (status after) = v
    | None => status after = status before
    end
  ∧ match b_priority updates with
    | Some v => TaskPriority_value (priority after) = v
    | None => priority after = priority before
    end
  ∧ dueDate after
    = match b_dueDate updates with
      | Some d => Some d
      | None => dueDate before
      end
  ∧ tags after = default (tags before) (b_tags updates)
  ∧ match b_assignee updates with
    | Some a => castObjectId a = Some (assignee after)
    | None => assignee after = assignee before
    end
  ∧ createdBy after = createdBy before
  ∧ createdAt after = createdAt before.

(** Not done, and due before [now] or with no due date at all. *)
Definition late_or_undated (now : Date) (t : ITask) : Prop :=
  status t ≠ DONE
  ∧ match dueDate t with
    | Some d => d < now
    | None => True
    end.

#[global] Instance late_or_undated_dec now t : Decision (late_or_undated now t).
Proof. unfold late_or_undated. destruct (dueDate t); apply _. Defined.

(** No two tasks share an identifier, no two users share an identifier
    or an e-mail address. *)
Definition unique_ids (db : Db) : Prop :=
  NoDup (task_id <$> tasks db)
  ∧ NoDup (user_id <$> users db)
  ∧ NoDup (email <$> users db).


(** * Properties *)

(** ** Running actions *)

Lemma bind_run {A B} (m : Action A) (k : A → Action B) db a db' :
  m db = (inr a, db') → bind m k db = k a db'.
Proof. unfold bind. by intros ->. Qed.

Lemma bind_fail {A B} (m : Action A) (k : A → Action B) db e db' :
  m db = (inl e, db') → bind m k db = (inl e, db').
Proof. unfold bind. by intros ->. Qed.

Lemma bind_read {A B} (f : Db → A) (k : A → Action B) db :
  bind (read f) k db = k (f db) db.
Proof. reflexivity. Qed.

Lemma bind_write {B} (f : Db → Db) (k : unit → Action B) db :
  bind (write f) k db = k tt (f db).
Proof. reflexivity. Qed.

Lemma bind_ret {A B} (a : A) (k : A → Action B) db :
  bind (ret a) k db = k a db.
Proof. reflexivity. Qed.

Lemma bind_throw {A B} (e : Error) (k : A → Action B) db :
  bind (throw e) k db = (inl e, db).
Proof. reflexivity. Qed.

Lemma respond_sent {A} (m : Action (Z * A)) db code body db' :
  m db = (inr (code, body), db') → respond m db = (Sent code body, db').
Proof. unfold respond. by intros ->. Qed.

Lemma respond_thrown {A} (m : Action (Z * A)) db e db' :
  m db = (inl e, db') → respond m db = (Thrown e, db').
Proof. unfold respond. by intros ->. Qed.

Lemma castObjectId_Some id oid :
  castObjectId id = Some oid → ObjectId_isValid id = true ∧ oid = Js.toLowerCase id.
Proof.
  unfold castObjectId. destruct (ObjectId_isValid id); [|done].
  intros [= <-]. done.
Qed.

Lemma User_findById_run sel id oid db :
  castObjectId id = Some oid →
  User_findById sel id db
  = (inr (select sel <$> List.find (has_id oid) (users db)), db).
Proof. unfold User_findById. by intros ->. Qed.

Lemma Task_findById_run id oid db :
  castObjectId id = Some oid →
  Task_findById id db = (inr (List.find (has_task_id oid) (tasks db)), db).
Proof. unfold Task_findById. by intros ->. Qed.

Lemma Task_find_run `{External} f db :
  forallb castable f = true →
  Task_find f db = (inr (filter (λ t, matches f t) (tasks db)), db).
Proof. unfold Task_find. by intros ->. Qed.

Lemma Task_countDocuments_run `{External} f db :
  forallb castable f = true →
  Task_countDocuments f db
  = (inr (Z.of_nat (length (filter (λ t, matches f t) (tasks db)))), db).
Proof.
  intros Hf. unfold Task_countDocuments.
  by rewrite (bind_run _ _ _ _ _ (Task_find_run f db Hf)).
Qed.

Lemma find_has_id l oid u :
  u ∈ l → user_id u = oid → ∃ v, List.find (has_id oid) l = Some v ∧ user_id v = oid.
Proof.
  intros Hin Hid. induction Hin as [u l|u w l Hin IH]; simpl.
  - unfold has_id at 1. rewrite bool_decide_eq_true_2 by done. eauto.
  - unfold has_id at 1. destruct (bool_decide (user_id w = oid)) eqn:E.
    + apply bool_decide_eq_true_1 in E. eauto.
    + auto.
Qed.

Lemma matches_assignee_eq `{External} id oid t :
  castObjectId id = Some oid →
  matches [Assignee_eq id] t ↔ assignee t = oid.
Proof.
  intros Hid. unfold matches. simpl. rewrite andb_true_r, Hid.
  rewrite bool_decide_spec. split; congruence.
Qed.

Lemma count_assigned_pos `{External} id oid l :
  castObjectId id = Some oid →
  (0 <? Z.of_nat (length (filter (λ t, matches [Assignee_eq id] t) l))) = true
  ↔ ∃ t, t ∈ l ∧ assignee t = oid.
Proof.
  intros Hid. rewrite Z.ltb_lt. split.
  - intros Hlen.
    destruct (filter (λ t, matches [Assignee_eq id] t) l) as [|t r] eqn:E;
      [simpl in Hlen; lia|].
    assert (Ht : t ∈ filter (λ t, matches [Assignee_eq id] t) l)
      by (rewrite E; left).
    apply list_elem_of_filter in Ht as [Hm Ht].
    exists t. split; [done|]. by apply (matches_assignee_eq id).
  - intros (t & Ht & Ha).
    assert (Hm : t ∈ filter (λ t, matches [Assignee_eq id] t) l).
    { apply list_elem_of_filter. split; [|done].
      by apply (matches_assignee_eq id oid). }
    destruct (filter _ l); [by apply not_elem_of_nil in Hm|simpl; lia].
Qed.

(** C9. A user who still has an assigned task cannot be deleted: the
    call fails with a 400 error and the database, the user record
    included, stays as it was. A user who has no assigned task and is
    not the caller is deleted: the call answers 200 and no user with
    that identifier remains. *)
Theorem deleteUser_blocked_by_assignments `{External} caller id oid u db :
  castObjectId id = Some oid →
  u ∈ users db →
  user_id u = oid →
  ((∃ t, t ∈ tasks db ∧ assignee t = oid) →
     ∃ message,
       respond (deleteUser caller id) db = (Thrown (AppError message 400), db))
  ∧ ((∀ t, t ∈ tasks db → assignee t ≠ oid) →
     (∀ c, caller = Some c →
        user_id c ≠ oid ∧ castObjectId (user_id c) = Some (user_id c)) →
     ∃ db',
       respond (deleteUser caller id) db
         = (Sent 200 "User deleted successfully", db')
       ∧ (∀ v, v ∈ users db' ↔ v ∈ users db ∧ user_id v ≠ oid)
       ∧ tasks db' = tasks db
       ∧ activityLogs db' = activityLogs db).
Proof.
  intros Hid Hu Hoid.
  destruct (castObjectId_Some _ _ Hid) as [Hvalid _].
  destruct (find_has_id _ _ _ Hu Hoid) as (v & Hfind & _).
  assert (Hcast : forallb castable [Assignee_eq id] = true).
  { simpl. rewrite Hid. by rewrite bool_decide_eq_true_2 by eauto. }
  split.
  - intros Htask. apply (count_assigned_pos id oid) in Htask; [|done].
    unfold deleteUser. rewrite Hvalid. cbn [negb].
    case_bool_decide; [by eexists|].
    eexists. apply respond_thrown.
    rewrite (bind_run _ _ _ _ _ (User_findById_run _ _ _ _ Hid)), Hfind.
    cbn [fmap option_fmap option_map].
    rewrite (bind_run _ _ _ _ _ (Task_countDocuments_run _ _ Hcast)).
    by rewrite Htask.
  - intros Hnone Hcaller.
    assert (Hcount :
      (0 <? Z.of_nat (length (filter (λ t, matches [Assignee_eq id] t) (tasks db))))
      = false).
    { apply not_true_is_false. intros Hpos.
      apply (count_assigned_pos id oid) in Hpos as (t & Ht & Ha); [|done].
      by apply (Hnone t). }
    unfold deleteUser. rewrite Hvalid. cbn [negb].
    rewrite bool_decide_eq_false_2.
    2:{ destruct caller as [c|]; [|done]. simpl. intros [= Hc].
        destruct (Hcaller c eq_refl) as [Hne Hcanon].
        rewrite Hc, Hid in Hcanon. congruence. }
    eexists. split.
    + apply respond_sent.
      rewrite (bind_run _ _ _ _ _ (User_findById_run _ _ _ _ Hid)), Hfind.
      cbn [fmap option_fmap option_map].
      rewrite (bind_run _ _ _ _ _ (Task_countDocuments_run _ _ Hcast)).
      rewrite Hcount. unfold User_findByIdAndDelete. rewrite Hid.
      reflexivity.
    + simpl. split; [|done]. intros w. rewrite list_elem_of_filter. tauto.
Qed.

(** ** The task list *)

Lemma ceil_div_bounds a b :
  0 < b →
  (Js.Math_ceil_div a b - 1) * b < a ≤ Js.Math_ceil_div a b * b.
Proof.
  intros Hb. unfold Js.Math_ceil_div.
  pose proof (Z.div_mod (- a) b ltac:(lia)) as Hdm.
  pose proof (Z.mod_pos_bound (- a) b Hb) as Hmod.
  nia.
Qed.

Lemma Z_ltb_decide a b : (a <? b) = bool_decide (a < b).
Proof.
  destruct (Z.ltb_spec a b).
  - by rewrite bool_decide_eq_true_2.
  - rewrite bool_decide_eq_false_2; [done|lia].
Qed.

Lemma digit_value_digit c :
  is_digit c = true → ∃ d, Js.digit_value 10 c = Some d ∧ 0 ≤ d.
Proof.
  unfold is_digit, Js.digit_value. cbv zeta. intros Hd. rewrite Hd.
  apply andb_true_iff in Hd as [Hlo Hhi].
  apply Z.leb_le in Hlo, Hhi.
  exists (Z.of_nat (nat_of_ascii c) - 48).
  destruct (Z.ltb_spec (Z.of_nat (nat_of_ascii c) - 48) 10); [|lia].
  split; [done|lia].
Qed.

Lemma parse_digits_decimal l acc :
  forallb is_digit l = true → 0 ≤ default 0 acc →
  (l ≠ [] ∨ is_Some acc) →
  ∃ z, Js.parse_digits 10 acc (string_of_list_ascii l) = Some z ∧ 0 ≤ z.
Proof.
  revert acc. induction l as [|c l IH]; intros acc Hall Hacc Hne; cbn.
  - destruct Hne as [?|[z ->]]; [done|]. eauto.
  - cbn in Hall. apply andb_true_iff in Hall as [Hc Hall].
    destruct (digit_value_digit c Hc) as (d & -> & Hd).
    apply IH; [done|cbn; lia|right; eauto].
Qed.

(** An integer whose magnitude is below [2^53] is a double. *)
Lemma to_double_exact z : Z.abs z < 2 ^ 53 → Js.to_double z = Js.Int z.
Proof.
  intros Hz. unfold Js.to_double. cbv zeta.
  destruct (Z.leb_spec (Z.log2 (Z.abs z) - 52) 0) as [|Hlog]; [done|].
  exfalso. destruct (decide (Z.abs z = 0)) as [Hz0|Hz0].
  - rewrite Hz0 in Hlog. cbn in Hlog. lia.
  - assert (Z.log2 (Z.abs z) < 53) by (apply Z.log2_lt_pow2; lia). lia.
Qed.

(** A decimal numeral is read as the double of a non-negative integer:
    the values of [page] and [limit] that are numerals never give
    [NaN]. *)
Lemma parseInt_decimal s :
  is_decimal s → ∃ z, Js.parseInt s = Js.to_double z ∧ 0 ≤ z.
Proof.
  intros [Hne Hall]. destruct s as [|c s]; [done|].
  cbn in Hall. apply andb_true_iff in Hall as [Hc Hall].
  assert (Hparse : ∃ z,
    Js.parse_digits 10 None (String c s) = Some z ∧ 0 ≤ z).
  { rewrite <- (string_of_list_ascii_of_string (String c s)).
    apply parse_digits_decimal; [cbn; by rewrite Hc, Hall|done|by left]. }
  destruct Hparse as (z & Hz & Hpos).
  assert (Hspace : Js.is_space c = false).
  { revert Hc. destruct c as [[] [] [] [] [] [] [] []]; by vm_compute. }
  assert (Hu : Js.parse_unsigned (String c s) = Some z).
  { unfold Js.parse_unsigned. rewrite <- Hz.
    destruct c as [[] [] [] [] [] [] [] []]; try reflexivity.
    destruct s as [|c' s']; [reflexivity|].
    cbn in Hall. apply andb_true_iff in Hall as [Hc' _].
    destruct c' as [[] [] [] [] [] [] [] []]; try reflexivity;
      by vm_compute in Hc'. }
  exists z. split; [|done].
  unfold Js.parseInt. cbn [Js.trimStart]. rewrite Hspace.
  destruct c as [[] [] [] [] [] [] [] []]; try (by vm_compute in Hc);
    rewrite Hu; f_equal; lia.
Qed.




Lemma getTasks_run `{External} user q db p l :
  Js.parseInt (default "1" (q_page q)) = Js.Int p →
  Js.parseInt (default "10" (q_limit q)) = Js.Int l →
  forallb castable (getTasks_filter user q) = true →
  let pageNumber := Z.max 1 p in
  let limitNumber := Z.min 100 (Z.max 1 l) in
  let found := filter (λ t, matches (getTasks_filter user q) t) (tasks db) in
  respond (getTasks (Some user) q) db
  = (Sent 200
       (mkPaginated "Tasks retrieved successfully"
          (populated db <$>
             (skip_limit ((pageNumber - 1) * limitNumber) limitNumber
                (merge_sort
                   (sorted_by (task_sort_key (default "createdAt" (q_sortBy q)))
                              (bool_decide (q_sortOrder q = Some "asc")))
                   found)))
          (paginate pageNumber limitNumber (Z.of_nat (length found)))),
     db).
Proof.
  intros Hp Hl Hcast. cbv zeta. apply respond_sent.
  unfold getTasks, pageNumber_of, limitNumber_of. rewrite Hp, Hl.
  cbn [Js.Math_max Js.Math_min].
  rewrite (bind_run _ _ _ _ _ (Task_find_run _ _ Hcast)).
  unfold populate_all at 1. rewrite bind_read.
  rewrite (bind_run _ _ _ _ _ (Task_countDocuments_run _ _ Hcast)).
  reflexivity.
Qed.

Lemma getTasks_filter_member user q :
  role user = MEMBER →
  forallb castable (getTasks_filter user q) = true
  ∧ Assignee_is (user_id user) ∈ getTasks_filter user q.
Proof.
  intros Hrole. unfold getTasks_filter. rewrite decide_True by done.
  split.
  - cbn [concat]. rewrite !forallb_app. cbn.
    unfold when_truthy, when_given.
    repeat match goal with
    | |- context [match ?x with _ => _ end] => destruct x
    end; reflexivity.
  - cbn [concat]. apply list_elem_of_here.
Qed.

Lemma matches_elem `{External} f c t :
  matches f t → c ∈ f → matches_cond c t.
Proof.
  unfold matches. intros Hm Hc. apply Is_true_true in Hm.
  rewrite forallb_forall in Hm. apply Is_true_true, Hm.
  by apply list_elem_of_In.
Qed.

Lemma elem_of_skip_limit {A} (x : A) skip limit l :
  x ∈ skip_limit skip limit l → x ∈ l.
Proof.
  unfold skip_limit. intros Hx.
  by apply subseteq_take, subseteq_drop in Hx.
Qed.

Lemma valid_truthy s : ObjectId_isValid s = true → Js.truthy s = true.
Proof.
  unfold ObjectId_isValid. intros Hv. apply andb_true_iff in Hv as [Hlen _].
  apply bool_decide_eq_true_1 in Hlen. by destruct s.
Qed.

Lemma doc_populated db (l : list ITask) : doc <$> (populated db <$> l) = l.
Proof. induction l as [|t l IH]; [done|]. cbn. f_equal. apply IH. Qed.

Lemma filter_all {A} (P : A → Prop) `{∀ x, Decision (P x)} (l : list A) :
  (∀ x, P x) → filter P l = l.
Proof.
  intros HP. induction l as [|x l IH]; [done|].
  rewrite filter_cons_True by done. by rewrite IH.
Qed.

Lemma getTasks_filter_admin user q :
  role user = ADMIN → unfiltered q →
  getTasks_filter user q = when_truthy (q_assignee q) Assignee_eq.
Proof.
  intros Hrole (Hs & Hst & Hp & Ht & Hf & Hto). unfold getTasks_filter.
  rewrite decide_False by (rewrite Hrole; done).
  rewrite Hs, Hst, Hp, Ht, Hf, Hto. cbn. by rewrite app_nil_r.
Qed.

Lemma getTasks_filter_admin_assignee user q a :
  role user = ADMIN → q_assignee q = Some a → Js.truthy a = true →
  ∃ rest, getTasks_filter user q = Assignee_eq a :: rest
          ∧ forallb castable rest = true.
Proof.
  intros Hrole Ha Htruthy. unfold getTasks_filter.
  rewrite decide_False by (rewrite Hrole; done).
  rewrite Ha. unfold when_truthy at 1. rewrite Htruthy. cbn [concat app].
  eexists. split; [reflexivity|].
  rewrite !forallb_app. unfold when_truthy, when_given.
  repeat match goal with
  | |- context [match ?x with _ => _ end] => destruct x
  end; reflexivity.
Qed.

(** C1. A member's task list holds only tasks assigned to the caller,
    whatever assignee the query asks for. An administrator who asks for
    an assignee gets the tasks of that assignee; with no assignee and no
    other filter the list ranges over every task of the store. *)
Theorem getTasks_role_scope `{External} user q db p l :
  Js.parseInt (default "1" (q_page q)) = Js.Int p →
  Js.parseInt (default "10" (q_limit q)) = Js.Int l →
  (role user = MEMBER →
     ∃ body,
       respond (getTasks (Some user) q) db = (Sent 200 body, db)
       ∧ ∀ t, t ∈ page_data body → assignee (doc t) = user_id user)
  ∧ (role user = ADMIN →
     ∀ a oid, q_assignee q = Some a → castObjectId a = Some oid →
     ∃ body,
       respond (getTasks (Some user) q) db = (Sent 200 body, db)
       ∧ (∀ t, t ∈ page_data body → assignee (doc t) = oid)
       ∧ (unfiltered q →
          doc <$> page_data body
          = page_window q p l (filter (λ t, assignee t = oid) (tasks db))
          ∧ totalItems (pagination body)
            = Z.of_nat (length (filter (λ t, assignee t = oid) (tasks db)))))
  ∧ (role user = ADMIN → q_assignee q = None → unfiltered q →
     ∃ body,
       respond (getTasks (Some user) q) db = (Sent 200 body, db)
       ∧ doc <$> page_data body = page_window q p l (tasks db)
       ∧ totalItems (pagination body) = Z.of_nat (length (tasks db))).
Proof.
  intros Hp Hl. split; [|split].
  - intros Hrole.
    destruct (getTasks_filter_member user q Hrole) as [Hcast Hin].
    eexists. split; [apply (getTasks_run user q db p l Hp Hl Hcast)|].
    cbn [page_data]. intros t Ht.
    apply list_elem_of_fmap in Ht as (t0 & -> & Ht0).
    apply elem_of_skip_limit in Ht0.
    rewrite merge_sort_Permutation in Ht0.
    apply list_elem_of_filter in Ht0 as [Hm _].
    apply (matches_elem _ _ _ Hm) in Hin. cbn in Hin.
    by apply bool_decide_unpack in Hin.
  - intros Hrole a oid Ha Hoid.
    destruct (castObjectId_Some _ _ Hoid) as [Hvalid _].
    destruct (getTasks_filter_admin_assignee user q a Hrole Ha
                (valid_truthy _ Hvalid)) as (rest & Hf & Hrest).
    assert (Hcast : forallb castable (getTasks_filter user q) = true).
    { rewrite Hf. cbn. rewrite Hoid, Hrest.
      by rewrite bool_decide_eq_true_2 by eauto. }
    eexists. split; [apply (getTasks_run user q db p l Hp Hl Hcast)|].
    cbn [page_data pagination]. split.
    + intros t Ht.
      apply list_elem_of_fmap in Ht as (t0 & -> & Ht0).
      apply elem_of_skip_limit in Ht0.
      rewrite merge_sort_Permutation in Ht0.
      apply list_elem_of_filter in Ht0 as [Hm _].
      assert (Hin : Assignee_eq a ∈ getTasks_filter user q)
        by (rewrite Hf; left).
      apply (matches_elem _ _ _ Hm) in Hin. cbn in Hin.
      apply bool_decide_unpack in Hin. cbn. congruence.
    + intros Hun. rewrite doc_populated.
      rewrite (getTasks_filter_admin user q Hrole Hun), Ha.
      unfold when_truthy. rewrite (valid_truthy _ Hvalid).
      rewrite (list_filter_iff _ (λ t, assignee t = oid)).
      2:{ intros t. apply (matches_assignee_eq a oid t Hoid). }
      done.
  - intros Hrole Ha Hun.
    assert (Hf : getTasks_filter user q = []).
    { by rewrite (getTasks_filter_admin user q Hrole Hun), Ha. }
    assert (Hcast : forallb castable (getTasks_filter user q) = true)
      by (by rewrite Hf).
    eexists. split; [apply (getTasks_run user q db p l Hp Hl Hcast)|].
    cbn [page_data pagination]. rewrite doc_populated, Hf.
    rewrite (filter_all (λ t, matches [] t)) by done.
    done.
Qed.



(** ** Overdue tasks *)

Lemma isOverdue_spec now t : JsVal_truthy (isOverdue now t) = overdue_spec now t.
Proof.
  unfold isOverdue, overdue_spec. destruct (dueDate t) as [d|]; [|done].
  cbn. done.
Qed.

Lemma matches_overdue `{External} now t :
  matches [DueDate_lt now; Status_ne "done"] t ↔ JsVal_truthy (isOverdue now t).
Proof.
  unfold matches, isOverdue. cbn. rewrite andb_true_r.
  destruct (dueDate t) as [d|]; cbn; [|done].
  destruct (status t); cbn; by rewrite ?andb_true_r, ?andb_false_r.
Qed.

(** C7. The virtual [isOverdue] of a task holds exactly when its due
    date is set and past and its status is not done, and the filter of
    the overdue list selects, among the tasks the caller may see,
    exactly the tasks whose [isOverdue] holds. *)
Theorem isOverdue_same_as_overdue_filter `{External} user db now :
  (∀ t, JsVal_truthy (isOverdue now t) = overdue_spec now t)
  ∧ ∃ found,
      respond (getOverdueTasks (Some user) now) db = (Sent 200 found, db)
      ∧ ∀ t, t ∈ doc <$> found
             ↔ t ∈ tasks db
               ∧ JsVal_truthy (isOverdue now t)
               ∧ (role user = MEMBER → assignee t = user_id user).
Proof.
  split; [apply isOverdue_spec|].
  set (f := [DueDate_lt now; Status_ne "done"]
            ++ (if decide (role user = MEMBER)
                then [Assignee_is (user_id user)] else [])).
  assert (Hcast : forallb castable f = true)
    by (unfold f; by destruct (decide _)).
  eexists. split.
  - apply respond_sent. unfold getOverdueTasks. fold f.
    rewrite (bind_run _ _ _ _ _ (Task_find_run _ _ Hcast)).
    unfold populate_all. rewrite bind_read. reflexivity.
  - intros t. rewrite doc_populated, merge_sort_Permutation.
    rewrite list_elem_of_filter.
    assert (Hm : matches f t
                 ↔ JsVal_truthy (isOverdue now t)
                   ∧ (role user = MEMBER → assignee t = user_id user)).
    { rewrite <- matches_overdue. unfold f, matches.
      rewrite forallb_app, andb_True.
      destruct (decide (role user = MEMBER)) as [Hr|Hr]; cbn.
      - rewrite !andb_true_r, bool_decide_spec. tauto.
      - tauto. }
    tauto.
Qed.

(** ** Bulk update *)

Lemma filter_length_all {A} (f : A → bool) (l : list A) :
  length (List.filter f l) = length l → Forall (λ x, f x = true) l.
Proof.
  induction l as [|x l IH]; [constructor|]. simpl.
  pose proof (List.filter_length_le f l) as Hle.
  destruct (f x) eqn:Hx; simpl; intros Hlen.
  - constructor; [done|]. apply IH. lia.
  - lia.
Qed.

Lemma filter_all_valid (f : string → bool) (l : list string) :
  Forall (λ x, f x = true) l → List.filter f l = l.
Proof.
  induction 1 as [|x l Hx _ IH]; [done|]. simpl. by rewrite Hx, IH.
Qed.

Lemma mapM_cast_valid ids :
  Forall (λ id, ObjectId_isValid id = true) ids →
  mapM castObjectId ids = Some (Js.toLowerCase <$> ids).
Proof.
  induction 1 as [|id ids Hid _ IH]; [done|].
  change (mapM castObjectId (id :: ids))
    with (castObjectId id ≫= λ y, mapM castObjectId ids ≫= λ k, mret (y :: k)).
  assert (Hc : castObjectId id = Some (Js.toLowerCase id))
    by (unfold castObjectId; by rewrite Hid).
  rewrite Hc, IH. done.
Qed.

Lemma for_each_log_run ids who c now db :
  Forall (λ id, ObjectId_isValid id = true) ids →
  for_each ids (λ taskId, ActivityLog_create taskId who UPDATE c now) db
  = (inr tt,
     mkDb (users db) (tasks db)
          (activityLogs db
           ++ ((λ id, mkLog (Js.toLowerCase id) who UPDATE c now) <$> ids))).
Proof.
  intros Hids. revert db.
  induction Hids as [|id ids Hid _ IH]; intros db.
  - cbn. rewrite app_nil_r. by destruct db.
  - cbv beta in Hid. cbn [for_each]. unfold ActivityLog_create at 1, castObjectId.
    rewrite Hid, bind_write, IH. cbn. by rewrite <- app_assoc.
Qed.

(** The tasks after [updateMany] over the identifiers [ids]. *)
Lemma Task_updateMany_ids_run now ids b s db :
  Forall (λ id, ObjectId_isValid id = true) ids →
  cast_update now b = inr s →
  ∃ result,
    Task_updateMany_ids now ids b db
    = (inr result,
       mkDb (users db)
            ((λ t, if bool_decide (task_id t ∈ Js.toLowerCase <$> ids)
                   then apply_set now s t else t) <$> tasks db)
            (activityLogs db))
    ∧ matchedCount result
      = Z.of_nat (length (filter
          (λ t, task_id t ∈ Js.toLowerCase <$> ids) (tasks db))).
Proof.
  intros Hids Hs. unfold Task_updateMany_ids.
  rewrite (mapM_cast_valid _ Hids), Hs.
  rewrite bind_read, bind_write. eexists. split; [reflexivity|].
  cbn. do 2 f_equal. apply list_filter_iff. intros t.
  by rewrite bool_decide_spec.
Qed.

Lemma Task_updateMany_ids_fail now ids b e db :
  cast_update now b = inl e →
  ∃ e', Task_updateMany_ids now ids b db = (inl e', db).
Proof.
  intros He. unfold Task_updateMany_ids. rewrite He.
  destruct (mapM castObjectId ids); by eexists.
Qed.

Lemma cast_update_assignee now b s a :
  cast_update now b = inr s → b_assignee b = Some a →
  is_Some (castObjectId a).
Proof.
  unfold cast_update. cbn. intros Hs Ha. rewrite Ha in Hs. cbn in Hs.
  destruct (castObjectId a); [eauto|done].
Qed.

Lemma find_has_id_None l oid :
  (∀ u, u ∈ l → user_id u ≠ oid) → List.find (has_id oid) l = None.
Proof.
  induction l as [|u l IH]; [done|]. intros Hne. cbn.
  unfold has_id at 1. rewrite bool_decide_eq_false_2.
  - apply IH. intros v Hv. apply Hne. by right.
  - apply Hne. by left.
Qed.

Lemma find_has_id_Some l oid v :
  List.find (has_id oid) l = Some v → v ∈ l ∧ user_id v = oid.
Proof.
  intros Hf. apply List.find_some in Hf as [Hin Hid].
  split; [by apply list_elem_of_In|]. by apply bool_decide_eq_true_1 in Hid.
Qed.

Lemma bulk_check_assignee_pure updates db :
  (∃ e, bulk_check_assignee updates db = (inl e, db))
  ∨ bulk_check_assignee updates db = (inr tt, db).
Proof.
  unfold bulk_check_assignee. destruct (b_assignee updates) as [a|]; [|by right].
  destruct (Js.truthy a); [|by right].
  unfold User_findById. destruct (castObjectId a) as [oid|]; [|left; by eexists].
  rewrite bind_read. destruct (List.find _ _); cbn; [by right|left; by eexists].
Qed.

Lemma bulk_check_assignee_missing updates a db :
  b_assignee updates = Some a → Js.truthy a = true →
  (∀ u, u ∈ users db → castObjectId a ≠ Some (user_id u)) →
  ∃ e, bulk_check_assignee updates db = (inl e, db).
Proof.
  intros Ha Ht Hnone. unfold bulk_check_assignee. rewrite Ha, Ht.
  unfold User_findById. destruct (castObjectId a) as [oid|]; [|by eexists].
  rewrite bind_read, find_has_id_None; [by eexists|].
  intros u Hu Hid. apply (Hnone u Hu). by rewrite Hid.
Qed.

Lemma bulkUpdateTasks_unfold user taskIds updates now :
  bulkUpdateTasks (Some user) taskIds updates now
  = let validTaskIds := List.filter ObjectId_isValid taskIds in
    if decide (length validTaskIds ≠ length taskIds) then
      throw (AppError "One or more task IDs are invalid" 400)
    else
      run bulk_check_assignee updates;
      do result <- Task_updateMany_ids now validTaskIds updates;
      run for_each validTaskIds (λ taskId,
            ActivityLog_create taskId (user_id user) UPDATE
              (bulk_changes updates) now);
      ret (200, result).
Proof. reflexivity. Qed.

(** C6. A bulk update that carries a malformed task identifier, or that
    names an assignee who does not exist, fails as a whole: an error is
    thrown and the database is left as it was, so no task is modified
    and no activity entry is written. With an authenticated caller a
    malformed identifier is answered by the 400 error of the
    identifier check. *)
Theorem bulkUpdateTasks_fails_before_any_write user taskIds updates now db :
  (∃ id, id ∈ taskIds ∧ ObjectId_isValid id = false)
  ∨ (∃ a, b_assignee updates = Some a
          ∧ ∀ u, u ∈ users db → castObjectId a ≠ Some (user_id u)) →
  (∃ e, respond (bulkUpdateTasks user taskIds updates now) db = (Thrown e, db))
  ∧ ((∃ id, id ∈ taskIds ∧ ObjectId_isValid id = false) →
     ∀ u, user = Some u →
       respond (bulkUpdateTasks user taskIds updates now) db
       = (Thrown (AppError "One or more task IDs are invalid" 400), db)).
Proof.
  intros Hbad.
  assert (Hids : (∃ id, id ∈ taskIds ∧ ObjectId_isValid id = false) →
    length (List.filter ObjectId_isValid taskIds) ≠ length taskIds).
  { intros (id & Hin & Hinv) Hlen. apply filter_length_all in Hlen.
    rewrite Forall_forall in Hlen. apply Hlen in Hin. congruence. }
  split.
  - destruct user as [user|]; [|by eexists].
    rewrite bulkUpdateTasks_unfold. cbv zeta.
    destruct (decide (length (List.filter ObjectId_isValid taskIds)
                      ≠ length taskIds)) as [Hlen|Hlen]; [by eexists|].
    destruct Hbad as [Hbad|(a & Ha & Hnone)]; [by apply Hids in Hbad|].
    apply dec_stable, filter_length_all in Hlen.
    destruct (Js.truthy a) eqn:Ht.
    + destruct (bulk_check_assignee_missing updates a db Ha Ht Hnone)
        as [e He].
      exists e. apply respond_thrown. by rewrite (bind_fail _ _ _ _ _ He).
    + destruct (bulk_check_assignee_pure updates db) as [[e He]|Hok].
      { exists e. apply respond_thrown. by rewrite (bind_fail _ _ _ _ _ He). }
      assert (Hcast : cast_update now updates = inl CastError).
      { unfold cast_update. cbn. rewrite Ha. cbn.
        destruct a; [done|discriminate]. }
      destruct (Task_updateMany_ids_fail now
                  (List.filter ObjectId_isValid taskIds) updates _ db Hcast)
        as [e' He'].
      exists e'. apply respond_thrown.
      rewrite (bind_run _ _ _ _ _ Hok). by rewrite (bind_fail _ _ _ _ _ He').
  - intros Hid u ->. rewrite bulkUpdateTasks_unfold. cbv zeta.
    rewrite decide_True by auto. done.
Qed.

(** C5, as stated, fails: a bulk update by the administrator Ada over
    one identifier that matches no stored task succeeds, matches
    nothing, and still writes an entry for that identifier. *)
Lemma bulkUpdateTasks_logs_unmatched_id :
  let out :=
    respond (bulkUpdateTasks (Some Sample.ada) [Sample.absent_id]
               (Sample.set_status_to "done") 100) Sample.db in
  out.1 = Sent 200 (mkResult 0 0)
  ∧ activityLogs out.2
    = [mkLog Sample.absent_id Sample.ada_id UPDATE
         (bulk_changes (Sample.set_status_to "done")) 100]
  ∧ tasks out.2 = tasks Sample.db
  ∧ ¬ bulk_logs_count_matched.
Proof.
  cbv zeta. split; [reflexivity|]. split; [reflexivity|].
  split; [reflexivity|].
  intros Hclaim.
  specialize (Hclaim (Some Sample.ada) [Sample.absent_id]
                (Sample.set_status_to "done") 100 Sample.db).
  specialize (Hclaim 200 (mkResult 0 0) _ eq_refl).
  vm_compute in Hclaim. discriminate.
Qed.

(** C5, amended. A successful bulk update writes exactly one entry,
    with changes [{bulk: true, updates}], for each identifier of the
    request, in the order of the request and whether or not the
    identifier matches a stored task; the entries written are as many
    as the identifiers requested, while [matchedCount] counts the
    stored tasks among them. *)
Theorem bulkUpdateTasks_logs_each_requested_id
    user taskIds updates now db code result db' :
  respond (bulkUpdateTasks user taskIds updates now) db
    = (Sent code result, db') →
  ∃ u,
    user = Some u
    ∧ activityLogs db'
      = activityLogs db
        ++ ((λ id, mkLog (Js.toLowerCase id) (user_id u) UPDATE
                     (bulk_changes updates) now) <$> taskIds)
    ∧ length (activityLogs db')
      = (length (activityLogs db) + length taskIds)%nat
    ∧ matchedCount result
      = Z.of_nat (length (filter
          (λ t, task_id t ∈ Js.toLowerCase <$> taskIds) (tasks db))).
Proof.
  destruct user as [u|]; [|discriminate].
  rewrite bulkUpdateTasks_unfold. cbv zeta.
  destruct (decide (length (List.filter ObjectId_isValid taskIds)
                    ≠ length taskIds)) as [Hlen|Hlen]; [discriminate|].
  apply dec_stable, filter_length_all in Hlen.
  rewrite (filter_all_valid _ _ Hlen).
  unfold respond.
  destruct (bulk_check_assignee_pure updates db) as [[e He]|Hok].
  { rewrite (bind_fail _ _ _ _ _ He). discriminate. }
  rewrite (bind_run _ _ _ _ _ Hok).
  destruct (cast_update now updates) as [e|s] eqn:Hs.
  { destruct (Task_updateMany_ids_fail now taskIds updates e db Hs) as [e' He'].
    rewrite (bind_fail _ _ _ _ _ He'). discriminate. }
  destruct (Task_updateMany_ids_run now taskIds updates s db Hlen Hs)
    as (r & Hrun & Hmatched).
  rewrite (bind_run _ _ _ _ _ Hrun).
  rewrite (bind_run _ _ _ _ _ (for_each_log_run _ _ _ _ _ Hlen)).
  cbn. intros [= <- <- <-]. exists u. cbn.
  repeat split; [|done]. by rewrite length_app, length_fmap.
Qed.

(** ** Update and delete of a task *)

Lemma updateTask_unfold user id updates now :
  updateTask (Some user) id updates now
  = do found <- Task_findById id;
    match found with
    | None => throw (AppError "Task not found" 404)
    | Some task =>
        if member_of_other user task then
          throw (AppError
            "Access denied. You can only update your assigned tasks." 403)
        else
          do changes <- check_new_assignee task updates;
          let changes := diff_fields task updates changes in
          do updated <- Task_findByIdAndUpdate now id updates;
          do updatedTask <-
            match updated with
            | Some t => do p <- populate t; ret (Some p)
            | None => ret None
            end;
          run (if decide (changes ≠ ∅)
               then ActivityLog_create id (user_id user) UPDATE changes now
               else ret tt);
          ret (200, updatedTask)
    end.
Proof. reflexivity. Qed.

Lemma check_new_assignee_run task updates db :
  (∃ e, check_new_assignee task updates db = (inl e, db)
        ∧ errorHandler_status e ≠ 403)
  ∨ check_new_assignee task updates db
    = (inr (assignee_changes task updates), db).
Proof.
  unfold check_new_assignee, assignee_changes.
  destruct (b_assignee updates) as [a|]; [|by right].
  destruct (Js.truthy a && bool_decide (a ≠ assignee task)); [|by right].
  unfold User_findById.
  destruct (castObjectId a) as [oid|]; [|left; by eexists].
  rewrite bind_read.
  destruct (List.find _ _); cbn; [by right|left; by eexists].
Qed.

Lemma cast_update_error now b e :
  cast_update now b = inl e → errorHandler_status e = 400.
Proof.
  unfold cast_update. cbn [cast_body b_assignee].
  destruct (b_assignee b) as [a|]; cbn [mbind option_bind];
    [destruct (castObjectId a); [|by intros [= <-]]|];
    (destruct (validate_paths now _); [done|by intros [= <-]]).
Qed.

Lemma populate_option_run (updated : option ITask) db :
  match updated with
  | Some t => do p <- populate t; ret (Some p)
  | None => ret None
  end db = (inr (populated db <$> updated), db).
Proof. by destruct updated. Qed.

Lemma log_if_changed_run id oid who (c : gmap string ChangeVal) now db :
  castObjectId id = Some oid →
  (if decide (c ≠ ∅) then ActivityLog_create id who UPDATE c now else ret tt) db
  = (inr tt,
     mkDb (users db) (tasks db)
          (activityLogs db
           ++ (if decide (c ≠ ∅) then [mkLog oid who UPDATE c now] else []))).
Proof.
  intros Hid. destruct (decide (c ≠ ∅)).
  - unfold ActivityLog_create. by rewrite Hid.
  - cbn. rewrite app_nil_r. by destruct db.
Qed.

(** The three ways an update of an existing task can end. *)
Lemma updateTask_outcome user id oid task updates now db :
  castObjectId id = Some oid →
  List.find (has_task_id oid) (tasks db) = Some task →
  let r := respond (updateTask (Some user) id updates now) db in
  (member_of_other user task = true
   ∧ r = (Thrown (AppError
            "Access denied. You can only update your assigned tasks." 403), db))
  ∨ (member_of_other user task = false
     ∧ ∃ e, r = (Thrown e, db) ∧ errorHandler_status e ≠ 403
            ∧ (check_new_assignee task updates db = (inl e, db)
               ∨ cast_update now updates = inl e))
  ∨ (member_of_other user task = false
     ∧ ∃ s body,
         cast_update now updates = inr s
         ∧ r = (Sent 200 body,
                mkDb (users db)
                     (update_first (has_task_id oid) (apply_set now s) (tasks db))
                     (activityLogs db
                      ++ (if decide (update_changes task updates ≠ ∅)
                          then [mkLog oid (user_id user) UPDATE
                                      (update_changes task updates) now]
                          else [])))).
Proof.
  intros Hid Hfind r. subst r. rewrite updateTask_unfold.
  unfold respond.
  rewrite (bind_run _ _ _ _ _ (Task_findById_run _ _ _ Hid)), Hfind.
  destruct (member_of_other user task) eqn:Hm; [left; by split|right].
  destruct (check_new_assignee_run task updates db) as [(e & He & Hst)|Hok].
  { left. split; [done|]. exists e. rewrite (bind_fail _ _ _ _ _ He). auto. }
  rewrite (bind_run _ _ _ _ _ Hok). cbv zeta.
  fold (update_changes task updates).
  unfold Task_findByIdAndUpdate. rewrite Hid.
  destruct (cast_update now updates) as [e|s] eqn:Hs.
  { left. split; [done|]. exists e. rewrite bind_throw. split; [done|].
    rewrite (cast_update_error _ _ _ Hs). auto. }
  right. split; [done|]. exists s. eexists. split; [done|].
  rewrite (bind_run _ _ _ _ _ (bind_write _ _ _)).
  rewrite (bind_run _ _ _ _ _ (populate_option_run _ _)).
  erewrite (bind_run _ _ _ _ _ (log_if_changed_run _ _ _ _ _ _ Hid)).
  reflexivity.
Qed.


Lemma deleteTask_outcome user id oid task now db :
  castObjectId id = Some oid →
  List.find (has_task_id oid) (tasks db) = Some task →
  respond (deleteTask (Some user) id now) db
  = if member_of_other user task
    then (Thrown (AppError
            "Access denied. You can only delete your assigned tasks." 403), db)
    else (Sent 200 "Task deleted successfully",
          mkDb (users db) (filter (λ t, task_id t ≠ oid) (tasks db))
               (activityLogs db
                ++ [mkLog oid (user_id user) DELETE
                          {[ "title" := CVal (JStr (title task)) ]} now])).
Proof.
  intros Hid Hfind. unfold deleteTask, respond.
  rewrite (bind_run _ _ _ _ _ (Task_findById_run _ _ _ Hid)), Hfind.
  destruct (member_of_other user task); [done|].
  unfold Task_findByIdAndDelete, ActivityLog_create. rewrite Hid.
  reflexivity.
Qed.

Lemma member_of_other_true user task :
  member_of_other user task = true
  ↔ role user = MEMBER ∧ assignee task ≠ user_id user.
Proof.
  unfold member_of_other. rewrite andb_true_iff, !bool_decide_eq_true. done.
Qed.

Lemma member_of_other_false user task :
  member_of_other user task = false
  ↔ role user = ADMIN ∨ assignee task = user_id user.
Proof.
  rewrite <- not_true_iff_false, member_of_other_true.
  destruct (role user), (decide (assignee task = user_id user));
    split; try tauto; try (intros [?|?]; intros [??]; done).
Qed.

(** C2. For an existing task and a caller who is a member, [updateTask]
    and [deleteTask] answer 403 exactly when the caller is not the
    assignee of the task, and then the database is left as it was, task
    store and activity log included. An administrator is never
    answered 403 and deletes any task. *)
Theorem mutation_authorization user id oid task updates now db :
  castObjectId id = Some oid →
  List.find (has_task_id oid) (tasks db) = Some task →
  (role user = MEMBER →
     (http_status (respond (updateTask (Some user) id updates now) db).1 = 403
      ↔ assignee task ≠ user_id user)
     ∧ (http_status (respond (deleteTask (Some user) id now) db).1 = 403
        ↔ assignee task ≠ user_id user)
     ∧ (assignee task ≠ user_id user →
          respond (updateTask (Some user) id updates now) db
          = (Thrown (AppError
               "Access denied. You can only update your assigned tasks." 403),
             db)
          ∧ respond (deleteTask (Some user) id now) db
            = (Thrown (AppError
                 "Access denied. You can only delete your assigned tasks." 403),
               db)))
  ∧ (role user = ADMIN →
       http_status (respond (updateTask (Some user) id updates now) db).1 ≠ 403
       ∧ ∃ db',
           respond (deleteTask (Some user) id now) db
           = (Sent 200 "Task deleted successfully", db')
           ∧ ∀ t, t ∈ tasks db' ↔ t ∈ tasks db ∧ task_id t ≠ oid).
Proof.
  intros Hid Hfind.
  pose proof (updateTask_outcome user id oid task updates now db Hid Hfind)
    as Hup. cbv zeta in Hup.
  pose proof (deleteTask_outcome user id oid task now db Hid Hfind) as Hdel.
  split.
  - intros Hrole.
    assert (Hm : member_of_other user task = true
                 ↔ assignee task ≠ user_id user).
    { rewrite member_of_other_true. tauto. }
    split; [|split].
    + destruct Hup as [[Hmo ->]|[(Hmo & e & -> & Hst & _)|(Hmo & s & b & _ & ->)]];
        cbn.
      * split; [intros _; by apply Hm|done].
      * split; [done|]. intros Hne. apply Hm in Hne. congruence.
      * split; [done|]. intros Hne. apply Hm in Hne. congruence.
    + rewrite Hdel. destruct (member_of_other user task) eqn:Hmo; cbn.
      * split; [intros _; by apply Hm|done].
      * split; [done|]. intros Hne. apply Hm in Hne. congruence.
    + intros Hne. apply Hm in Hne. rewrite Hdel, Hne.
      destruct Hup as [[_ ->]|[(Hmo & _)|(Hmo & _)]]; [done|congruence..].
  - intros Hrole.
    assert (Hmo : member_of_other user task = false).
    { apply member_of_other_false. by left. }
    split.
    + destruct Hup as [[Hmo' _]|[(_ & e & -> & Hst & _)|(_ & s & b & _ & ->)]];
        [congruence|done..].
    + rewrite Hdel, Hmo. eexists. split; [done|]. cbn.
      intros t. rewrite list_elem_of_filter. tauto.
Qed.

(** ** The audit trail of an update *)



(** *** The JSON text of a value tells the values apart *)




















(** ** The password hash never leaves *)

Lemma User_toJSON_no_password u : User_toJSON u !! "password" = None.
Proof. unfold User_toJSON. apply lookup_delete_eq. Qed.

Lemma User_toObject_no_password u :
  password u = None → User_toObject u !! "password" = None.
Proof. unfold User_toObject. intros ->. done. Qed.

Lemma select_hides_password sel u :
  sel ≠ PlusPassword → password (select sel u) = None.
Proof. by destruct sel. Qed.

Lemma UserRef_toJSON_no_password r : UserRef_toJSON r !! "password" = None.
Proof. done. Qed.

Lemma User_findById_hides_password sel id db doc db' :
  sel ≠ PlusPassword →
  User_findById sel id db = (inr (Some doc), db') → password doc = None.
Proof.
  intros Hsel. unfold User_findById.
  destruct (castObjectId id); [|discriminate].
  unfold read. destruct (List.find _ _); [|discriminate].
  intros [= <- _]. by apply select_hides_password.
Qed.

Lemma sendTokenResponse_user `{External} user statusCode message :
  auth_user (sendTokenResponse user statusCode message).2 = User_toJSON user.
Proof. done. Qed.

Lemma register_response `{External} body newId now db code resp db' :
  respond (register body newId now) db = (Sent code resp, db') →
  ∃ user, auth_user resp = User_toJSON user.
Proof.
  unfold respond, register. unfold bind at 1.
  set (role := match r_role body with Some _ => _ | None => _ end).
  assert (Hcreate : ∀ d,
    match
      (do user <- User_create newId now (r_email body) (r_password body)
                    (r_firstName body) (r_lastName body) role;
       ret (sendTokenResponse user 201 "User registered successfully")) d
    with
    | (inr (code0, body0), d') => (Sent code0 body0, d')
    | (inl e, d') => (Thrown e, d')
    end = (Sent code resp, db') →
    ∃ user, auth_user resp = User_toJSON user).
  { intros d. unfold bind.
    destruct (User_create _ _ _ _ _ _ _ d) as [[e|user] d1]; [discriminate|].
    intros [= <- <- <-]. by exists user. }
  destruct (r_email body) as [e|].
  - unfold User_findOne_email, read.
    destruct (select DefaultSelect <$> List.find _ _); [discriminate|].
    apply Hcreate.
  - apply Hcreate.
Qed.

Lemma login_response `{External} body db code resp db' :
  respond (login body) db = (Sent code resp, db') →
  ∃ user, password user = None
          ∧ auth_user resp = User_toJSON user
          ∧ auth_user resp = User_toObject user.
Proof.
  unfold respond, login, User_findOne_email. rewrite bind_read.
  destruct (select PlusPassword <$> List.find _ _) as [user|]; [|discriminate].
  destruct (from_option _ _ _); [|discriminate].
  intros [= <- <- <-]. exists (set_password None user).
  split; [done|]. split; [done|].
  cbn. unfold User_toJSON. apply delete_id. done.
Qed.

Lemma getUsers_response `{External} q db code resp db' :
  respond (getUsers q) db = (Sent code resp, db') →
  ∀ o, o ∈ page_data resp → ∃ user, password user = None ∧ o = User_toJSON user.
Proof.
  unfold respond, getUsers.
  destruct (pageNumber_of (uq_page q)), (limitNumber_of (uq_limit q));
    try discriminate.
  rewrite bind_read. intros [= <- <- <-] o Ho. cbn in Ho.
  apply list_elem_of_fmap in Ho as (user & -> & Hu).
  apply list_elem_of_fmap in Hu as (u0 & -> & _).
  by exists (select MinusPassword u0).
Qed.

Lemma getUserById_response id db code resp db' :
  respond (getUserById id) db = (Sent code resp, db') →
  ∃ user, password user = None ∧ resp.1 = User_toJSON user.
Proof.
  unfold respond, getUserById.
  destruct (ObjectId_isValid id); [|discriminate].
  unfold bind at 1.
  destruct (User_findById MinusPassword id db) as [[e|[user|]] d] eqn:Hfind;
    [discriminate| |discriminate].
  rewrite bind_read. intros [= <- <- <-]. exists user. split; [|done].
  by apply (User_findById_hides_password MinusPassword id db user d).
Qed.

Lemma getTasks_response `{External} user q db code resp db' :
  respond (getTasks user q) db = (Sent code resp, db') →
  ∀ t o, t ∈ page_data resp → o ∈ task_users t → o !! "password" = None.
Proof.
  intros _ t o _ Ho. unfold task_users in Ho.
  apply list_elem_of_fmap in Ho as (r & -> & _).
  apply UserRef_toJSON_no_password.
Qed.

(** C10. No response that carries a user object carries the stored
    password hash. A query returns the [password] path only when it is
    asked for; [toJSON] deletes the [password] key of whatever document
    it serializes; [login], the one handler that asks for the path,
    clears it before it answers. So the user object answered by
    [register], [login], the profile, the user list and the user by
    identifier, and the users populated in the task list, have no
    [password] key. *)
Theorem responses_carry_no_password `{External} db :
  (∀ sel id doc db',
     sel ≠ PlusPassword →
     User_findById sel id db = (inr (Some doc), db') → password doc = None)
  ∧ (∀ u, User_toJSON u !! "password" = None)
  ∧ (∀ body newId now code resp db',
       respond (register body newId now) db = (Sent code resp, db') →
       auth_user resp !! "password" = None)
  ∧ (∀ body code resp db',
       respond (login body) db = (Sent code resp, db') →
       auth_user resp !! "password" = None
       ∧ ∃ user, password user = None ∧ auth_user resp = User_toObject user)
  ∧ (∀ decoded user db1 code resp db',
       authenticate decoded db = (inr user, db1) →
       respond (getProfile (Some user)) db1 = (Sent code resp, db') →
       password user = None ∧ resp !! "password" = None)
  ∧ (∀ q code resp db',
       respond (getUsers q) db = (Sent code resp, db') →
       ∀ o, o ∈ page_data resp → o !! "password" = None)
  ∧ (∀ id code resp db',
       respond (getUserById id) db = (Sent code resp, db') →
       resp.1 !! "password" = None)
  ∧ (∀ user q code resp db',
       respond (getTasks user q) db = (Sent code resp, db') →
       ∀ t o, t ∈ page_data resp → o ∈ task_users t →
              o !! "password" = None).
Proof.
  split; [intros *; apply User_findById_hides_password|].
  split; [apply User_toJSON_no_password|].
  split.
  { intros * Hrun. apply register_response in Hrun as [user ->].
    apply User_toJSON_no_password. }
  split.
  { intros * Hrun. apply login_response in Hrun as (user & Hp & Hj & Ho).
    split; [rewrite Hj; apply User_toJSON_no_password|eauto]. }
  split.
  { intros * Hauth Hrun. split.
    - revert Hauth. unfold authenticate.
      destruct decoded as [userId|]; [|discriminate].
      unfold bind.
      destruct (User_findById MinusPassword userId db) as [[e|[u|]] d] eqn:Hf;
        [discriminate| |discriminate].
      intros [= <- <-].
      by apply (User_findById_hides_password MinusPassword userId db u d).
    - revert Hrun. unfold respond, getProfile. intros [= <- <- <-].
      apply User_toJSON_no_password. }
  split.
  { intros * Hrun o Ho.
    destruct (getUsers_response _ _ _ _ _ Hrun o Ho) as (user & _ & ->).
    apply User_toJSON_no_password. }
  split.
  { intros * Hrun. apply getUserById_response in Hrun as (user & _ & ->).
    apply User_toJSON_no_password. }
  intros *. apply getTasks_response.
Qed.

(** ** Normalization of tags *)

Lemma lower_ascii_idem c : Js.lower_ascii (Js.lower_ascii c) = Js.lower_ascii c.
Proof.
  destruct c as [[] [] [] [] [] [] [] []]; reflexivity.
Qed.

Lemma is_space_lower c : Js.is_space (Js.lower_ascii c) = Js.is_space c.
Proof.
  destruct c as [[] [] [] [] [] [] [] []]; reflexivity.
Qed.

Lemma toLowerCase_idem s : Js.toLowerCase (Js.toLowerCase s) = Js.toLowerCase s.
Proof.
  induction s as [|c s IH]; [done|]. cbn. by rewrite lower_ascii_idem, IH.
Qed.

Lemma toLowerCase_trimStart s :
  Js.toLowerCase (Js.trimStart s) = Js.trimStart (Js.toLowerCase s).
Proof.
  induction s as [|c s IH]; [done|]. cbn. rewrite is_space_lower.
  by destruct (Js.is_space c).
Qed.

Lemma toLowerCase_trimEnd s :
  Js.toLowerCase (Js.trimEnd s) = Js.trimEnd (Js.toLowerCase s).
Proof.
  induction s as [|c s IH]; [done|]. cbn. rewrite <- IH, is_space_lower.
  destruct (Js.trimEnd s); cbn; [|done]. by destruct (Js.is_space c).
Qed.

Lemma toLowerCase_trim s : Js.toLowerCase (Js.trim s) = Js.trim (Js.toLowerCase s).
Proof. unfold Js.trim. by rewrite toLowerCase_trimEnd, toLowerCase_trimStart. Qed.

Lemma trimStart_clean s : starts_clean (Js.trimStart s).
Proof.
  induction s as [|c s IH]; [done|]. cbn.
  by destruct (Js.is_space c) eqn:Hc.
Qed.

Lemma trimStart_id s : starts_clean s → Js.trimStart s = s.
Proof. destruct s as [|c s]; [done|]. cbn. by intros ->. Qed.

Lemma trimEnd_clean s : starts_clean s → starts_clean (Js.trimEnd s).
Proof.
  destruct s as [|c s]; [done|]. cbn. intros Hc.
  destruct (Js.trimEnd s); [by rewrite Hc|done].
Qed.

Lemma trimEnd_idem s : Js.trimEnd (Js.trimEnd s) = Js.trimEnd s.
Proof.
  induction s as [|c s IH]; [done|]. cbn.
  destruct (Js.trimEnd s) as [|d r] eqn:Hr.
  - destruct (Js.is_space c) eqn:Hc; [done|]. cbn. by rewrite Hc.
  - cbn in IH |- *. by rewrite IH.
Qed.

Lemma trim_idem s : Js.trim (Js.trim s) = Js.trim s.
Proof.
  unfold Js.trim.
  rewrite (trimStart_id (Js.trimEnd (Js.trimStart s))).
  - apply trimEnd_idem.
  - apply trimEnd_clean, trimStart_clean.
Qed.

Lemma truthy_nonempty s : Js.truthy s ↔ s ≠ "".
Proof. destruct s; cbn; split; done. Qed.

Lemma indexOf_lookup arr x :
  x ∈ arr → ∃ i, Js.indexOf arr x = Z.of_nat i ∧ arr !! i = Some x.
Proof.
  induction arr as [|y arr IH]; [by intros ?%not_elem_of_nil|].
  intros Hin. cbn. destruct (decide (y = x)) as [->|Hne].
  - by exists 0%nat.
  - apply elem_of_cons in Hin as [->|Hin]; [done|].
    destruct (IH Hin) as (i & Hi & Hl). exists (S i). rewrite Hi.
    destruct (Z.ltb_spec (Z.of_nat i) 0); [lia|]. split; [lia|done].
Qed.

(** The tags kept by the hook: the non-empty normalized tags, each at
    its first position. *)
Lemma elem_of_normalize_tags tags x :
  x ∈ normalize_tags tags
  ↔ x ≠ "" ∧ ∃ tag, tag ∈ tags ∧ x = Js.trim (Js.toLowerCase tag).
Proof.
  unfold normalize_tags.
  set (arr := (λ tag, Js.trim (Js.toLowerCase tag)) <$> tags).
  rewrite list_elem_of_fmap. split.
  - intros ([i y] & -> & Hin). apply list_elem_of_filter in Hin as [[Ht _] Hin].
    apply elem_of_lookup_imap_1 in Hin as (j & z & [= -> ->] & Hz).
    cbn in *. split; [by apply truthy_nonempty|].
    apply list_elem_of_lookup_2 in Hz. unfold arr in Hz.
    apply list_elem_of_fmap in Hz as (tag & -> & Htag). eauto.
  - intros (Hne & tag & Htag & ->).
    assert (Hx : Js.trim (Js.toLowerCase tag) ∈ arr).
    { unfold arr. apply list_elem_of_fmap. eauto. }
    apply indexOf_lookup in Hx as (i & Hi & Hl).
    exists (i, Js.trim (Js.toLowerCase tag)). split; [done|].
    apply list_elem_of_filter. split.
    + cbn. split; [by apply truthy_nonempty|done].
    + by apply (elem_of_lookup_imap_2 (λ index tag, (index, tag))).
Qed.

Lemma NoDup_normalize_tags tags : NoDup (normalize_tags tags).
Proof.
  unfold normalize_tags.
  set (arr := (λ tag, Js.trim (Js.toLowerCase tag)) <$> tags).
  apply NoDup_fmap_2_strong.
  - intros [i x] [j y] Hx Hy. cbn. intros ->.
    apply list_elem_of_filter in Hx as [[_ Hi] _].
    apply list_elem_of_filter in Hy as [[_ Hj] _].
    cbn in *. f_equal. lia.
  - apply NoDup_filter, NoDup_alt. intros i j [k x].
    rewrite !list_lookup_imap. intros Hi Hj.
    destruct (arr !! i); [|done]. destruct (arr !! j); [|done].
    cbn in *. congruence.
Qed.

Lemma length_normalize_tags tags :
  (length (normalize_tags tags) ≤ length tags)%nat.
Proof.
  unfold normalize_tags. rewrite length_fmap.
  etransitivity; [apply length_filter|].
  by rewrite length_imap, length_fmap.
Qed.

Lemma normalize_tags_normalized tags :
  (length tags ≤ 10)%nat → tags_normalized (normalize_tags tags).
Proof.
  intros Hlen. split; [|split].
  - apply Forall_forall. intros x Hx.
    apply elem_of_normalize_tags in Hx as (Hne & tag & _ & ->).
    split; [|split; [|done]].
    + by rewrite toLowerCase_trim, toLowerCase_idem.
    + apply trim_idem.
  - apply NoDup_normalize_tags.
  - etransitivity; [apply length_normalize_tags|done].
Qed.

Lemma check_nil ok message : check ok message = [] → ok = true.
Proof. by destruct ok. Qed.

Lemma validate_paths_tags now b l :
  validate_paths now b = [] → b_tags b = Some l → (length l ≤ 10)%nat.
Proof.
  unfold validate_paths. cbn [concat]. intros Hnil Hl.
  do 5 (apply app_eq_nil in Hnil as [_ Hnil]).
  rewrite app_nil_r, Hl in Hnil. cbn in Hnil.
  apply check_nil, Z.leb_le in Hnil. lia.
Qed.

Lemma find_app_fresh oid (l : list ITask) t :
  List.existsb (has_task_id oid) l = false → task_id t = oid →
  List.find (has_task_id oid) (l ++ [t]) = Some t.
Proof.
  intros Hfresh Hid. induction l as [|u l IH]; cbn.
  - unfold has_task_id. by rewrite bool_decide_eq_true_2.
  - cbn in Hfresh. apply orb_false_iff in Hfresh as [-> Hfresh]. auto.
Qed.

Lemma find_update_first (p : ITask → bool) f l t :
  List.find p l = Some t → p (f t) = true →
  List.find p (update_first p f l) = Some (f t).
Proof.
  intros Hfind Hp. induction l as [|u l IH]; [done|]. cbn in *.
  destruct (p u) eqn:Hu.
  - injection Hfind as ->. cbn. by rewrite Hp.
  - cbn. rewrite Hu. auto.
Qed.

(** What [Task.create] stores. *)
Lemma Task_create_stored newId now b creator db t db' :
  Task_create newId now b creator db = (inr t, db') →
  db' = mkDb (users db) (tasks db ++ [t]) (activityLogs db)
  ∧ List.find (has_task_id newId) (tasks db') = Some t
  ∧ b_title b ≫= (λ v, Some (Js.trim v)) = Some (title t)
  ∧ description t = Js.trim <$> b_description b
  ∧ status t = default TODO (b_status b ≫= TaskStatus_of)
  ∧ priority t = default MEDIUM (b_priority b ≫= TaskPriority_of)
  ∧ dueDate t = b_dueDate b
  ∧ tags t = normalize_tags (default [] (b_tags b))
  ∧ (length (default [] (b_tags b)) ≤ 10)%nat
  ∧ b_assignee b ≫= castObjectId = Some (assignee t)
  ∧ createdBy t = creator.
Proof.
  unfold Task_create. cbn [cast_body b_title b_description b_status b_priority
    b_dueDate b_tags b_assignee].
  set (messages := concat _).
  destruct messages as [|m ms] eqn:Hm; [|by destruct (_ <$> _), (_ ≫= _)].
  destruct (b_title b) as [ttl|]; cbn [fmap option_fmap option_map];
    [|discriminate].
  destruct (b_assignee b ≫= castObjectId) as [who|] eqn:Hwho; [|discriminate].
  rewrite bind_read.
  destruct (List.existsb (has_task_id newId) (tasks db)) eqn:Hfresh;
    [discriminate|].
  rewrite bind_write. intros [= <- <-]. cbn.
  split; [done|]. split; [by apply find_app_fresh|].
  repeat split.
  subst messages. cbn [concat] in Hm.
  apply app_eq_nil in Hm as [_ Hm]. apply app_eq_nil in Hm as [Hm _].
  destruct (b_tags b) as [l|] eqn:Hl; cbn; [|lia].
  by apply (validate_paths_tags now _ l Hm).
Qed.

(** After a successful [createTask] the stored task, which is the one
    [Task.findById] then returns, has a normalized list of tags: the
    tags of the input lower-cased, trimmed and deduplicated. *)
Lemma createTask_tags_normalized `{External} user body newId now db code task db' :
  respond (createTask (Some user) body newId now) db = (Sent code task, db') →
  List.find (has_task_id newId) (tasks db') = Some (doc task)
  ∧ tags (doc task) = normalize_tags (default [] (b_tags body))
  ∧ tags_normalized (tags (doc task))
  ∧ status (doc task) = default TODO (b_status body ≫= TaskStatus_of)
  ∧ priority (doc task) = default MEDIUM (b_priority body ≫= TaskPriority_of).
Proof.
  unfold respond, createTask. unfold bind at 1.
  destruct (match b_assignee body with
            | Some a => User_findById DefaultSelect a
            | None => ret None
            end db) as [[e|[assigneeUser|]] d0] eqn:Hfind; [discriminate| |discriminate].
  assert (d0 = db) as ->.
  { revert Hfind. destruct (b_assignee body) as [a|]; [|by intros [= _ <-]].
    unfold User_findById. destruct (castObjectId a); by intros [= _ <-]. }
  unfold bind at 1.
  destruct (Task_create newId now body (user_id user) db) as [[e|t] d1] eqn:Hcreate;
    [discriminate|].
  apply Task_create_stored in Hcreate
    as (-> & Hf & _ & _ & Hs & Hp & _ & Ht & Hlen & _).
  unfold populate. rewrite bind_read. unfold ActivityLog_create.
  destruct (castObjectId (task_id t)); [|discriminate].
  rewrite bind_write. intros [= <- <- <-]. cbn in *.
  repeat split; try done; rewrite Ht.
  - apply normalize_tags_normalized, Hlen.
  - apply NoDup_normalize_tags.
  - etransitivity; [apply length_normalize_tags|done].
Qed.

Lemma cast_update_tags now b s :
  cast_update now b = inr s →
  set_tags s = b_tags b ∧ ∀ l, b_tags b = Some l → (length l ≤ 10)%nat.
Proof.
  unfold cast_update. cbn [cast_body b_assignee].
  destruct (b_assignee b) as [a|]; cbn [mbind option_bind];
    [destruct (castObjectId a); [|discriminate]|];
    (destruct (validate_paths now _) eqn:Hv; [|discriminate]);
    intros [= <-]; (split; [done|]); intros l Hl;
    by apply (validate_paths_tags now _ l Hv).
Qed.

(** An update stores the tags it is given as they are: no [save]
    middleware runs on [findByIdAndUpdate]. *)
Lemma updateTask_tags_as_given user id oid task updates now db code body db' l :
  castObjectId id = Some oid →
  List.find (has_task_id oid) (tasks db) = Some task →
  b_tags updates = Some l →
  respond (updateTask (Some user) id updates now) db = (Sent code body, db') →
  tags <$> List.find (has_task_id oid) (tasks db') = Some l
  ∧ (length l ≤ 10)%nat.
Proof.
  intros Hid Hfind Hl Hrun.
  destruct (updateTask_outcome user id oid task updates now db Hid Hfind)
    as [[_ Hr]|[(_ & e & Hr & _)|(_ & s & b & Hs & Hr)]];
    rewrite Hr in Hrun; try discriminate.
  injection Hrun as _ _ <-. cbn [tasks].
  destruct (cast_update_tags _ _ _ Hs) as [Htags Hlen].
  split; [|by apply Hlen].
  rewrite (find_update_first _ _ _ task Hfind).
  - cbn. by rewrite Htags, Hl.
  - apply List.find_some in Hfind as [_ Hp]. exact Hp.
Qed.

(** C4 fails on the update path. The member Bob updates the tags of his
    task to ["Urgent"; "urgent"; "urgent"]: the call answers 200 and
    the store then holds these three tags as given, the first not
    lower-cased and the second repeated, where the hook of the save
    path would have kept the single tag "urgent". *)
Theorem updateTask_stores_tags_unnormalized :
  let given := ["Urgent"; "urgent"; "urgent"] in
  let out :=
    respond (updateTask (Some Sample.bob) Sample.task1_id
               (Sample.set_tags_to given) 100) Sample.db in
  http_status out.1 = 200
  ∧ tags <$> List.find (has_task_id Sample.task1_id) (tasks out.2) = Some given
  ∧ normalize_tags given = ["urgent"]
  ∧ ¬ Forall tag_normalized given
  ∧ ¬ NoDup given
  ∧ ¬ tags_normalized given.
Proof.
  cbv zeta.
  assert (Hlower : ¬ Forall tag_normalized ["Urgent"; "urgent"; "urgent"]).
  { intros Hall. apply Forall_cons in Hall as [(Hlower & _) _].
    discriminate Hlower. }
  split; [reflexivity|]. split; [reflexivity|]. split; [reflexivity|].
  split; [exact Hlower|]. split.
  - intros Hnodup. apply NoDup_cons in Hnodup as [_ Hnodup].
    apply NoDup_cons in Hnodup as [Hin _]. apply Hin. left.
  - intros (Hall & _ & _). by apply Hlower.
Qed.

(** ** The properties at the sample data *)

Lemma getTasks_role_scope_witness :
  ∃ body,
    respond (@getTasks Sample.ext (Some Sample.bob) Sample.no_query) Sample.db
    = (Sent 200 body, Sample.db)
    ∧ ∀ t, t ∈ page_data body → assignee (doc t) = Sample.bob_id.
Proof.
  destruct (@getTasks_role_scope Sample.ext Sample.bob Sample.no_query
              Sample.db 1 10 eq_refl eq_refl) as [Hmember _].
  apply Hmember. reflexivity.
Defined.

Lemma mutation_authorization_witness :
  respond (updateTask (Some Sample.bob) Sample.task2_id
             (Sample.set_status_to "todo") 100) Sample.db
  = (Thrown (AppError
       "Access denied. You can only update your assigned tasks." 403),
     Sample.db)
  ∧ respond (deleteTask (Some Sample.bob) Sample.task2_id 100) Sample.db
    = (Thrown (AppError
         "Access denied. You can only delete your assigned tasks." 403),
       Sample.db).
Proof.
  destruct (mutation_authorization Sample.bob Sample.task2_id Sample.task2_id
              Sample.task2 (Sample.set_status_to "todo") 100 Sample.db
              eq_refl eq_refl) as [Hmember _].
  destruct (Hmember eq_refl) as (_ & _ & Hdenied).
  apply Hdenied. vm_compute. discriminate.
Defined.


Lemma bulkUpdateTasks_logs_each_requested_id_witness :
  ∃ u db',
    Some Sample.ada = Some u
    ∧ respond (bulkUpdateTasks (Some Sample.ada)
                 [Sample.task1_id; Sample.absent_id]
                 (Sample.set_status_to "done") 100) Sample.db
      = (Sent 200 (mkResult 1 1), db')
    ∧ length (activityLogs db') = 2%nat.
Proof.
  destruct (bulkUpdateTasks_logs_each_requested_id (Some Sample.ada)
              [Sample.task1_id; Sample.absent_id]
              (Sample.set_status_to "done") 100 Sample.db 200 (mkResult 1 1)
              _ eq_refl) as (u & Hu & _ & Hlen & _).
  exists u. eexists. split; [exact Hu|]. split; [reflexivity|exact Hlen].
Defined.

Lemma bulkUpdateTasks_fails_before_any_write_witness :
  respond (bulkUpdateTasks (Some Sample.ada)
             [Sample.task1_id; Sample.task2_id; Sample.absent_id; "not-an-id"]
             (Sample.set_status_to "done") 100) Sample.db
  = (Thrown (AppError "One or more task IDs are invalid" 400), Sample.db).
Proof.
  refine (proj2 (bulkUpdateTasks_fails_before_any_write (Some Sample.ada)
            [Sample.task1_id; Sample.task2_id; Sample.absent_id; "not-an-id"]
            (Sample.set_status_to "done") 100 Sample.db _) _ Sample.ada eq_refl).
  - left. exists "not-an-id". split; [|reflexivity].
    repeat constructor.
  - exists "not-an-id". split; [|reflexivity].
    repeat constructor.
Defined.


Lemma deleteUser_blocked_by_assignments_witness :
  ∃ message,
    respond (@deleteUser Sample.ext (Some Sample.ada) Sample.bob_id) Sample.db
    = (Thrown (AppError message 400), Sample.db).
Proof.
  refine (proj1 (@deleteUser_blocked_by_assignments Sample.ext
            (Some Sample.ada) Sample.bob_id Sample.bob_id Sample.bob Sample.db
            eq_refl _ eq_refl) _).
  - repeat constructor.
  - exists Sample.task1. split; [|reflexivity].
    repeat constructor.
Defined.

Lemma responses_carry_no_password_witness :
  ∃ resp,
    (respond (@login Sample.ext (mkLogin "bob@example.com" "hunter2"))
       Sample.db).1
    = Sent 200 resp
    ∧ auth_user resp !! "password" = None.
Proof.
  destruct (@responses_carry_no_password Sample.ext Sample.db)
    as (_ & _ & _ & Hlogin & _).
  eexists. split; [reflexivity|].
  exact (proj1 (Hlogin (mkLogin "bob@example.com" "hunter2") 200 _ _ eq_refl)).
Defined.

(** * Further properties *)

(** ** The life of a task: create, read, delete *)

Lemma populated_users db1 db2 t :
  users db1 = users db2 → populated db1 t = populated db2 t.
Proof. unfold populated, populate_ref. by intros ->. Qed.

(** What a successful [createTask] did. *)
Lemma createTask_sent `{External} user body newId now db code task db' :
  respond (createTask (Some user) body newId now) db = (Sent code task, db') →
  ∃ t a who oid,
    b_assignee body = Some a
    ∧ castObjectId a = Some (assignee t)
    ∧ List.find (has_id (assignee t)) (users db) = Some who
    ∧ castObjectId newId = Some oid
    ∧ task_id t = newId
    ∧ Task_create newId now body (user_id user) db
      = (inr t, mkDb (users db) (tasks db ++ [t]) (activityLogs db))
    ∧ code = 201
    ∧ task = populated db t
    ∧ db' = mkDb (users db) (tasks db ++ [t])
              (activityLogs db
               ++ [mkLog oid (user_id user) CREATE
                     {[ "title" := CVal (from_option JStr JUndefined (b_title body));
                        "assignee" := CVal (JStr (email who)) ]} now]).
Proof.
  unfold respond, createTask. unfold bind at 1.
  destruct (b_assignee body) as [a|] eqn:Ha; [|discriminate].
  unfold User_findById at 1.
  destruct (castObjectId a) as [aid|] eqn:Hcast; [|discriminate].
  unfold read at 1.
  destruct (List.find (has_id aid) (users db)) as [who0|] eqn:Hwho;
    [|discriminate].
  cbn [fmap option_fmap option_map]. unfold bind at 1.
  destruct (Task_create newId now body (user_id user) db) as [[e|t] d1] eqn:Hcreate;
    [discriminate|].
  pose proof Hcreate as Hstored.
  apply Task_create_stored in Hstored
    as (-> & Hfind & _ & _ & _ & _ & _ & _ & _ & Hassignee & _).
  rewrite Ha in Hassignee. cbn in Hassignee. rewrite Hcast in Hassignee.
  injection Hassignee as ->.
  apply List.find_some in Hfind as [_ Hid].
  apply bool_decide_eq_true_1 in Hid.
  unfold populate. rewrite bind_read. unfold ActivityLog_create.
  rewrite Hid.
  destruct (castObjectId newId) as [oid|] eqn:Hnew; [|discriminate].
  rewrite bind_write. intros [= <- <- <-].
  exists t, a, who0, oid. cbn. repeat split; try done.
Qed.

(** X1. A task just created can be read back: after a successful
    [createTask], [getTaskById] on the new identifier, by an
    administrator or by the assignee, answers 200 with the very task that
    the creation answered. Its title is the trimmed title of the
    request, its status and priority are those of the request or [todo]
    and [medium], its due date is the one of the request, its tags are
    the normalized tags of the request, its creator is the caller and
    both its dates are the time of the call. *)
Theorem createTask_then_getTaskById `{External}
    user viewer body newId now db code task db' :
  castObjectId newId = Some newId →
  respond (createTask (Some user) body newId now) db = (Sent code task, db') →
  role viewer = ADMIN ∨ user_id viewer = assignee (doc task) →
  (∃ history,
     respond (getTaskById (Some viewer) newId) db'
     = (Sent 200 (mkDetail task history), db'))
  ∧ code = 201
  ∧ task_id (doc task) = newId
  ∧ Js.trim <$> b_title body = Some (title (doc task))
  ∧ description (doc task) = Js.trim <$> b_description body
  ∧ status (doc task) = default TODO (b_status body ≫= TaskStatus_of)
  ∧ priority (doc task) = default MEDIUM (b_priority body ≫= TaskPriority_of)
  ∧ dueDate (doc task) = b_dueDate body
  ∧ tags (doc task) = normalize_tags (default [] (b_tags body))
  ∧ b_assignee body ≫= castObjectId = Some (assignee (doc task))
  ∧ createdBy (doc task) = user_id user
  ∧ createdAt (doc task) = now
  ∧ updatedAt (doc task) = now.
Proof.
  intros Hnew Hrun Hviewer.
  destruct (createTask_sent _ _ _ _ _ _ _ _ Hrun)
    as (t & a & who & oid & Ha & Hcast & Hwho & Hoid & Hid & Hcreate
        & -> & -> & ->).
  pose proof Hcreate as Hstored.
  apply Task_create_stored in Hstored
    as (_ & Hfind & Htitle & Hdesc & Hst & Hpr & Hdue & Htags & _ & Hass & Hby).
  change (doc (populated db t)) with t in *. cbn [tasks] in Hfind.
  assert (Hdates : createdAt t = now ∧ updatedAt t = now).
  { revert Hcreate. unfold Task_create.
    destruct (concat _); [|by destruct (b_title _), (_ ≫= _)].
    destruct (b_title (cast_body body)); [|discriminate].
    destruct (b_assignee (cast_body body) ≫= castObjectId); [|discriminate].
    rewrite bind_read. destruct (List.existsb _ _); [discriminate|].
    rewrite bind_write. by intros [= <- _]. }
  split.
  - eexists. apply respond_sent. unfold getTaskById.
    rewrite (bind_run _ _ _ _ _ (Task_findById_run _ _ _ Hnew)).
    cbn [tasks]. rewrite Hfind. unfold populate. rewrite bind_read.
    rewrite (populated_users _ db t) by done.
    assert (Hdenied :
      (if decide (role viewer = MEMBER)
       then match assignee_ref (populated db t) with
            | Some r => inr (bool_decide (ref_id r ≠ user_id viewer))
            | None => inl InternalError
            end
       else inr false) = inr false).
    { destruct (decide (role viewer = MEMBER)) as [Hm|]; [|done].
      destruct Hviewer as [Hadm|Hme]; [congruence|].
      cbn. unfold populate_ref. rewrite Hwho. cbn.
      apply List.find_some in Hwho as [_ Hw].
      apply bool_decide_eq_true_1 in Hw.
      rewrite bool_decide_eq_false_2; [done|]. intros Hne. apply Hne.
      cbn. congruence. }
    rewrite Hdenied. unfold ActivityLog_history. rewrite Hnew.
    rewrite bind_read. reflexivity.
  - destruct Hdates. destruct (b_title body); cbn in *; repeat split; done.
Qed.

Lemma Task_create_thrown newId now b creator db e db' :
  Task_create newId now b creator db = (inl e, db') → db' = db.
Proof.
  unfold Task_create.
  destruct (concat _); [|by intros [= _ <-]].
  destruct (b_title (cast_body b)); [|by intros [= _ <-]].
  destruct (b_assignee (cast_body b) ≫= castObjectId); [|by intros [= _ <-]].
  rewrite bind_read. destruct (List.existsb _ _); [by intros [= _ <-]|].
  rewrite bind_write. discriminate.
Qed.

Lemma Task_create_past_dueDate newId now b creator db d :
  b_dueDate b = Some d → d ≤ now →
  ∃ messages,
    Task_create newId now b creator db = (inl (ValidationError messages), db)
    ∧ "Due date must be in the future" ∈ messages.
Proof.
  intros Hd Hpast. unfold Task_create.
  set (messages := concat _).
  assert (Hin : "Due date must be in the future" ∈ messages).
  { subst messages. cbn [concat]. rewrite !elem_of_app. right. left.
    unfold validate_paths, b_dueDate in *. cbn [concat cast_body b_title
      b_description b_status b_priority b_due b_tags b_assignee].
    rewrite !elem_of_app. do 4 right. left.
    rewrite Hd. cbn [on_present]. unfold validate_dueDate, check.
    rewrite bool_decide_eq_false_2 by lia. left. }
  destruct messages as [|m ms] eqn:Hm; [by apply not_elem_of_nil in Hin|].
  by exists (m :: ms).
Qed.

(** X2. The two refusals that [createTask] makes before it writes. An
    assignee that is not given, or that is the identifier of no user, is
    answered 404 and the database is as it was. The assignee existing, a
    due date that is not after the time of the call is answered by a
    validation error that says so, and the database is as it was: the
    document is validated before it is inserted. *)
Theorem createTask_refusals_precede_write `{External} user body newId now db :
  (∀ u,
     user = Some u →
     (∀ a oid v, b_assignee body = Some a → castObjectId a = Some oid →
                 v ∈ users db → user_id v ≠ oid) →
     (∀ a, b_assignee body = Some a → is_Some (castObjectId a)) →
     respond (createTask user body newId now) db
     = (Thrown (AppError "Assignee not found" 404), db))
  ∧ (∀ u a oid v d,
       user = Some u →
       b_assignee body = Some a → castObjectId a = Some oid →
       v ∈ users db → user_id v = oid →
       b_dueDate body = Some d → d ≤ now →
       ∃ messages,
         respond (createTask user body newId now) db
         = (Thrown (ValidationError messages), db)
         ∧ "Due date must be in the future" ∈ messages).
Proof.
  split.
  - intros u -> Hnone Hvalid. apply respond_thrown. unfold createTask.
    destruct (b_assignee body) as [a|] eqn:Ha; [|done].
    destruct (Hvalid a eq_refl) as [oid Hoid].
    rewrite (bind_run _ _ _ _ _ (User_findById_run _ _ _ _ Hoid)).
    rewrite find_has_id_None; [done|]. intros v Hv. by apply (Hnone a oid v).
  - intros u a oid v d -> Ha Hoid Hv Hid Hd Hpast.
    destruct (find_has_id _ _ _ Hv Hid) as (w & Hw & _).
    destruct (Task_create_past_dueDate newId now body (user_id u) db d Hd Hpast)
      as (messages & Hc & Hin).
    exists messages. split; [|done]. apply respond_thrown. unfold createTask.
    rewrite Ha, (bind_run _ _ _ _ _ (User_findById_run _ _ _ _ Hoid)), Hw.
    cbn [fmap option_fmap option_map].
    by rewrite (bind_fail _ _ _ _ _ Hc).
Qed.

(** X3. A successful [createTask] appends exactly one task and exactly
    one activity entry, and touches nothing else: the users are as
    before, the tasks are the former ones followed by the new task, and
    the log is the former one followed by one [create] entry for the new
    task, by the caller, at the time of the call, whose changes hold the
    title as the request gave it and the e-mail address of the
    assignee. *)
Theorem createTask_appends_task_and_entry `{External}
    user body newId now db code task db' :
  respond (createTask (Some user) body newId now) db = (Sent code task, db') →
  users db' = users db
  ∧ tasks db' = tasks db ++ [doc task]
  ∧ ∃ entry who,
      activityLogs db' = activityLogs db ++ [entry]
      ∧ castObjectId newId = Some (taskId entry)
      ∧ userId entry = user_id user
      ∧ action entry = CREATE
      ∧ timestamp entry = now
      ∧ who ∈ users db
      ∧ user_id who = assignee (doc task)
      ∧ changes entry
        = {[ "title" := CVal (from_option JStr JUndefined (b_title body));
             "assignee" := CVal (JStr (email who)) ]}.
Proof.
  intros Hrun.
  destruct (createTask_sent _ _ _ _ _ _ _ _ Hrun)
    as (t & a & who & oid & Ha & Hcast & Hwho & Hoid & Hid & Hcreate
        & -> & -> & ->).
  cbn. split; [done|]. split; [done|].
  apply find_has_id_Some in Hwho as [Hin Hw].
  eexists _, who. split; [done|]. cbn. repeat split; done.
Qed.

Lemma find_filter_other oid (l : list ITask) :
  List.find (has_task_id oid) (filter (λ t, task_id t ≠ oid) l) = None.
Proof.
  induction l as [|t l IH]; [done|].
  destruct (decide (task_id t ≠ oid)) as [Hne|Heq].
  - rewrite filter_cons_True by done. cbn. unfold has_task_id at 1.
    by rewrite bool_decide_eq_false_2.
  - by rewrite filter_cons_False.
Qed.

(** X4. A deleted task is gone, its history is not. After a successful
    [deleteTask], the task list holds no task with that identifier, and
    a further [getTaskById], [updateTask] or [deleteTask] on it, by
    anyone, is answered 404 "Task not found" and writes nothing. The
    users are untouched, every other task stays in place, and the
    activity log keeps all its former entries, those of the deleted task
    among them, followed by one [delete] entry that records the title
    the task had. *)
Theorem deleteTask_then_not_found
    user id oid task now db message db' :
  castObjectId id = Some oid →
  List.find (has_task_id oid) (tasks db) = Some task →
  respond (deleteTask (Some user) id now) db = (Sent 200 message, db') →
  (∀ t, t ∈ tasks db' → task_id t ≠ oid)
  ∧ tasks db' = filter (λ t, task_id t ≠ oid) (tasks db)
  ∧ users db' = users db
  ∧ activityLogs db'
    = activityLogs db
      ++ [mkLog oid (user_id user) DELETE
            {[ "title" := CVal (JStr (title task)) ]} now]
  ∧ (∀ viewer,
       respond (getTaskById (Some viewer) id) db'
       = (Thrown (AppError "Task not found" 404), db'))
  ∧ (∀ other updates later,
       respond (updateTask (Some other) id updates later) db'
       = (Thrown (AppError "Task not found" 404), db'))
  ∧ (∀ other later,
       respond (deleteTask (Some other) id later) db'
       = (Thrown (AppError "Task not found" 404), db')).
Proof.
  intros Hid Hfind Hrun.
  rewrite (deleteTask_outcome _ _ _ _ _ _ Hid Hfind) in Hrun.
  destruct (member_of_other user task); [discriminate|].
  injection Hrun as <- <-. cbn [tasks users activityLogs].
  split; [by intros t [Ht _]%list_elem_of_filter|].
  do 3 (split; [done|]).
  assert (Hgone : ∀ u l,
    List.find (has_task_id oid)
      (tasks (mkDb u (filter (λ t, task_id t ≠ oid) (tasks db)) l)) = None)
    by (intros; apply find_filter_other).
  split; [|split].
  - intros viewer. apply respond_thrown. unfold getTaskById.
    rewrite (bind_run _ _ _ _ _ (Task_findById_run _ _ _ Hid)).
    by rewrite Hgone.
  - intros other updates later. apply respond_thrown. unfold updateTask.
    rewrite (bind_run _ _ _ _ _ (Task_findById_run _ _ _ Hid)).
    by rewrite Hgone.
  - intros other later. apply respond_thrown. unfold deleteTask.
    rewrite (bind_run _ _ _ _ _ (Task_findById_run _ _ _ Hid)).
    by rewrite Hgone.
Qed.

(** ** Updates *)

Lemma concat_nil_inv {A} (ls : list (list A)) :
  concat ls = [] → Forall (λ l, l = []) ls.
Proof.
  induction ls as [|l ls IH]; [constructor|]. cbn.
  intros [-> Hrest]%app_eq_nil. constructor; auto.
Qed.

Lemma of_value_status v s : TaskStatus_of v = Some s → TaskStatus_value s = v.
Proof.
  intros [_ Hs]%List.find_some. by apply bool_decide_eq_true_1 in Hs.
Qed.

Lemma of_value_priority v p :
  TaskPriority_of v = Some p → TaskPriority_value p = v.
Proof.
  intros [_ Hp]%List.find_some. by apply bool_decide_eq_true_1 in Hp.
Qed.

(** What [validate_paths] accepted. *)
Lemma validate_paths_nil now b :
  validate_paths now b = [] →
  (∀ v, b_title b = Some v →
        v ≠ "" ∧ (String.length v ≤ 200)%nat)
  ∧ (∀ v, b_description b = Some v → (String.length v ≤ 2000)%nat)
  ∧ (∀ v, b_status b = Some v → is_Some (TaskStatus_of v))
  ∧ (∀ v, b_priority b = Some v → is_Some (TaskPriority_of v))
  ∧ (∀ d, b_dueDate b = Some d → now < d)
  ∧ (∀ l, b_tags b = Some l → (length l ≤ 10)%nat).
Proof.
  intros Hv. apply concat_nil_inv in Hv.
  rewrite !Forall_cons in Hv.
  destruct Hv as (Ht & Hd & Hs & Hp & Hdue & Htags & _).
  split; [|repeat split].
  - intros v Hb. rewrite Hb in Ht. cbn in Ht. unfold validate_title in Ht.
    destruct (Js.truthy v) eqn:Hv; [|discriminate].
    apply check_nil in Ht. split; [by intros ->|lia].
  - intros v Hb. rewrite Hb in Hd. apply check_nil in Hd. lia.
  - intros v Hb. rewrite Hb in Hs. apply check_nil in Hs.
    by apply bool_decide_eq_true_1 in Hs.
  - intros v Hb. rewrite Hb in Hp. apply check_nil in Hp.
    by apply bool_decide_eq_true_1 in Hp.
  - intros d Hb. rewrite Hb in Hdue. apply check_nil in Hdue.
    by apply bool_decide_eq_true_1 in Hdue.
  - intros l Hb. rewrite Hb in Htags. apply check_nil in Htags. lia.
Qed.

(** What a successful [cast_update] holds. *)
Lemma cast_update_inr now b s :
  cast_update now b = inr s →
  validate_paths now (cast_body b) = []
  ∧ s = mkSet (Js.trim <$> b_title b) (Js.trim <$> b_description b)
              (b_status b ≫= TaskStatus_of) (b_priority b ≫= TaskPriority_of)
              (b_dueDate b) (b_tags b) (b_assignee b ≫= castObjectId)
  ∧ (∀ a, b_assignee b = Some a → is_Some (castObjectId a)).
Proof.
  unfold cast_update. cbn [cast_body b_assignee].
  destruct (b_assignee b) as [a|]; cbn [mbind option_bind].
  - destruct (castObjectId a) eqn:Ha; [|discriminate].
    destruct (validate_paths now _) eqn:Hv; [|discriminate].
    intros [= <-]. repeat split; try done. intros a' [= <-]. by rewrite Ha.
  - destruct (validate_paths now _) eqn:Hv; [|discriminate].
    intros [= <-]. repeat split; done.
Qed.

Lemma check_new_assignee_sent task updates db c db' :
  check_new_assignee task updates db = (inr c, db') →
  c = assignee_changes task updates ∧ db' = db
  ∧ new_assignee_exists db task updates.
Proof.
  unfold check_new_assignee, assignee_changes, new_assignee_exists.
  destruct (b_assignee updates) as [a|]; [|by intros [= <- <-]].
  destruct (Js.truthy a && bool_decide (a ≠ assignee task)) eqn:Hnew.
  - unfold User_findById.
    destruct (castObjectId a) as [aid|] eqn:Hcast; [|discriminate].
    rewrite bind_read.
    destruct (List.find (has_id aid) (users db)) as [u|] eqn:Hu; [|discriminate].
    intros [= <- <-]. repeat split; try done.
    intros ? [= <-] _ _. apply find_has_id_Some in Hu as [Hin <-]. eauto.
  - intros [= <- <-]. repeat split; try done.
    intros ? [= <-] Ht Hne. rewrite Ht, bool_decide_eq_true_2 in Hnew by done.
    discriminate.
Qed.

(** What a successful [updateTask] did. *)
Lemma updateTask_sent user id oid task updates now db code body db' :
  castObjectId id = Some oid →
  List.find (has_task_id oid) (tasks db) = Some task →
  respond (updateTask (Some user) id updates now) db = (Sent code body, db') →
  ∃ s,
    member_of_other user task = false
    ∧ new_assignee_exists db task updates
    ∧ cast_update now updates = inr s
    ∧ code = 200
    ∧ body = Some (populated db (apply_set now s task))
    ∧ List.find (has_task_id oid) (tasks db') = Some (apply_set now s task)
    ∧ db' = mkDb (users db)
              (update_first (has_task_id oid) (apply_set now s) (tasks db))
              (activityLogs db
               ++ (if decide (update_changes task updates ≠ ∅)
                   then [mkLog oid (user_id user) UPDATE
                               (update_changes task updates) now]
                   else [])).
Proof.
  intros Hid Hfind. rewrite updateTask_unfold. unfold respond.
  rewrite (bind_run _ _ _ _ _ (Task_findById_run _ _ _ Hid)), Hfind.
  destruct (member_of_other user task) eqn:Hm; [discriminate|].
  unfold bind at 1.
  destruct (check_new_assignee task updates db) as [[e|c] d1] eqn:Hc;
    [discriminate|].
  apply check_new_assignee_sent in Hc as (-> & -> & Hexists). cbv zeta.
  fold (update_changes task updates).
  unfold Task_findByIdAndUpdate. rewrite Hid.
  destruct (cast_update now updates) as [e|s] eqn:Hs;
    [rewrite bind_throw; discriminate|].
  rewrite (bind_run _ _ _ _ _ (bind_write _ _ _)).
  rewrite (bind_run _ _ _ _ _ (populate_option_run _ _)).
  erewrite (bind_run _ _ _ _ _ (log_if_changed_run _ _ _ _ _ _ Hid)).
  assert (Hupdated :
    List.find (has_task_id oid)
      (update_first (has_task_id oid) (apply_set now s) (tasks db))
    = Some (apply_set now s task)).
  { apply find_update_first; [done|].
    apply List.find_some in Hfind as [_ Hp]. exact Hp. }
  cbn [tasks read]. rewrite Hupdated. cbn [fmap option_fmap option_map].
  intros [= <- <- <-]. exists s. repeat split; try done.
Qed.

Lemma update_first_length p f l :
  length (update_first p f l) = length l.
Proof.
  induction l as [|t l IH]; [done|]. cbn. destruct (p t); cbn; auto.
Qed.

Lemma update_first_other p f l t :
  t ∈ l → p t = false → t ∈ update_first p f l.
Proof.
  induction l as [|u l IH]; [by intros ?%elem_of_nil|].
  intros [->|Hin]%elem_of_cons Hp; cbn.
  - rewrite Hp. left.
  - destruct (p u); right; auto.
Qed.

(** ** Sorting *)

Lemma SortKey_le_total a b : SortKey_le a b = true ∨ SortKey_le b a = true.
Proof.
  destruct a as [|x|x], b as [|y|y]; cbn; auto.
  - destruct (Z.leb_spec x y); [by left|right]. apply Z.leb_le. lia.
  - apply String.leb_total.
Qed.

#[local] Instance sorted_by_total {A} (key : A → SortKey) ascending :
  Total (sorted_by key ascending).
Proof.
  intros a b. unfold sorted_by.
  destruct ascending;
    [destruct (SortKey_le_total (key a) (key b)) as [->| ->]
    |destruct (SortKey_le_total (key b) (key a)) as [->| ->]]; cbn; auto.
Qed.

Lemma HdRel_impl {A} (R R' : relation A) a l :
  (∀ x y, R x y → R' x y) → HdRel R a l → HdRel R' a l.
Proof. intros HR [|b l' Hab]; constructor; auto. Qed.

Lemma Sorted_impl {A} (R R' : relation A) l :
  (∀ x y, R x y → R' x y) → Sorted R l → Sorted R' l.
Proof.
  intros HR. induction 1 as [|a l _ IH Hhd]; constructor; [done|].
  by apply (HdRel_impl R).
Qed.

Lemma Sorted_take {A} (R : relation A) n l :
  Sorted R l → Sorted R (take n l).
Proof.
  intros Hl. revert n. induction Hl as [|a l _ IH Hhd]; intros [|n]; cbn;
    try constructor; [apply IH|].
  destruct Hhd as [|b l' Hab]; destruct n; cbn; constructor; done.
Qed.

Lemma Sorted_drop {A} (R : relation A) n l :
  Sorted R l → Sorted R (drop n l).
Proof.
  intros Hl. revert n. induction Hl as [|a l Hl IH Hhd]; intros [|n]; cbn;
    try constructor; auto.
Qed.

(** ** Reading one task *)

(** X6. [getTaskById] answers by the state of the store and the role
    of the caller. A task that is not there is answered 404. With the
    task there and its assignee a user of the store, a member who is not
    the assignee is answered 403, and an administrator or the assignee is
    answered 200 with the task and its history: at most twenty entries of
    the activity log, all of them about this task, the newest first; when
    the task has twenty entries or fewer, the history holds them all. No
    outcome writes to the store. *)
Theorem getTaskById_access_and_history viewer id oid db :
  castObjectId id = Some oid →
  (List.find (has_task_id oid) (tasks db) = None →
     respond (getTaskById (Some viewer) id) db
     = (Thrown (AppError "Task not found" 404), db))
  ∧ (∀ t who,
       List.find (has_task_id oid) (tasks db) = Some t →
       List.find (has_id (assignee t)) (users db) = Some who →
       (role viewer = MEMBER → user_id viewer ≠ assignee t →
          respond (getTaskById (Some viewer) id) db
          = (Thrown (AppError
               "Access denied. You can only view your assigned tasks." 403), db))
       ∧ (role viewer = ADMIN ∨ user_id viewer = assignee t →
          ∃ history,
            respond (getTaskById (Some viewer) id) db
            = (Sent 200 (mkDetail (populated db t) history), db)
            ∧ (length history ≤ 20)%nat
            ∧ (∀ e, e ∈ history → e ∈ activityLogs db ∧ taskId e = oid)
            ∧ Sorted (λ a b, timestamp b ≤ timestamp a) history
            ∧ ((length (filter (λ e, taskId e = oid) (activityLogs db)) ≤ 20)%nat →
               history ≡ₚ filter (λ e, taskId e = oid) (activityLogs db)))).
Proof.
  intros Hid. split.
  { intros Hnone. apply respond_thrown. unfold getTaskById.
    rewrite (bind_run _ _ _ _ _ (Task_findById_run _ _ _ Hid)).
    by rewrite Hnone. }
  intros t who Hfind Hwho.
  pose proof Hwho as [_ Hwid]%find_has_id_Some.
  assert (Hrun :
    getTaskById (Some viewer) id db
    = (let denied :=
         if decide (role viewer = MEMBER)
         then inr (bool_decide (user_id who ≠ user_id viewer))
         else inr false in
       match denied with
       | inl e => throw e
       | inr true =>
           throw (AppError
             "Access denied. You can only view your assigned tasks." 403)
       | inr false =>
           do history <- ActivityLog_history id;
           ret (200, mkDetail (populated db t) history)
       end) db) by
    (unfold getTaskById;
     rewrite (bind_run _ _ _ _ _ (Task_findById_run _ _ _ Hid)), Hfind;
     unfold populate; rewrite bind_read; cbn [populated assignee_ref];
     unfold populate_ref; rewrite Hwho; reflexivity).
  split.
  - intros Hm Hne. apply respond_thrown. rewrite Hrun. cbv zeta.
    rewrite decide_True by done. rewrite bool_decide_eq_true_2 by congruence.
    done.
  - intros Hallowed.
    set (mine := filter (λ e, taskId e = oid) (activityLogs db)).
    set (sorted := merge_sort (sorted_by (λ e, KNum (timestamp e)) false) mine).
    exists (take 20 sorted).
    split; [|split; [|split; [|split]]].
    + apply respond_sent. rewrite Hrun. cbv zeta.
      assert (Hdenied :
        (if decide (role viewer = MEMBER)
         then inr (bool_decide (user_id who ≠ user_id viewer))
         else @inr Error bool false) = inr false).
      { destruct (decide (role viewer = MEMBER)) as [Hm|]; [|done].
        destruct Hallowed as [Hadm|Hme]; [congruence|].
        rewrite bool_decide_eq_false_2; [done|]. intros Hne. congruence. }
      rewrite Hdenied. unfold ActivityLog_history. rewrite Hid.
      by rewrite bind_read.
    + rewrite length_take. lia.
    + intros e He. apply (subseteq_take 20) in He.
      unfold sorted in He. rewrite merge_sort_Permutation in He.
      apply list_elem_of_filter in He. tauto.
    + apply Sorted_take.
      apply (Sorted_impl (sorted_by (λ e, KNum (timestamp e)) false)).
      * intros a b. unfold sorted_by. cbn. intros Hle%Is_true_true.
        by apply Z.leb_le.
      * apply Sorted_merge_sort. apply _.
    + intros Hfew. rewrite take_ge.
      * apply merge_sort_Permutation.
      * unfold sorted. by rewrite merge_sort_Permutation.
Qed.

(** ** What the handlers leave in place *)

Lemma preserves_ret {A} (R : relation Db) `{!Reflexive R} (a : A) :
  preserves R (ret a).
Proof. intros db. apply reflexivity. Qed.

Lemma preserves_throw {A} (R : relation Db) `{!Reflexive R} e :
  preserves R (@throw A e).
Proof. intros db. apply reflexivity. Qed.

Lemma preserves_read {A} (R : relation Db) `{!Reflexive R} (f : Db → A) :
  preserves R (read f).
Proof. intros db. apply reflexivity. Qed.

Lemma preserves_write (R : relation Db) f :
  (∀ db, R db (f db)) → preserves R (write f).
Proof. intros Hf db. apply Hf. Qed.

Lemma preserves_bind {A B} (R : relation Db) `{!Transitive R}
    (m : Action A) (k : A → Action B) :
  preserves R m → (∀ a, preserves R (k a)) → preserves R (bind m k).
Proof.
  intros Hm Hk db. unfold bind. specialize (Hm db).
  destruct (m db) as [[e|a] db1]; [done|].
  cbn in Hm. etrans; [exact Hm|apply Hk].
Qed.

Lemma preserves_for_each {A} (R : relation Db) `{!PreOrder R}
    (l : list A) (f : A → Action unit) :
  (∀ a, preserves R (f a)) → preserves R (for_each l f).
Proof.
  intros Hf. induction l as [|a l IH]; cbn [for_each].
  - apply preserves_ret, _.
  - apply preserves_bind; [apply _|apply Hf|done].
Qed.

Lemma preserves_respond {A} (R : relation Db) (m : Action (Z * A)) db :
  preserves R m → R db (respond m db).2.
Proof.
  intros Hm. specialize (Hm db). unfold respond.
  by destruct (m db) as [[e|[code body]] db1].
Qed.

#[local] Instance log_extended_preorder : PreOrder log_extended.
Proof.
  split.
  - by intros db.
  - intros a b c [Hu1 Hl1] [Hu2 Hl2]. split; [congruence|by etrans].
Qed.

(** One step of the proof that an action preserves a relation: the
    structure of the action is followed down to its reads and writes. *)
Ltac preserves_step :=
  lazymatch goal with
  | |- preserves _ (bind _ _) => apply preserves_bind; [apply _| |intros ?]
  | |- preserves _ (ret _) => apply preserves_ret, _
  | |- preserves _ (throw _) => apply preserves_throw, _
  | |- preserves _ (read _) => apply preserves_read, _
  | |- preserves _ (for_each _ _) => apply preserves_for_each; [apply _|intros ?]
  | |- preserves _ (match ?x with _ => _ end) => destruct x
  | |- preserves _ (let _ := _ in _) => cbv zeta
  end.

Lemma log_extended_ActivityLog_create task user a c now :
  preserves log_extended (ActivityLog_create task user a c now).
Proof.
  unfold ActivityLog_create. destruct (castObjectId task).
  - apply preserves_write. intros db. split; [done|]. by apply prefix_app_r.
  - apply preserves_throw, _.
Qed.

Lemma log_extended_tasks f :
  preserves log_extended
    (write (λ db, mkDb (users db) (f db) (activityLogs db))).
Proof. by apply preserves_write. Qed.

(** X7. The handlers of the tasks never touch the users and never
    rewrite the past of the activity log: whatever the request and
    whatever the outcome, answered or thrown, after [createTask],
    [updateTask], [deleteTask] or [bulkUpdateTasks] the users are the
    same and the former log is a prefix of the new one. *)
Theorem task_handlers_extend_log `{External} user db :
  (∀ body newId now,
     log_extended db (respond (createTask user body newId now) db).2)
  ∧ (∀ id updates now,
       log_extended db (respond (updateTask user id updates now) db).2)
  ∧ (∀ id now, log_extended db (respond (deleteTask user id now) db).2)
  ∧ (∀ taskIds updates now,
       log_extended db (respond (bulkUpdateTasks user taskIds updates now) db).2).
Proof.
  split; [|split; [|split]]; intros; apply preserves_respond.
  - unfold createTask, User_findById, Task_create, populate.
    repeat first [ apply log_extended_ActivityLog_create
                 | apply log_extended_tasks
                 | preserves_step ].
  - unfold updateTask, Task_findById, User_findById, Task_findByIdAndUpdate,
      populate.
    repeat first [ apply log_extended_ActivityLog_create
                 | apply log_extended_tasks
                 | preserves_step ].
  - unfold deleteTask, Task_findById, Task_findByIdAndDelete.
    repeat first [ apply log_extended_ActivityLog_create
                 | apply log_extended_tasks
                 | preserves_step ].
  - unfold bulkUpdateTasks, User_findById, Task_updateMany_ids.
    repeat first [ apply log_extended_ActivityLog_create
                 | apply log_extended_tasks
                 | preserves_step ].
Qed.

Ltac preserves_eq := repeat preserves_step.

(** X8. The handlers that read write nothing: whatever the request and
    whatever the outcome, the store after the task lists ([getTasks],
    [getOverdueTasks], [getTasksByAssignee]), the reading of one task,
    the user list, the reading of one user, the dashboard, the overview
    of the statistics, [login], [getProfile], [verifyToken] and the
    middlewares [authenticate], [optionalAuth], [requireAdmin] and
    [requireOwnershipOrAdmin] is the store before. *)
Theorem reading_handlers_write_nothing `{External} db :
  (∀ user q, (respond (getTasks user q) db).2 = db)
  ∧ (∀ user id, (respond (getTaskById user id) db).2 = db)
  ∧ (∀ user now, (respond (getOverdueTasks user now) db).2 = db)
  ∧ (∀ id, (respond (getTasksByAssignee id) db).2 = db)
  ∧ (∀ q, (respond (getUsers q) db).2 = db)
  ∧ (∀ id, (respond (getUserById id) db).2 = db)
  ∧ (∀ caller param now, (respond (getUserDashboard caller param now) db).2 = db)
  ∧ (∀ caller now week, (respond (getOverviewStats caller now week) db).2 = db)
  ∧ (∀ body, (respond (login body) db).2 = db)
  ∧ (∀ user, (respond (getProfile user) db).2 = db)
  ∧ (∀ user, (respond (verifyToken user) db).2 = db)
  ∧ (∀ decoded, (authenticate decoded db).2 = db)
  ∧ (∀ decoded, (optionalAuth decoded db).2 = db)
  ∧ (∀ user, (requireAdmin user db).2 = db)
  ∧ (∀ caller param body, (requireOwnershipOrAdmin caller param body db).2 = db).
Proof.
  repeat split; intros; symmetry.
  - apply (preserves_respond eq).
    unfold getTasks, Task_countDocuments, Task_find, populate_all.
    preserves_eq.
  - apply (preserves_respond eq).
    unfold getTaskById, Task_findById, populate, ActivityLog_history.
    preserves_eq.
  - apply (preserves_respond eq).
    unfold getOverdueTasks, Task_find, populate_all. preserves_eq.
  - apply (preserves_respond eq).
    unfold getTasksByAssignee, User_findById, Task_find. preserves_eq.
  - apply (preserves_respond eq). unfold getUsers. preserves_eq.
  - apply (preserves_respond eq). unfold getUserById, User_findById.
    preserves_eq.
  - apply (preserves_respond eq). unfold getUserDashboard. preserves_eq.
  - apply (preserves_respond eq). unfold getOverviewStats. preserves_eq.
  - apply (preserves_respond eq). unfold login, User_findOne_email.
    preserves_eq.
  - apply (preserves_respond eq). unfold getProfile. preserves_eq.
  - apply (preserves_respond eq). unfold verifyToken. preserves_eq.
  - revert db. change (preserves eq (authenticate decoded)).
    unfold authenticate, User_findById. preserves_eq.
  - unfold optionalAuth, User_findById. destruct decoded as [userId|]; [|done].
    by destruct (castObjectId userId).
  - revert db. change (preserves eq (requireAdmin user)).
    unfold requireAdmin. preserves_eq.
  - revert db. change (preserves eq (requireOwnershipOrAdmin caller param body)).
    unfold requireOwnershipOrAdmin. preserves_eq.
Qed.

(** ** The tasks of one assignee *)

Lemma filter_assignee_eq `{External} id oid (l : list ITask) :
  castObjectId id = Some oid →
  filter (λ t, matches [Assignee_eq id] t) l = filter (λ t, assignee t = oid) l.
Proof.
  intros Hid. apply list_filter_iff. intros t. by apply matches_assignee_eq.
Qed.

(** X9. [getTasksByAssignee]: a parameter that is no identifier is
    answered 400 and an identifier of no user 404, both without a look
    at the tasks. For a user of the store the answer is 200 with the
    identifier, names and e-mail address of that user, with exactly the
    tasks assigned to them, each once, the newest created first, and
    with their number as the count. *)
Theorem getTasksByAssignee_lists_assigned `{External} id db :
  (ObjectId_isValid id = false →
     respond (getTasksByAssignee id) db
     = (Thrown (AppError "Invalid assignee ID format" 400), db))
  ∧ (∀ oid,
       castObjectId id = Some oid →
       (∀ u, u ∈ users db → user_id u ≠ oid) →
       respond (getTasksByAssignee id) db
       = (Thrown (AppError "Assignee not found" 404), db))
  ∧ (∀ oid who,
       castObjectId id = Some oid →
       List.find (has_id oid) (users db) = Some who →
       ∃ body,
         respond (getTasksByAssignee id) db = (Sent 200 body, db)
         ∧ at_assignee body
           = mkRef oid (firstName who) (lastName who) (email who)
         ∧ ct_doc <$> at_tasks body
           ≡ₚ filter (λ t, assignee t = oid) (tasks db)
         ∧ Sorted (λ a b, createdAt b ≤ createdAt a) (ct_doc <$> at_tasks body)
         ∧ (∀ c, c ∈ at_tasks body →
                 ct_createdBy c = populate_ref db (createdBy (ct_doc c)))
         ∧ at_count body
           = Z.of_nat (length (filter (λ t, assignee t = oid) (tasks db)))).
Proof.
  split; [|split].
  - intros Hinvalid. apply respond_thrown. unfold getTasksByAssignee.
    by rewrite Hinvalid.
  - intros oid Hid Hnone. apply respond_thrown. unfold getTasksByAssignee.
    destruct (castObjectId_Some _ _ Hid) as [-> _]. cbn [negb].
    rewrite (bind_run _ _ _ _ _ (User_findById_run _ _ _ _ Hid)).
    by rewrite find_has_id_None.
  - intros oid who Hid Hwho.
    pose proof Hwho as [_ Hwid]%find_has_id_Some.
    set (mine := filter (λ t, assignee t = oid) (tasks db)).
    set (sorted := merge_sort (sorted_by (task_sort_key "createdAt") false) mine).
    assert (Hdoc :
      ct_doc <$> ((λ t, mkCreatorTask t (populate_ref db (createdBy t)))
                  <$> sorted) = sorted).
    { rewrite <- list_fmap_compose. apply list_fmap_id. }
    eexists. split.
    { apply respond_sent. unfold getTasksByAssignee.
      destruct (castObjectId_Some _ _ Hid) as [-> _]. cbn [negb].
      rewrite (bind_run _ _ _ _ _ (User_findById_run _ _ _ _ Hid)), Hwho.
      cbn [fmap option_fmap option_map].
      assert (Hc : forallb castable [Assignee_eq id] = true)
        by (cbn; rewrite Hid; by rewrite bool_decide_eq_true_2).
      rewrite (bind_run _ _ _ _ _ (Task_find_run _ db Hc)).
      rewrite (filter_assignee_eq _ _ _ Hid). fold mine. fold sorted.
      rewrite bind_read. reflexivity. }
    cbn [at_assignee at_tasks at_count]. rewrite Hdoc.
    split; [by rewrite <- Hwid|].
    split; [apply merge_sort_Permutation|].
    split.
    { apply (Sorted_impl (sorted_by (task_sort_key "createdAt") false)).
      - intros a b. unfold sorted_by. cbn. intros Hle%Is_true_true.
        by apply Z.leb_le.
      - apply Sorted_merge_sort. apply _. }
    split.
    { intros c (t & -> & _)%list_elem_of_fmap. done. }
    rewrite length_fmap. unfold sorted.
    by rewrite merge_sort_Permutation.
Qed.

(** ** The bulk update of tasks *)

Lemma apply_set_takes_update now b s t :
  cast_update now b = inr s → takes_update b t (apply_set now s t).
Proof.
  intros (Hv & -> & Hcast)%cast_update_inr.
  apply validate_paths_nil in Hv as (_ & _ & Hstatus & Hpriority & _ & _).
  cbn [cast_body b_status b_priority] in *.
  unfold takes_update.
  cbn [apply_set task_id title description status priority dueDate assignee tags
       createdBy createdAt
       set_title set_description set_status set_priority set_dueDate
       set_assignee set_tags].
  split; [done|]. split; [done|].
  split; [by destruct (b_description b)|].
  split.
  { destruct (b_status b) as [v|]; [|done].
    destruct (Hstatus v eq_refl) as [x Hx]. cbn [mbind option_bind].
    rewrite Hx. by apply of_value_status. }
  split.
  { destruct (b_priority b) as [v|]; [|done].
    destruct (Hpriority v eq_refl) as [x Hx]. cbn [mbind option_bind].
    rewrite Hx. by apply of_value_priority. }
  split; [by destruct (b_dueDate b)|]. split; [done|].
  split; [|done].
  destruct (b_assignee b) as [a|]; [|done].
  destruct (Hcast a eq_refl) as [x Hx]. cbn [mbind option_bind].
  by rewrite Hx.
Qed.

Lemma bulk_check_assignee_sent updates db r db' :
  bulk_check_assignee updates db = (inr r, db') →
  db' = db
  ∧ ∀ a, b_assignee updates = Some a → Js.truthy a = true →
         ∃ u, u ∈ users db ∧ castObjectId a = Some (user_id u).
Proof.
  unfold bulk_check_assignee.
  destruct (b_assignee updates) as [a|]; [|by intros [= _ <-]].
  destruct (Js.truthy a) eqn:Ht; [|by intros [= _ <-]; split; [|intros ? [= <-]; congruence]].
  unfold User_findById.
  destruct (castObjectId a) as [aid|] eqn:Hcast; [|discriminate].
  rewrite bind_read.
  destruct (List.find (has_id aid) (users db)) as [u|] eqn:Hu; [|discriminate].
  intros [= _ <-]. split; [done|]. intros ? [= <-] _.
  apply find_has_id_Some in Hu as [Hin <-]. eauto.
Qed.

(** What a successful [bulkUpdateTasks] did. *)
Lemma bulkUpdateTasks_sent user taskIds updates now db code result db' :
  respond (bulkUpdateTasks (Some user) taskIds updates now) db
    = (Sent code result, db') →
  ∃ s,
    Forall (λ id, ObjectId_isValid id = true) taskIds
    ∧ (∀ a, b_assignee updates = Some a → Js.truthy a = true →
            ∃ u, u ∈ users db ∧ castObjectId a = Some (user_id u))
    ∧ cast_update now updates = inr s
    ∧ code = 200
    ∧ result
      = mkResult
          (Z.of_nat (length (filter
             (λ t, task_id t ∈ Js.toLowerCase <$> taskIds) (tasks db))))
          (Z.of_nat (length (filter
             (λ t, task_id t ∈ Js.toLowerCase <$> taskIds
                   ∧ apply_set now s t ≠ t) (tasks db))))
    ∧ db' = mkDb (users db)
              ((λ t, if bool_decide (task_id t ∈ Js.toLowerCase <$> taskIds)
                     then apply_set now s t else t) <$> tasks db)
              (activityLogs db
               ++ ((λ id, mkLog (Js.toLowerCase id) (user_id user) UPDATE
                            (bulk_changes updates) now) <$> taskIds)).
Proof.
  rewrite bulkUpdateTasks_unfold. cbv zeta.
  destruct (decide (length (List.filter ObjectId_isValid taskIds)
                    ≠ length taskIds)) as [Hlen|Hlen]; [discriminate|].
  apply dec_stable, filter_length_all in Hlen.
  rewrite (filter_all_valid _ _ Hlen).
  unfold respond. unfold bind at 1.
  destruct (bulk_check_assignee updates db) as [[e|[]] d1] eqn:Hcheck;
    [discriminate|].
  apply bulk_check_assignee_sent in Hcheck as [-> Hexists].
  destruct (cast_update now updates) as [e|s] eqn:Hs.
  { destruct (Task_updateMany_ids_fail now taskIds updates e db Hs) as [e' He'].
    rewrite (bind_fail _ _ _ _ _ He'). discriminate. }
  assert (Hmany : ∃ r d,
    Task_updateMany_ids now taskIds updates db = (inr r, d)
    ∧ r = mkResult
          (Z.of_nat (length (filter
             (λ t, task_id t ∈ Js.toLowerCase <$> taskIds) (tasks db))))
          (Z.of_nat (length (filter
             (λ t, task_id t ∈ Js.toLowerCase <$> taskIds
                   ∧ apply_set now s t ≠ t) (tasks db))))
    ∧ d = mkDb (users db)
            ((λ t, if bool_decide (task_id t ∈ Js.toLowerCase <$> taskIds)
                   then apply_set now s t else t) <$> tasks db)
            (activityLogs db)).
  { unfold Task_updateMany_ids. rewrite (mapM_cast_valid _ Hlen), Hs.
    rewrite bind_read, bind_write. eexists _, _. split; [reflexivity|].
    split; [|done]. cbn [read tasks].
    f_equal; f_equal; f_equal; apply list_filter_iff; intros t;
      by rewrite bool_decide_spec. }
  destruct Hmany as (r & d & Hmany & -> & ->).
  rewrite (bind_run _ _ _ _ _ Hmany).
  rewrite (bind_run _ _ _ _ _ (for_each_log_run _ _ _ _ _ Hlen)).
  cbn. intros [= <- <- <-]. exists s. repeat split; done.
Qed.

Lemma length_filter_and {A} (P Q : A → Prop)
    `{∀ x, Decision (P x)} `{∀ x, Decision (Q x)} (l : list A) :
  (length (filter (λ x, P x ∧ Q x) l) ≤ length (filter P l))%nat.
Proof.
  induction l as [|a l IH]; [done|].
  destruct (decide (P a)) as [Hp|Hp].
  - rewrite (filter_cons_True P) by done.
    destruct (decide (Q a)).
    + rewrite filter_cons_True by done. cbn. lia.
    + rewrite filter_cons_False by tauto. cbn. lia.
  - rewrite (filter_cons_False P) by done.
    by rewrite filter_cons_False by tauto.
Qed.

(** X10. A successful [bulkUpdateTasks] gives every listed task the
    same update and leaves the rest alone. The task list keeps its
    length and order: a task whose identifier is listed takes the update
    (see [takes_update]: the fields given are set, every other field
    is kept, the author and the date of creation among them), any other
    task is unchanged. The users are
    untouched, and the answer counts the tasks matched and, among them,
    those the update changed: the second count is at most the first,
    which is at most the number of identifiers when no identifier is
    listed twice. *)
Theorem bulkUpdateTasks_updates_listed
    user taskIds updates now db code result db' :
  NoDup (task_id <$> tasks db) →
  respond (bulkUpdateTasks (Some user) taskIds updates now) db
    = (Sent code result, db') →
  code = 200
  ∧ users db' = users db
  ∧ length (tasks db') = length (tasks db)
  ∧ (∀ i before,
       tasks db !! i = Some before →
       ∃ after,
         tasks db' !! i = Some after
         ∧ if decide (task_id before ∈ Js.toLowerCase <$> taskIds)
           then takes_update updates before after
           else after = before)
  ∧ 0 ≤ modifiedCount result ≤ matchedCount result
  ∧ matchedCount result ≤ Z.of_nat (length (tasks db))
  ∧ (NoDup (Js.toLowerCase <$> taskIds) →
     matchedCount result ≤ Z.of_nat (length taskIds)).
Proof.
  intros Hunique Hrun.
  destruct (bulkUpdateTasks_sent _ _ _ _ _ _ _ _ Hrun)
    as (s & _ & _ & Hs & -> & -> & ->).
  cbn [users tasks matchedCount modifiedCount].
  split; [done|]. split; [done|]. split; [by rewrite length_fmap|].
  split.
  { intros i before Hi. rewrite list_lookup_fmap, Hi. cbn.
    eexists. split; [done|].
    destruct (decide (task_id before ∈ Js.toLowerCase <$> taskIds)).
    - rewrite bool_decide_eq_true_2 by done. by apply apply_set_takes_update.
    - by rewrite bool_decide_eq_false_2. }
  split.
  { split; [lia|]. apply inj_le, length_filter_and. }
  split; [apply inj_le, length_filter|].
  intros Hids. rewrite <- (length_fmap Js.toLowerCase taskIds).
  rewrite <- (length_fmap task_id (filter _ (tasks db))).
  apply inj_le, submseteq_length, NoDup_submseteq.
  - apply (sublist_NoDup _ _ Hunique), fmap_sublist, sublist_filter.
  - intros x (t & -> & [Hin _]%list_elem_of_filter)%list_elem_of_fmap. done.
Qed.

(** ** What each writing handler may have written *)

Lemma Task_create_fresh newId now b creator db t db' :
  Task_create newId now b creator db = (inr t, db') →
  task_id t = newId ∧ ∀ u, u ∈ tasks db → task_id u ≠ newId.
Proof.
  unfold Task_create.
  destruct (concat _); [|discriminate].
  destruct (b_title (cast_body b)); [|discriminate].
  destruct (b_assignee (cast_body b) ≫= castObjectId); [|discriminate].
  rewrite bind_read.
  destruct (List.existsb (has_task_id newId) (tasks db)) eqn:Hfresh;
    [discriminate|].
  rewrite bind_write. intros [= <- _]. split; [done|].
  intros u Hu Hid. apply not_true_iff_false in Hfresh. apply Hfresh.
  apply List.existsb_exists. exists u. split; [by apply list_elem_of_In|].
  unfold has_task_id. by rewrite bool_decide_eq_true_2.
Qed.

Lemma is_hex_lower c : is_hex (Js.lower_ascii c) = is_hex c.
Proof.
  destruct c as [[] [] [] [] [] [] [] []]; reflexivity.
Qed.

Lemma length_toLowerCase s : String.length (Js.toLowerCase s) = String.length s.
Proof. induction s as [|c s IH]; cbn; congruence. Qed.

Lemma isValid_toLowerCase s :
  ObjectId_isValid (Js.toLowerCase s) = ObjectId_isValid s.
Proof.
  unfold ObjectId_isValid. rewrite length_toLowerCase. f_equal.
  induction s as [|c s IH]; [done|]. cbn. by rewrite is_hex_lower, IH.
Qed.

(** An identifier cast is in the form the store keeps: casting it again
    gives it back. *)
Lemma castObjectId_canonical id oid :
  castObjectId id = Some oid → castObjectId oid = Some oid.
Proof.
  intros [Hvalid ->]%castObjectId_Some. unfold castObjectId.
  by rewrite isValid_toLowerCase, Hvalid, toLowerCase_idem.
Qed.

(** Name the outcome [o] and the store [db'] of the handler in the goal. *)
Ltac name_outcome o db' :=
  cbv zeta;
  lazymatch goal with
  | |- context [respond ?m ?db] =>
      let Hr := fresh "Hr" in
      destruct (respond m db) as [o db'] eqn:Hr; cbn [snd]; revert Hr
  end.

Ltac wrote_nothing := by intros [= _ <-]; auto.

(** [createTask], whatever its outcome, either wrote nothing or added
    one task with a fresh identifier and an existing assignee. *)
Lemma createTask_store `{External} user body newId now db :
  let db' := (respond (createTask user body newId now) db).2 in
  db' = db
  ∨ ∃ t who,
      who ∈ users db ∧ user_id who = assignee t
      ∧ castObjectId (assignee t) = Some (assignee t)
      ∧ task_id t = newId
      ∧ (∀ u, u ∈ tasks db → task_id u ≠ newId)
      ∧ users db' = users db ∧ tasks db' = tasks db ++ [t].
Proof.
  name_outcome o db'. destruct user as [user|]; [|wrote_nothing].
  unfold respond, createTask. unfold bind at 1.
  destruct (b_assignee body) as [a|] eqn:Ha; [|wrote_nothing].
  unfold User_findById at 1.
  destruct (castObjectId a) as [aid|] eqn:Hcast; [|wrote_nothing].
  unfold read at 1.
  destruct (List.find (has_id aid) (users db)) as [who|] eqn:Hwho;
    [|wrote_nothing].
  cbn [fmap option_fmap option_map]. unfold bind at 1.
  destruct (Task_create newId now body (user_id user) db) as [[e|t] d1] eqn:Hcreate.
  { apply Task_create_thrown in Hcreate as ->. wrote_nothing. }
  destruct (Task_create_fresh _ _ _ _ _ _ _ Hcreate) as [Hid Hfresh].
  apply Task_create_stored in Hcreate
    as (-> & _ & _ & _ & _ & _ & _ & _ & _ & Hassignee & _).
  rewrite Ha in Hassignee. cbn in Hassignee. rewrite Hcast in Hassignee.
  injection Hassignee as ->.
  apply find_has_id_Some in Hwho as [Hin Hw].
  apply castObjectId_canonical in Hcast.
  unfold populate. rewrite bind_read. unfold ActivityLog_create.
  destruct (castObjectId (task_id t)); [rewrite bind_write|];
    intros [= _ <-]; right; by exists t, who.
Qed.

(** [updateTask], whatever its outcome, either wrote nothing or applied
    an accepted update, whose new assignee exists, to the task found. *)
Lemma updateTask_store user id updates now db :
  let db' := (respond (updateTask user id updates now) db).2 in
  db' = db
  ∨ ∃ oid task s,
      castObjectId id = Some oid
      ∧ List.find (has_task_id oid) (tasks db) = Some task
      ∧ new_assignee_exists db task updates
      ∧ cast_update now updates = inr s
      ∧ users db' = users db
      ∧ tasks db'
        = update_first (has_task_id oid) (apply_set now s) (tasks db).
Proof.
  name_outcome o db'. destruct user as [user|]; [|wrote_nothing].
  destruct (castObjectId id) as [oid|] eqn:Hid.
  2:{ unfold respond, updateTask, Task_findById. rewrite Hid. wrote_nothing. }
  destruct (List.find (has_task_id oid) (tasks db)) as [task|] eqn:Hfind.
  2:{ unfold respond, updateTask.
      rewrite (bind_run _ _ _ _ _ (Task_findById_run _ _ _ Hid)).
      rewrite Hfind. wrote_nothing. }
  intros Hrun. destruct o as [code body|e].
  - destruct (updateTask_sent _ _ _ _ _ _ _ _ _ _ Hid Hfind Hrun)
      as (s & _ & Hexists & Hs & _ & _ & _ & ->).
    right. by exists oid, task, s.
  - left.
    destruct (updateTask_outcome user id oid task updates now db Hid Hfind)
      as [[_ Hr]|[(_ & e' & Hr & _)|(_ & s & body & _ & Hr)]];
      cbv zeta in Hr; rewrite Hrun in Hr; by injection Hr.
Qed.

(** [deleteTask] removes at most the task asked for. *)
Lemma deleteTask_store user id now db :
  let db' := (respond (deleteTask user id now) db).2 in
  users db' = users db
  ∧ (tasks db' = tasks db
     ∨ ∃ oid, castObjectId id = Some oid
              ∧ tasks db' = filter (λ t, task_id t ≠ oid) (tasks db)).
Proof.
  name_outcome o db'. destruct user as [user|]; [|wrote_nothing].
  destruct (castObjectId id) as [oid|] eqn:Hid.
  2:{ unfold respond, deleteTask, Task_findById. rewrite Hid. wrote_nothing. }
  destruct (List.find (has_task_id oid) (tasks db)) as [task|] eqn:Hfind.
  2:{ unfold respond, deleteTask.
      rewrite (bind_run _ _ _ _ _ (Task_findById_run _ _ _ Hid)).
      rewrite Hfind. wrote_nothing. }
  rewrite (deleteTask_outcome _ _ _ _ _ _ Hid Hfind).
  destruct (member_of_other user task); [wrote_nothing|].
  intros [= _ <-]. split; [done|]. right. by exists oid.
Qed.

(** [bulkUpdateTasks], whatever its outcome, either wrote nothing or
    applied an accepted update, whose new assignee exists, to the
    listed tasks. *)
Lemma bulkUpdateTasks_store user taskIds updates now db :
  let db' := (respond (bulkUpdateTasks user taskIds updates now) db).2 in
  db' = db
  ∨ ∃ s,
      (∀ a, b_assignee updates = Some a → Js.truthy a = true →
            ∃ u, u ∈ users db ∧ castObjectId a = Some (user_id u))
      ∧ cast_update now updates = inr s
      ∧ users db' = users db
      ∧ tasks db'
        = (λ t, if bool_decide (task_id t ∈ Js.toLowerCase <$> taskIds)
                then apply_set now s t else t) <$> tasks db.
Proof.
  name_outcome o db'. destruct user as [user|]; [|wrote_nothing].
  destruct o as [code body|e].
  { intros Hrun.
    destruct (bulkUpdateTasks_sent _ _ _ _ _ _ _ _ Hrun)
      as (s & _ & Hexists & Hs & _ & _ & ->).
    right. by exists s. }
  rewrite bulkUpdateTasks_unfold. cbv zeta.
  destruct (decide (length (List.filter ObjectId_isValid taskIds)
                    ≠ length taskIds)) as [Hlen|Hlen]; [wrote_nothing|].
  apply dec_stable, filter_length_all in Hlen.
  rewrite (filter_all_valid _ _ Hlen).
  unfold respond.
  destruct (bulk_check_assignee_pure updates db) as [[e' He]|Hok].
  { rewrite (bind_fail _ _ _ _ _ He). wrote_nothing. }
  rewrite (bind_run _ _ _ _ _ Hok).
  destruct (cast_update now updates) as [e'|s] eqn:Hs.
  { destruct (Task_updateMany_ids_fail now taskIds updates e' db Hs) as [e2 He2].
    rewrite (bind_fail _ _ _ _ _ He2). wrote_nothing. }
  destruct (Task_updateMany_ids_run now taskIds updates s db Hlen Hs)
    as (r & Hmany & _).
  rewrite (bind_run _ _ _ _ _ Hmany).
  rewrite (bind_run _ _ _ _ _ (for_each_log_run _ _ _ _ _ Hlen)).
  discriminate.
Qed.

(** [deleteUser], whatever its outcome, either wrote nothing or removed
    a user to whom no task is assigned. *)
Lemma deleteUser_store `{External} caller id db :
  let db' := (respond (deleteUser caller id) db).2 in
  db' = db
  ∨ ∃ oid,
      (∀ t, t ∈ tasks db → assignee t ≠ oid)
      ∧ users db' = filter (λ u, user_id u ≠ oid) (users db)
      ∧ tasks db' = tasks db.
Proof.
  name_outcome o db'. unfold respond, deleteUser.
  destruct (ObjectId_isValid id) eqn:Hvalid; [|wrote_nothing]. cbn [negb].
  case_bool_decide; [wrote_nothing|].
  assert (Hid : castObjectId id = Some (Js.toLowerCase id))
    by (unfold castObjectId; by rewrite Hvalid).
  rewrite (bind_run _ _ _ _ _ (User_findById_run _ _ _ _ Hid)).
  destruct (List.find _ (users db)) as [u|]; [|wrote_nothing].
  cbn [fmap option_fmap option_map].
  assert (Hcast : forallb castable [Assignee_eq id] = true).
  { simpl. rewrite Hid. by rewrite bool_decide_eq_true_2 by eauto. }
  rewrite (bind_run _ _ _ _ _ (Task_countDocuments_run _ _ Hcast)).
  destruct (0 <? _) eqn:Hcount; [wrote_nothing|].
  unfold User_findByIdAndDelete. rewrite Hid.
  intros [= _ <-]. right. exists (Js.toLowerCase id). split; [|done].
  intros t Ht Ha. apply not_true_iff_false in Hcount. apply Hcount.
  apply (count_assigned_pos id _ _ Hid). eauto.
Qed.

(** ** Invariants of the store *)

Lemma elem_of_update_first p f l t' :
  t' ∈ update_first p f l →
  t' ∈ l ∨ ∃ t, t ∈ l ∧ p t = true ∧ t' = f t.
Proof.
  induction l as [|u l IH]; cbn; [by left|].
  destruct (p u) eqn:Hp.
  - intros [->|Hin]%elem_of_cons.
    + right. exists u. split; [left|done].
    + left. by right.
  - intros [->|Hin]%elem_of_cons; [left; left|].
    destruct (IH Hin) as [?|(t & ? & ? & ?)]; [left; by right|].
    right. exists t. split; [by right|done].
Qed.

Lemma fmap_task_id_update_first p now s l :
  task_id <$> update_first p (apply_set now s) l = task_id <$> l.
Proof.
  induction l as [|t l IH]; [done|]. cbn. destruct (p t); cbn; by f_equal.
Qed.

(** The assignee of an updated task is one the update was checked
    against, or the former one. *)
Lemma apply_set_assignee now updates s db t :
  cast_update now updates = inr s →
  (∀ a, b_assignee updates = Some a → Js.truthy a = true →
        a = assignee t ∨ ∃ u, u ∈ users db ∧ castObjectId a = Some (user_id u)) →
  castObjectId (assignee t) = Some (assignee t) →
  (∃ u, u ∈ users db ∧ user_id u = assignee t) →
  castObjectId (assignee (apply_set now s t)) = Some (assignee (apply_set now s t))
  ∧ ∃ u, u ∈ users db ∧ user_id u = assignee (apply_set now s t).
Proof.
  intros (_ & -> & Hcast)%cast_update_inr Hexists Hcanon Hold.
  cbn [apply_set assignee set_assignee].
  destruct (b_assignee updates) as [a|]; [|done].
  destruct (Hcast a eq_refl) as [x Hx]. cbn. rewrite Hx. cbn.
  destruct (castObjectId_Some _ _ Hx) as [Hvalid _].
  destruct (Hexists a eq_refl (valid_truthy _ Hvalid))
    as [->|(u & Hu & Ha)].
  - rewrite Hcanon in Hx. by injection Hx as <-.
  - rewrite Hx in Ha. injection Ha as ->. split; [|eauto].
    by apply (castObjectId_canonical a).
Qed.

(** X5. A successful [updateTask] on a body that holds none but the
    seven fields the handler reads: the fields it carries are changed
    and no other is, but the date of the update. The answer is 200 with
    the task as stored after the update. Each of title, description,
    status, priority, due date, tags and assignee takes the value of
    the request when the request carries it (title and description
    trimmed, the due date as the instant its text denotes, the assignee
    as the identifier the text denotes) and keeps its former value
    otherwise; the author and the date of creation are kept, and the
    date of the update is the time of the call. The values stored
    passed the validators: a title given is not empty after trimming
    and has at most 200 characters, a status or priority given is one of
    the allowed ones, a due date given lies after the time of the call,
    and at most ten tags are given. A task that was assigned to a user
    of the store still is. The identifier of the task does not change,
    the users are untouched, and every other task of the list stays as
    it was. *)
Theorem updateTask_sets_given_fields
    user id oid task updates now db code body db' :
  castObjectId id = Some oid →
  List.find (has_task_id oid) (tasks db) = Some task →
  respond (updateTask (Some user) id updates now) db = (Sent code body, db') →
  ∃ t,
    code = 200
    ∧ body = Some (populated db' t)
    ∧ List.find (has_task_id oid) (tasks db') = Some t
    ∧ task_id t = task_id task
    ∧ match b_title updates with
      | Some v =>
          title t = Js.trim v ∧ title t ≠ ""
          ∧ (String.length (title t) ≤ 200)%nat
      | None => title t = title task
      end
    ∧ description t
      = match b_description updates with
        | Some d => Some (Js.trim d)
        | None => description task
        end
    ∧ match b_status updates with
      | Some v => TaskStatus_value (status t) = v
      | None => status t = status task
      end
    ∧ match b_priority updates with
      | Some v => TaskPriority_value (priority t) = v
      | None => priority t = priority task
      end
    ∧ match b_dueDate updates with
      | Some d => dueDate t = Some d ∧ now < d
      | None => dueDate t = dueDate task
      end
    ∧ match b_tags updates with
      | Some l => tags t = l ∧ (length l ≤ 10)%nat
      | None => tags t = tags task
      end
    ∧ match b_assignee updates with
      | Some a => castObjectId a = Some (assignee t)
      | None => assignee t = assignee task
      end
    ∧ createdBy t = createdBy task
    ∧ createdAt t = createdAt task
    ∧ updatedAt t = now
    ∧ (castObjectId (assignee task) = Some (assignee task) →
       (∃ u, u ∈ users db ∧ user_id u = assignee task) →
       ∃ u, u ∈ users db' ∧ user_id u = assignee t)
    ∧ users db' = users db
    ∧ length (tasks db') = length (tasks db)
    ∧ ∀ other, other ∈ tasks db → task_id other ≠ oid → other ∈ tasks db'.
Proof.
  intros Hid Hfind Hrun.
  destruct (updateTask_sent _ _ _ _ _ _ _ _ _ _ Hid Hfind Hrun)
    as (s & _ & Hexists & Hs & -> & -> & Hfound & ->).
  assert (Hkept :
    castObjectId (assignee task) = Some (assignee task) →
    (∃ u, u ∈ users db ∧ user_id u = assignee task) →
    ∃ u, u ∈ users db ∧ user_id u = assignee (apply_set now s task)).
  { intros Hcanon Hold.
    apply (apply_set_assignee now updates s db task Hs); [|done..].
    intros a Ha Htruthy.
    destruct (decide (a = assignee task)) as [->|Hne]; [by left|].
    right. by apply Hexists. }
  apply cast_update_inr in Hs as (Hv & -> & Hcast).
  apply validate_paths_nil in Hv
    as (Htitle & _ & Hstatus & Hpriority & Hdue & Htags).
  unfold b_dueDate in *.
  cbn [cast_body b_title b_description b_status b_priority b_due b_tags]
    in *.
  eexists. split; [done|]. split; [by apply f_equal, populated_users|].
  split; [exact Hfound|].
  cbn [apply_set task_id title description status priority dueDate tags
       assignee createdBy createdAt updatedAt
       set_title set_description set_status set_priority set_dueDate
       set_tags set_assignee users tasks] in *.
  split; [done|].
  split.
  { destruct (b_title updates) as [v|]; [|done].
    split; [done|]. by apply (Htitle (Js.trim v)). }
  split; [by destruct (b_description updates)|].
  split.
  { destruct (b_status updates) as [v|]; [|done].
    destruct (Hstatus v eq_refl) as [x Hx]. cbn [mbind option_bind].
    rewrite Hx. by apply of_value_status. }
  split.
  { destruct (b_priority updates) as [v|]; [|done].
    destruct (Hpriority v eq_refl) as [x Hx]. cbn [mbind option_bind].
    rewrite Hx. by apply of_value_priority. }
  split.
  { destruct (b_due updates) as [due|]; [|done].
    split; [done|]. by apply Hdue. }
  split.
  { destruct (b_tags updates) as [l|]; [|done]. split; [done|]. by apply Htags. }
  split.
  { destruct (b_assignee updates) as [a|]; [|done].
    destruct (Hcast a eq_refl) as [x Hx]. cbn [mbind option_bind].
    by rewrite Hx. }
  do 3 (split; [done|]). split; [exact Hkept|].
  split; [done|]. split; [apply update_first_length|].
  intros other Hin Hne. apply update_first_other; [done|].
  unfold has_task_id. by rewrite bool_decide_eq_false_2.
Qed.

(** X11. [createTask], [deleteTask], [bulkUpdateTasks] and
    [deleteUser] leave no task without its assignee. In a store where
    every task is assigned to an existing user, by an identifier in the
    form the store keeps, this is still so after each of them, whatever
    the outcome: [createTask] and [bulkUpdateTasks] look the new
    assignee up before they write, [deleteUser] refuses while a task is
    assigned to the user. ([updateTask] is not among them: it hands the
    whole body of the request to the store.) *)
Theorem handlers_keep_assignees `{External} caller db :
  assignees_exist db →
  (∀ body newId now,
     assignees_exist (respond (createTask caller body newId now) db).2)
  ∧ (∀ id now, assignees_exist (respond (deleteTask caller id now) db).2)
  ∧ (∀ taskIds updates now,
       assignees_exist
         (respond (bulkUpdateTasks caller taskIds updates now) db).2)
  ∧ (∀ id, assignees_exist (respond (deleteUser caller id) db).2).
Proof.
  intros Hinv. split; [|split; [|split]].
  - intros body newId now.
    destruct (createTask_store caller body newId now db)
      as [->|(t & who & Hwho & Hid & Hcanon & _ & _ & Hu & Ht)]; [done|].
    intros t'. rewrite Ht, Hu.
    intros [Hin|Hin%list_elem_of_singleton]%elem_of_app.
    + by apply Hinv.
    + subst t'. split; [done|]. by exists who.
  - intros id now.
    destruct (deleteTask_store caller id now db)
      as [Hu [Ht|(oid & _ & Ht)]];
      intros t'; rewrite Ht, Hu; [by apply Hinv|].
    intros [_ Hin]%list_elem_of_filter. by apply Hinv.
  - intros taskIds updates now.
    destruct (bulkUpdateTasks_store caller taskIds updates now db)
      as [->|(s & Hexists & Hs & Hu & Ht)]; [done|].
    intros t'. rewrite Ht, Hu. intros (t & -> & Hin)%list_elem_of_fmap.
    destruct (Hinv t Hin) as [Hcanon Hold].
    destruct (bool_decide _); [|done].
    apply (apply_set_assignee now updates); try done.
    intros a Ha Htruthy. right. by apply Hexists.
  - intros id.
    destruct (deleteUser_store caller id db)
      as [->|(oid & Hnone & Hu & Ht)]; [done|].
    intros t'. rewrite Ht, Hu. intros Hin.
    destruct (Hinv t' Hin) as [Hcanon (u & Hu' & Hid)].
    split; [done|]. exists u. split; [|done].
    apply list_elem_of_filter. split; [|done].
    rewrite Hid. by apply Hnone.
Qed.

Lemma existsb_false_Forall {A} (p : A → bool) l :
  List.existsb p l = false → ∀ x, x ∈ l → p x = false.
Proof.
  intros Hnone x Hx. apply not_true_iff_false. intros Hp.
  apply not_true_iff_false in Hnone. apply Hnone.
  apply List.existsb_exists. exists x. split; [by apply list_elem_of_In|done].
Qed.

(** What [User.create] did when it returned a document. *)
Lemma User_create_stored `{External} newId now e p f l r u db db' :
  User_create newId now e p f l r db = (inr u, db') →
  ∃ e' p' f' l' r',
    e = Some e' ∧ p = Some p' ∧ f = Some f' ∧ l = Some l'
    ∧ UserRole_of r = Some r'
    ∧ User_validate (Some (cast_email e')) p (Some (Js.trim f'))
        (Some (Js.trim l')) (Some r') = []
    ∧ u = mkUser newId (cast_email e') (Some (bcrypt_hash p')) r'
                 (Js.trim f') (Js.trim l') now now
    ∧ (∀ v, v ∈ users db → user_id v ≠ newId ∧ email v ≠ cast_email e')
    ∧ db' = mkDb (users db ++ [u]) (tasks db) (activityLogs db).
Proof.
  unfold User_create.
  destruct e as [e'|], p as [p'|], f as [f'|], l as [l'|];
    cbn [fmap option_fmap option_map];
    destruct (UserRole_of r) as [r'|];
    destruct (User_validate _ _ _ _ _) eqn:Hv; try discriminate.
  rewrite !bind_read.
  destruct (List.existsb (has_id newId) (users db)) eqn:Hid; [discriminate|].
  destruct (List.existsb (λ v, bool_decide (email v = _)) (users db))
    eqn:Hemail; [discriminate|].
  rewrite bind_write. intros [= <- <-].
  exists e', p', f', l', r'. do 7 (split; [done|]). split; [|done].
  intros v Hin. split.
  - pose proof (existsb_false_Forall _ _ Hid v Hin) as Hp.
    unfold has_id in Hp. by apply bool_decide_eq_false_1 in Hp.
  - pose proof (existsb_false_Forall _ _ Hemail v Hin) as Hp.
    cbn beta in Hp. by apply bool_decide_eq_false_1 in Hp.
Qed.

Lemma User_create_thrown `{External} newId now e p f l r err db db' :
  User_create newId now e p f l r db = (inl err, db') → db' = db.
Proof.
  unfold User_create.
  destruct (User_validate _ _ _ _ _), (cast_email <$> e), p, (Js.trim <$> f),
    (Js.trim <$> l), (UserRole_of r); try by intros [= _ <-].
  rewrite !bind_read.
  destruct (List.existsb _ _); [by intros [= _ <-]|].
  destruct (List.existsb _ _); [by intros [= _ <-]|].
  rewrite bind_write. discriminate.
Qed.

(** [register], whatever its outcome, either wrote nothing or added one
    user whose identifier and e-mail address no user had. *)
Lemma register_store `{External} body newId now db :
  let db' := (respond (register body newId now) db).2 in
  db' = db
  ∨ ∃ u,
      user_id u = newId
      ∧ (∀ v, v ∈ users db → user_id v ≠ newId ∧ email v ≠ email u)
      ∧ users db' = users db ++ [u] ∧ tasks db' = tasks db
      ∧ activityLogs db' = activityLogs db.
Proof.
  name_outcome o db'. unfold respond, register. unfold bind at 1.
  assert (Hfind : ∃ r,
    match r_email body with
    | Some e => User_findOne_email DefaultSelect e
    | None => ret None
    end db = (inr r, db)) by (destruct (r_email body); by eexists).
  destruct Hfind as [r ->]. destruct r as [existing|]; [wrote_nothing|].
  unfold bind at 1.
  destruct (User_create _ _ _ _ _ _ _ db) as [[e|u] d1] eqn:Hcreate.
  { apply User_create_thrown in Hcreate as ->. wrote_nothing. }
  apply User_create_stored in Hcreate
    as (e' & p' & f' & l' & r' & _ & _ & _ & _ & _ & _ & -> & Hfresh & ->).
  intros [= _ <-]. right. eexists. repeat split; try done; by apply Hfresh.
Qed.

Lemma NoDup_snoc_fresh {A B} (f : A → B) (l : list A) (a : A) :
  NoDup (f <$> l) → (∀ x, x ∈ l → f x ≠ f a) → NoDup (f <$> (l ++ [a])).
Proof.
  intros Hl Hfresh. rewrite fmap_app. apply NoDup_app. split; [done|].
  split; [|apply NoDup_singleton].
  intros b (x & -> & Hx)%list_elem_of_fmap Hb%list_elem_of_singleton.
  by apply (Hfresh x).
Qed.

Lemma NoDup_fmap_filter {A B} (f : A → B) (P : A → Prop)
    `{∀ x, Decision (P x)} (l : list A) :
  NoDup (f <$> l) → NoDup (f <$> filter P l).
Proof.
  intros Hl. apply (sublist_NoDup _ _ Hl), fmap_sublist, sublist_filter.
Qed.

(** X12. Identifiers stay unique. In a store where no two tasks share
    an identifier and no two users share an identifier or an e-mail
    address, this is still so after [createTask], [updateTask],
    [deleteTask], [bulkUpdateTasks], [deleteUser] and [register],
    whatever the request and whatever the outcome. *)
Theorem handlers_keep_unique_ids `{External} caller db :
  unique_ids db →
  (∀ body newId now,
     unique_ids (respond (createTask caller body newId now) db).2)
  ∧ (∀ id updates now,
       unique_ids (respond (updateTask caller id updates now) db).2)
  ∧ (∀ id now, unique_ids (respond (deleteTask caller id now) db).2)
  ∧ (∀ taskIds updates now,
       unique_ids (respond (bulkUpdateTasks caller taskIds updates now) db).2)
  ∧ (∀ id, unique_ids (respond (deleteUser caller id) db).2)
  ∧ (∀ body newId now, unique_ids (respond (register body newId now) db).2).
Proof.
  intros (Htasks & Hids & Hemails).
  split; [|split; [|split; [|split; [|split]]]].
  - intros body newId now.
    destruct (createTask_store caller body newId now db)
      as [->|(t & who & _ & _ & _ & Hid & Hfresh & Hu & Ht)]; [done|].
    unfold unique_ids. rewrite Ht, Hu. split; [|done].
    apply NoDup_snoc_fresh; [done|]. intros x Hx. rewrite Hid. by apply Hfresh.
  - intros id updates now.
    destruct (updateTask_store caller id updates now db)
      as [->|(oid & task & s & _ & _ & _ & _ & Hu & Ht)]; [done|].
    unfold unique_ids. rewrite Ht, Hu. by rewrite fmap_task_id_update_first.
  - intros id now.
    destruct (deleteTask_store caller id now db)
      as [Hu [Ht|(oid & _ & Ht)]];
      unfold unique_ids; rewrite Ht, Hu; [done|].
    split; [|done]. by apply NoDup_fmap_filter.
  - intros taskIds updates now.
    destruct (bulkUpdateTasks_store caller taskIds updates now db)
      as [->|(s & _ & _ & Hu & Ht)]; [done|].
    unfold unique_ids. rewrite Ht, Hu. split; [|done].
    rewrite <- list_fmap_compose.
    erewrite list_fmap_ext; [exact Htasks|].
    intros i t _. cbn. by destruct (bool_decide _).
  - intros id.
    destruct (deleteUser_store caller id db)
      as [->|(oid & _ & Hu & Ht)]; [done|].
    unfold unique_ids. rewrite Ht, Hu.
    split; [done|]. split; by apply NoDup_fmap_filter.
  - intros body newId now.
    destruct (register_store body newId now db)
      as [->|(u & Hid & Hfresh & Hu & Ht & _)]; [done|].
    unfold unique_ids. rewrite Ht, Hu. split; [done|].
    split; apply NoDup_snoc_fresh; try done; intros x Hx.
    + rewrite Hid. by apply Hfresh.
    + by apply Hfresh.
Qed.

(** ** Accounts: register, login, password *)

Lemma User_toJSON_set_password p u :
  User_toJSON (set_password p u) = User_toJSON u.
Proof.
  unfold User_toJSON, User_toObject. cbn [set_password password user_id email
    role firstName lastName user_createdAt user_updatedAt].
  destruct p, (password u); by rewrite ?delete_insert_eq.
Qed.

Lemma find_snoc_fresh {A} (q : A → bool) (l : list A) (a : A) :
  (∀ x, x ∈ l → q x = false) → q a = true → List.find q (l ++ [a]) = Some a.
Proof.
  intros Hfresh Ha. induction l as [|b l IH]; cbn.
  - by rewrite Ha.
  - rewrite (Hfresh b) by left. apply IH. intros x Hx. apply Hfresh. by right.
Qed.

(** The role a registration asks for: the one given, [member] when none
    is. *)
Lemma register_sent `{External} body newId now db code resp db' :
  respond (register body newId now) db = (Sent code resp, db') →
  ∃ e p f l r,
    r_email body = Some e ∧ r_password body = Some p
    ∧ r_firstName body = Some f ∧ r_lastName body = Some l
    ∧ UserRole_of (match r_role body with
                   | Some r => if Js.truthy r then r else "member"
                   | None => "member"
                   end) = Some r
    ∧ User_validate (Some (cast_email e)) (Some p) (Some (Js.trim f))
        (Some (Js.trim l)) (Some r) = []
    ∧ (∀ v, v ∈ users db → user_id v ≠ newId ∧ email v ≠ cast_email e)
    ∧ code = 201
    ∧ resp = mkAuth "User registered successfully"
               (User_toJSON (mkUser newId (cast_email e) (Some (bcrypt_hash p)) r
                                    (Js.trim f) (Js.trim l) now now))
               (jwt_sign newId)
    ∧ db' = mkDb (users db
                  ++ [mkUser newId (cast_email e) (Some (bcrypt_hash p)) r
                             (Js.trim f) (Js.trim l) now now])
                 (tasks db) (activityLogs db).
Proof.
  unfold respond, register. unfold bind at 1.
  assert (Hfind : ∃ r,
    match r_email body with
    | Some e => User_findOne_email DefaultSelect e
    | None => ret None
    end db = (inr r, db)) by (destruct (r_email body); by eexists).
  destruct Hfind as [r ->]. destruct r as [existing|]; [discriminate|].
  unfold bind at 1.
  destruct (User_create _ _ _ _ _ _ _ db) as [[e|u] d1] eqn:Hcreate;
    [discriminate|].
  apply User_create_stored in Hcreate
    as (e' & p' & f' & l' & r' & He & Hp & Hf & Hl & Hr & Hv & -> & Hfresh & ->).
  intros [= <- <- <-]. exists e', p', f', l', r'. rewrite Hp in Hv.
  repeat split; try done; by apply Hfresh.
Qed.

(** X13. An account just registered can log in, and its password is
    stored hashed. Given that the hashing library accepts a password
    against its own hash, after a successful [register] (201) the store
    holds one more user, with the identifier drawn, the e-mail address
    lower-cased and trimmed, the hash of the password and not the
    password, the role asked for or [member] when none is asked, and the
    trimmed names; a [login] with that password and the e-mail address in
    any spelling that lower-cases and trims to the same is answered 200
    with the same user object and a token for the same identifier,
    neither answer carrying a password. *)
Theorem register_then_login `{External} body newId now db code resp db' :
  (∀ p, bcrypt_compare p (bcrypt_hash p) = true) →
  respond (register body newId now) db = (Sent code resp, db') →
  ∃ e p u,
    r_email body = Some e ∧ r_password body = Some p
    ∧ code = 201
    ∧ users db' = users db ++ [u]
    ∧ tasks db' = tasks db ∧ activityLogs db' = activityLogs db
    ∧ user_id u = newId
    ∧ email u = cast_email e
    ∧ password u = Some (bcrypt_hash p)
    ∧ Js.trim <$> r_firstName body = Some (firstName u)
    ∧ Js.trim <$> r_lastName body = Some (lastName u)
    ∧ match r_role body with
      | Some r => if Js.truthy r then UserRole_value (role u) = r
                  else role u = MEMBER
      | None => role u = MEMBER
      end
    ∧ auth_user resp = User_toJSON u
    ∧ auth_user resp !! "password" = None
    ∧ auth_token resp = jwt_sign newId
    ∧ ∀ e', cast_email e' = cast_email e →
        respond (login (mkLogin e' p)) db'
        = (Sent 200 (mkAuth "Logged in successfully" (User_toJSON u)
                            (jwt_sign newId)), db').
Proof.
  intros Hbcrypt Hrun.
  destruct (register_sent _ _ _ _ _ _ _ Hrun)
    as (e & p & f & l & r & He & Hp & Hf & Hl & Hr & _ & Hfresh & -> & -> & ->).
  eexists e, p, _. cbn [users tasks activityLogs auth_user auth_token].
  do 6 (split; [done|]). cbn [user_id email password firstName lastName role].
  do 3 (split; [done|]). split; [by rewrite Hf|]. split; [by rewrite Hl|].
  split.
  { destruct (r_role body) as [s|]; [destruct (Js.truthy s)|].
    - apply List.find_some in Hr as [_ Hs]. by apply bool_decide_eq_true_1 in Hs.
    - by injection Hr as <-.
    - by injection Hr as <-. }
  split; [done|]. split; [apply User_toJSON_no_password|]. split; [done|].
  intros e' He'. apply respond_sent. unfold login, User_findOne_email.
  rewrite bind_read. cbn [l_email l_password users].
  rewrite (find_snoc_fresh _ _
    (mkUser newId (cast_email e) (Some (bcrypt_hash p)) r (Js.trim f)
            (Js.trim l) now now)).
  - cbn [fmap option_fmap option_map select password from_option].
    rewrite Hbcrypt. unfold sendTokenResponse.
    by rewrite User_toJSON_set_password.
  - intros v Hv. apply bool_decide_eq_false_2. rewrite He'. by apply Hfresh.
  - apply bool_decide_eq_true_2. by rewrite He'.
Qed.

Lemma find_some_elem {A} (q : A → bool) (l : list A) (a : A) :
  a ∈ l → q a = true → is_Some (List.find q l).
Proof.
  intros Ha Hq. destruct (List.find q l) eqn:Hfind; [done|].
  apply list_elem_of_In in Ha.
  by rewrite (List.find_none _ _ Hfind a Ha) in Hq.
Qed.

(** X14. [register] refuses an e-mail address that is taken, in any
    spelling: when a user of the store has the address that the one given
    lower-cases and trims to, the answer is 400 "User with this email
    already exists". Every refusal of [register], this one, a failed
    validation or a duplicate key, leaves the store as it was. *)
Theorem register_refuses_taken_email `{External} body newId now db e v :
  r_email body = Some e →
  v ∈ users db →
  email v = cast_email e →
  respond (register body newId now) db
  = (Thrown (AppError "User with this email already exists" 400), db)
  ∧ ∀ other otherId later err db',
      respond (register other otherId later) db = (Thrown err, db') → db' = db.
Proof.
  intros He Hv Hemail. split.
  - apply respond_thrown. unfold register. rewrite He.
    unfold User_findOne_email. rewrite bind_read.
    destruct (find_some_elem (λ u, bool_decide (email u = cast_email e))
                (users db) v Hv) as [w ->]; [|done].
    by apply bool_decide_eq_true_2.
  - intros other otherId later err db'.
    unfold respond, register. unfold bind at 1.
    assert (Hfind : ∃ r,
      match r_email other with
      | Some e => User_findOne_email DefaultSelect e
      | None => ret None
      end db = (inr r, db)) by (destruct (r_email other); by eexists).
    destruct Hfind as [r ->]. destruct r as [existing|]; [by intros [= _ <-]|].
    unfold bind at 1.
    destruct (User_create _ _ _ _ _ _ _ db) as [[e0|u] d1] eqn:Hcreate.
    + apply User_create_thrown in Hcreate as ->. by intros [= _ <-].
    + discriminate.
Qed.

Lemma login_run `{External} body db :
  respond (login body) db
  = match List.find (λ u, bool_decide (email u = cast_email (l_email body)))
            (users db) with
    | Some u =>
        if from_option (bcrypt_compare (l_password body)) false (password u)
        then (Sent 200 (mkAuth "Logged in successfully" (User_toJSON u)
                               (jwt_sign (user_id u))), db)
        else (Thrown (AppError "Invalid credentials" 401), db)
    | None => (Thrown (AppError "Invalid credentials" 401), db)
    end.
Proof.
  unfold respond, login, User_findOne_email. rewrite bind_read.
  destruct (List.find _ (users db)) as [u|]; [|done].
  cbn [fmap option_fmap option_map select].
  destruct (from_option _ _ _); [|done].
  unfold sendTokenResponse. cbn [ret]. by rewrite User_toJSON_set_password.
Qed.

(** X15. [login] has one refusal. Whatever the request, the answer is
    either 200, for a user of the store whose address is the one given,
    lower-cased and trimmed, and whose stored hash the password matches,
    with the user object and a token for the identifier of that user; or
    the error 401 "Invalid credentials", the same whether no user has the
    address or the password does not match. In both cases the store is
    left as it was. *)
Theorem login_refusals_alike `{External} body db o db' :
  respond (login body) db = (o, db') →
  db' = db
  ∧ (o = Thrown (AppError "Invalid credentials" 401)
     ∨ ∃ u stored,
         u ∈ users db
         ∧ email u = cast_email (l_email body)
         ∧ password u = Some stored
         ∧ bcrypt_compare (l_password body) stored = true
         ∧ o = Sent 200 (mkAuth "Logged in successfully" (User_toJSON u)
                                (jwt_sign (user_id u))))
  ∧ ((∀ u, u ∈ users db → email u ≠ cast_email (l_email body)) →
     o = Thrown (AppError "Invalid credentials" 401))
  ∧ ((∀ u stored, u ∈ users db → password u = Some stored →
        bcrypt_compare (l_password body) stored = false) →
     o = Thrown (AppError "Invalid credentials" 401)).
Proof.
  rewrite login_run.
  destruct (List.find _ (users db)) as [u|] eqn:Hfind.
  2:{ intros [= <- <-]. repeat split; auto. }
  apply List.find_some in Hfind as [Hin He].
  apply list_elem_of_In in Hin. apply bool_decide_eq_true_1 in He.
  destruct (password u) as [stored|] eqn:Hp; cbn [from_option].
  2:{ intros [= <- <-]. repeat split; auto. }
  destruct (bcrypt_compare (l_password body) stored) eqn:Hmatch;
    intros [= <- <-]; (split; [done|]).
  - split; [right; by exists u, stored|]. split.
    + intros Hnone. by destruct (Hnone u Hin).
    + intros Hwrong. by rewrite (Hwrong u stored Hin Hp) in Hmatch.
  - repeat split; auto.
Qed.

Lemma find_update_first_user (p q : IUser → bool) f l u :
  List.find p l = Some u → List.find q l = Some u → q (f u) = true →
  List.find q (update_first_user p f l) = Some (f u).
Proof.
  intros Hp Hq Hqf. induction l as [|a l IH]; [done|]. cbn in *.
  destruct (p a) eqn:Hpa.
  - injection Hp as ->. cbn. by rewrite Hqf.
  - destruct (q a) eqn:Hqa.
    + injection Hq as ->. apply List.find_some in Hp as [_ Hpu]. congruence.
    + cbn. rewrite Hqa. auto.
Qed.

Lemma fmap_user_id_update_first_user p f l :
  (∀ u, user_id (f u) = user_id u) →
  user_id <$> update_first_user p f l = user_id <$> l.
Proof.
  intros Hf. induction l as [|u l IH]; [done|]. cbn.
  destruct (p u); cbn; [by rewrite Hf|by f_equal].
Qed.

Lemma User_validate_password `{External} e p f l r :
  User_validate e (Some p) f l r = [] → (6 ≤ String.length p)%nat.
Proof.
  intros Hv%concat_nil_inv. rewrite !Forall_cons in Hv.
  destruct Hv as (_ & Hp & _). cbn in Hp.
  destruct (Js.truthy p); [|discriminate].
  apply check_nil in Hp. lia.
Qed.

(** X16. [changePassword] checks the current password, stores the hash
    of the new one, and the new one then logs in. For a caller who is a
    user of the store: a current password that does not match the stored
    hash is answered 400 and nothing is written; a change that is
    answered did match, the new password has six characters or more, the
    tasks, the activity log and the identifiers of the users are as
    before; and, unless the new password is the text of the stored hash
    itself, the user now holds the hash of the new password and, given
    that the hashing library accepts a password against its own hash, a
    [login] with the new password is answered 200. *)
Theorem changePassword_then_login `{External}
    caller currentPassword newPassword now db u :
  (∀ p, bcrypt_compare p (bcrypt_hash p) = true) →
  List.find (has_id (user_id caller)) (users db) = Some u →
  (from_option (bcrypt_compare currentPassword) false (password u) = false →
     respond (changePassword (Some caller) currentPassword newPassword now) db
     = (Thrown (AppError "Current password is incorrect" 400), db))
  ∧ (∀ code message db',
       respond (changePassword (Some caller) currentPassword newPassword now) db
       = (Sent code message, db') →
       from_option (bcrypt_compare currentPassword) false (password u) = true
       ∧ (6 ≤ String.length newPassword)%nat
       ∧ code = 200
       ∧ tasks db' = tasks db
       ∧ activityLogs db' = activityLogs db
       ∧ user_id <$> users db' = user_id <$> users db
       ∧ (password u ≠ Some newPassword →
          List.find (has_id (user_id caller)) (users db')
          = Some (set_hash (bcrypt_hash newPassword) now u)
          ∧ ∀ e,
              List.find (λ v, bool_decide (email v = cast_email e)) (users db)
              = Some u →
              ∃ resp,
                respond (login (mkLogin e newPassword)) db'
                = (Sent 200 resp, db')
                ∧ auth_token resp = jwt_sign (user_id u))).
Proof.
  intros Hbcrypt Hfind. split.
  - intros Hwrong. apply respond_thrown. unfold changePassword.
    rewrite bind_read, Hfind. by rewrite Hwrong.
  - intros code message db'. unfold respond at 1, changePassword.
    rewrite bind_read, Hfind.
    destruct (from_option _ _ (password u)) eqn:Hmatch; [|discriminate].
    destruct (User_validate _ _ _ _ _) eqn:Hv; [|discriminate].
    apply User_validate_password in Hv.
    destruct (decide (password u = Some newPassword)) as [Hsame|Hnew].
    + rewrite bind_ret. intros [= <- <- <-]. repeat split; done.
    + rewrite bind_write. intros [= <- <- <-].
      cbn [users tasks activityLogs].
      do 5 (split; [done|]).
      split; [by apply fmap_user_id_update_first_user|].
      intros _. split.
      * apply find_update_first_user; [done..|].
        apply List.find_some in Hfind as [_ Hp]. exact Hp.
      * intros e He. eexists. rewrite login_run. cbn [l_email l_password users].
        rewrite (find_update_first_user _ _ _ _ u Hfind He).
        -- cbn [set_hash password from_option]. rewrite Hbcrypt.
           split; reflexivity.
        -- apply List.find_some in He as [_ Hq]. exact Hq.
Qed.

(** ** Roles *)

Lemma update_first_user_none p f l :
  (∀ u, u ∈ l → p u = false) → update_first_user p f l = l.
Proof.
  induction l as [|u l IH]; [done|]. intros Hnone. cbn.
  rewrite (Hnone u) by left. f_equal. apply IH. intros v Hv. apply Hnone.
  by right.
Qed.

Lemma update_first_user_other p f l v :
  v ∈ l → p v = false → v ∈ update_first_user p f l.
Proof.
  induction l as [|u l IH]; [by intros ?%elem_of_nil|].
  intros [->|Hin]%elem_of_cons Hp; cbn.
  - rewrite Hp. left.
  - destruct (p u); right; auto.
Qed.

Lemma Db_eta db : mkDb (users db) (tasks db) (activityLogs db) = db.
Proof. by destruct db. Qed.

Lemma find_has_id_none_false l oid :
  List.find (has_id oid) l = None → ∀ u, u ∈ l → has_id oid u = false.
Proof.
  intros Hnone u Hu. apply list_elem_of_In in Hu.
  exact (List.find_none _ _ Hnone u Hu).
Qed.

(** X17. [updateUserRole] for a parameter that denotes an identifier.
    When the parameter is, letter for letter, the identifier of the
    caller, the answer is 400 and nothing is written. Otherwise: a role
    that is neither [admin] nor [member] is refused by the validator and
    nothing is written; an identifier of no user is answered 404 and the
    store is as before; and for a user of the store the answer is 200
    with that user, without password, in the new role. The user keeps
    identifier, address, password hash and names, the other users, the
    tasks and the log are untouched, and the next [authenticate] of a
    token for that identifier yields the user in the new role, so that
    [requireAdmin] then passes exactly when the new role is [admin]. The
    guard compares texts: it does not stop a parameter that denotes the
    caller's identifier in another spelling. *)
Theorem updateUserRole_sets_role caller id oid r now db :
  castObjectId id = Some oid →
  (user_id <$> caller = Some id →
     respond (updateUserRole caller id r now) db
     = (Thrown (AppError "You cannot change your own role" 400), db))
  ∧ (user_id <$> caller ≠ Some id →
     (UserRole_of r = None →
        respond (updateUserRole caller id r now) db
        = (Thrown (ValidationError ["Role must be either admin or member"]), db))
     ∧ (∀ newRole,
          UserRole_of r = Some newRole →
          List.find (has_id oid) (users db) = None →
          respond (updateUserRole caller id r now) db
          = (Thrown (AppError "User not found" 404), db))
     ∧ (∀ newRole u,
          UserRole_of r = Some newRole →
          List.find (has_id oid) (users db) = Some u →
          ∃ u' db',
            respond (updateUserRole caller id r now) db
            = (Sent 200 (User_toJSON u'), db')
            ∧ List.find (has_id oid) (users db') = Some u'
            ∧ UserRole_value (role u') = r
            ∧ user_id u' = user_id u ∧ email u' = email u
            ∧ password u' = password u
            ∧ firstName u' = firstName u ∧ lastName u' = lastName u
            ∧ (∀ v, v ∈ users db → user_id v ≠ oid → v ∈ users db')
            ∧ length (users db') = length (users db)
            ∧ tasks db' = tasks db ∧ activityLogs db' = activityLogs db
            ∧ authenticate (Some id) db' = (inr (set_password None u'), db')
            ∧ (requireAdmin (Some (set_password None u')) db' = (inr tt, db')
               ↔ newRole = ADMIN))).
Proof.
  intros Hid. destruct (castObjectId_Some _ _ Hid) as [Hvalid _].
  split.
  { intros Hself. apply respond_thrown. unfold updateUserRole.
    rewrite Hvalid. cbn [negb]. by rewrite bool_decide_eq_true_2. }
  intros Hother.
  assert (Hrun :
    respond (updateUserRole caller id r now) db
    = respond
        (do user <- User_findByIdAndUpdate_role MinusPassword now id r;
         match user with
         | None => throw (AppError "User not found" 404)
         | Some user => ret (200, User_toJSON user)
         end) db).
  { unfold updateUserRole. rewrite Hvalid. cbn [negb].
    by rewrite bool_decide_eq_false_2. }
  rewrite Hrun. unfold User_findByIdAndUpdate_role. rewrite Hid.
  assert (Hupdate : ∀ newRole,
    (run write (λ db,
       mkDb (update_first_user (has_id oid) (set_role newRole now) (users db))
            (tasks db) (activityLogs db));
     read (λ db, select MinusPassword <$> List.find (has_id oid) (users db))) db
    = (inr (select MinusPassword
            <$> List.find (has_id oid)
                  (update_first_user (has_id oid) (set_role newRole now)
                     (users db))),
       mkDb (update_first_user (has_id oid) (set_role newRole now) (users db))
            (tasks db) (activityLogs db))) by done.
  split; [|split].
  - intros Hr. rewrite Hr. apply respond_thrown. rewrite bind_throw.
    unfold validate_role, check. rewrite Hr.
    rewrite bool_decide_eq_false_2; [done|]. by intros [x Hx].
  - intros newRole -> Hnone. apply respond_thrown.
    rewrite (bind_run _ _ _ _ _ (Hupdate newRole)).
    rewrite update_first_user_none by by apply find_has_id_none_false.
    rewrite Hnone. cbn. by rewrite Db_eta.
  - intros newRole u Hr Hfind. rewrite Hr.
    pose proof Hfind as [_ Hp]%List.find_some.
    assert (Hfound :
      List.find (has_id oid)
        (update_first_user (has_id oid) (set_role newRole now) (users db))
      = Some (set_role newRole now u))
      by (by apply find_update_first_user).
    exists (set_role newRole now u). eexists. split.
    { apply respond_sent.
      rewrite (bind_run _ _ _ _ _ (Hupdate newRole)). rewrite Hfound.
      cbn [fmap option_fmap option_map select].
      by rewrite User_toJSON_set_password. }
    cbn [users tasks activityLogs].
    split; [done|]. split.
    { apply List.find_some in Hr as [_ Hr].
      by apply bool_decide_eq_true_1 in Hr. }
    do 5 (split; [done|]). split.
    { intros v Hv Hne. apply update_first_user_other; [done|].
      unfold has_id. by rewrite bool_decide_eq_false_2. }
    split.
    { clear. induction (users db) as [|a l IH]; [done|]. cbn.
      destruct (has_id oid a); cbn; by f_equal. }
    do 2 (split; [done|]). split.
    { unfold authenticate.
      rewrite (bind_run _ _ _ _ _ (User_findById_run _ _ _ _ Hid)).
      cbn [users]. by rewrite Hfound. }
    unfold requireAdmin. cbn [set_password role set_role].
    destruct (decide (newRole ≠ ADMIN)) as [Hne|Heq%dec_stable].
    + split; [discriminate|done].
    + done.
Qed.

(** X18. [bulkUpdateUsers] with the role as its update. A list with an
    entry that is no identifier is answered 400. With every entry an
    identifier: when a role is given and the list holds the identifier
    of the caller, letter for letter, the answer is 400; otherwise a role
    that is neither [admin] nor [member] is refused by the validator; and
    otherwise the answer is 200, every user whose identifier the list
    denotes is in the new role and keeps everything else but the date of
    the update, every other user is unchanged, and the answer counts the
    users matched and, among them, those changed. No refusal writes, and
    the tasks and the log are never touched. *)
Theorem bulkUpdateUsers_sets_roles caller userIds r now db :
  ((∃ id, id ∈ userIds ∧ ObjectId_isValid id = false) →
     respond (bulkUpdateUsers caller userIds r now) db
     = (Thrown (AppError "One or more user IDs are invalid" 400), db))
  ∧ (Forall (λ id, ObjectId_isValid id = true) userIds →
     (∀ c, caller = Some c → Js.truthy r = true → user_id c ∈ userIds →
        respond (bulkUpdateUsers caller userIds r now) db
        = (Thrown (AppError "You cannot change your own role" 400), db))
     ∧ ((∀ c, caller = Some c → user_id c ∉ userIds) →
        (UserRole_of r = None →
           respond (bulkUpdateUsers caller userIds r now) db
           = (Thrown (ValidationError ["Role must be either admin or member"]),
              db))
        ∧ (∀ newRole,
             UserRole_of r = Some newRole →
             ∃ result db',
               respond (bulkUpdateUsers caller userIds r now) db
               = (Sent 200 result, db')
               ∧ length (users db') = length (users db)
               ∧ (∀ i u,
                    users db !! i = Some u →
                    users db' !! i
                    = Some (if decide (user_id u ∈ Js.toLowerCase <$> userIds)
                            then set_role newRole now u else u))
               ∧ tasks db' = tasks db
               ∧ activityLogs db' = activityLogs db
               ∧ matchedCount result
                 = Z.of_nat (length (filter
                     (λ u, user_id u ∈ Js.toLowerCase <$> userIds) (users db)))
               ∧ 0 ≤ modifiedCount result ≤ matchedCount result))).
Proof.
  split.
  { intros (id & Hin & Hbad). apply respond_thrown. unfold bulkUpdateUsers.
    cbv zeta. rewrite decide_True; [done|].
    intros Hlen. apply filter_length_all in Hlen.
    rewrite Forall_forall in Hlen. rewrite (Hlen id Hin) in Hbad. done. }
  intros Hvalid.
  assert (Hrun : ∀ guard,
    guard = (Js.truthy r
             && from_option (λ c, bool_decide (user_id c ∈ userIds)) false caller) →
    respond (bulkUpdateUsers caller userIds r now) db
    = if guard
      then (Thrown (AppError "You cannot change your own role" 400), db)
      else respond (do result <- User_updateMany_ids now userIds r;
                    ret (200, result)) db).
  { intros guard ->. unfold bulkUpdateUsers. cbv zeta.
    rewrite (filter_all_valid _ _ Hvalid), decide_False by (intros Hne; done).
    unfold respond at 1. by destruct (Js.truthy r && _). }
  split.
  { intros c -> Hr Hself. rewrite (Hrun true); [done|]. cbn.
    by rewrite Hr, bool_decide_eq_true_2. }
  intros Hother. rewrite (Hrun false).
  2:{ destruct caller as [c|]; cbn; [|by rewrite andb_false_r].
      rewrite bool_decide_eq_false_2 by by apply Hother.
      by rewrite andb_false_r. }
  unfold User_updateMany_ids. rewrite (mapM_cast_valid _ Hvalid).
  split.
  - intros Hr. rewrite Hr. apply respond_thrown. rewrite bind_throw.
    unfold validate_role, check. rewrite Hr.
    rewrite bool_decide_eq_false_2; [done|]. by intros [x Hx].
  - intros newRole Hr. rewrite Hr. eexists _, _. split.
    { apply respond_sent. reflexivity. }
    cbn [users tasks activityLogs matchedCount modifiedCount read].
    split; [by rewrite length_fmap|]. split.
    { intros i u Hu. rewrite list_lookup_fmap, Hu. cbn. f_equal.
      destruct (decide _); [by rewrite bool_decide_eq_true_2
                           |by rewrite bool_decide_eq_false_2]. }
    do 2 (split; [done|]). split.
    { do 2 f_equal. apply list_filter_iff. intros u.
      by rewrite bool_decide_spec. }
    split; [lia|]. apply inj_le.
    etrans; [apply (length_filter_and (λ u, bool_decide (user_id u ∈ _)))|].
    done.
Qed.

(** ** Counting tasks *)

Lemma length_filter_status (P : ITask → Prop) `{∀ t, Decision (P t)}
    (l : list ITask) :
  (length (filter (λ t, P t ∧ status t = TODO) l)
   + length (filter (λ t, P t ∧ status t = IN_PROGRESS) l)
   + length (filter (λ t, P t ∧ status t = DONE) l)
   = length (filter P l))%nat.
Proof.
  induction l as [|t l IH]; [done|].
  rewrite !filter_cons.
  destruct (decide (P t)) as [Hp|Hp].
  - destruct (status t) eqn:Hs;
      repeat (destruct (decide _) as [[_ ?]|?]; try congruence;
              try (exfalso; tauto));
      cbn; lia.
  - repeat (destruct (decide _) as [[? _]|?]; try done).
Qed.

Lemma length_filter_priority (l : list ITask) :
  (length (filter (λ t, priority t = LOW) l)
   + length (filter (λ t, priority t = MEDIUM) l)
   + length (filter (λ t, priority t = HIGH) l)
   + length (filter (λ t, priority t = URGENT) l)
   = length l)%nat.
Proof.
  induction l as [|t l IH]; [done|].
  rewrite !filter_cons.
  destruct (priority t) eqn:Hs;
    repeat (destruct (decide _); try congruence); cbn; lia.
Qed.

Lemma length_filter_status_all (l : list ITask) :
  (length (filter (λ t, status t = TODO) l)
   + length (filter (λ t, status t = IN_PROGRESS) l)
   + length (filter (λ t, status t = DONE) l)
   = length l)%nat.
Proof.
  induction l as [|t l IH]; [done|].
  rewrite !filter_cons.
  destruct (status t) eqn:Hs;
    repeat (destruct (decide _); try congruence); cbn; lia.
Qed.

(** X19. [getUserById]: a parameter that is no identifier is answered
    400, an identifier of no user 404, and for a user of the store the
    answer is 200 with the user, without password, and the counts of the
    tasks assigned to them: one count for each status, and a total that
    is both their sum and the number of tasks assigned to the user. *)
Theorem getUserById_counts_assigned id db :
  (ObjectId_isValid id = false →
     respond (getUserById id) db
     = (Thrown (AppError "Invalid user ID format" 400), db))
  ∧ (∀ oid,
       castObjectId id = Some oid →
       (List.find (has_id oid) (users db) = None →
          respond (getUserById id) db
          = (Thrown (AppError "User not found" 404), db))
       ∧ (∀ u,
            List.find (has_id oid) (users db) = Some u →
            ∃ stats,
              respond (getUserById id) db
              = (Sent 200 (User_toJSON u, stats), db)
              ∧ User_toJSON u !! "password" = None
              ∧ stat_todo stats
                = Z.of_nat (length (filter
                    (λ t, assignee t = oid ∧ status t = TODO) (tasks db)))
              ∧ stat_in_progress stats
                = Z.of_nat (length (filter
                    (λ t, assignee t = oid ∧ status t = IN_PROGRESS) (tasks db)))
              ∧ stat_done stats
                = Z.of_nat (length (filter
                    (λ t, assignee t = oid ∧ status t = DONE) (tasks db)))
              ∧ stat_total stats
                = stat_todo stats + stat_in_progress stats + stat_done stats
              ∧ stat_total stats
                = Z.of_nat (length (filter (λ t, assignee t = oid) (tasks db))))).
Proof.
  split.
  { intros Hbad. apply respond_thrown. unfold getUserById. by rewrite Hbad. }
  intros oid Hid. destruct (castObjectId_Some _ _ Hid) as [Hvalid ->].
  split.
  - intros Hnone. apply respond_thrown. unfold getUserById. rewrite Hvalid.
    rewrite (bind_run _ _ _ _ _ (User_findById_run _ _ _ _ Hid)).
    by rewrite Hnone.
  - intros u Hfind. eexists. split.
    { apply respond_sent. unfold getUserById. rewrite Hvalid.
      rewrite (bind_run _ _ _ _ _ (User_findById_run _ _ _ _ Hid)), Hfind.
      cbn [fmap option_fmap option_map select]. rewrite bind_read.
      rewrite User_toJSON_set_password. reflexivity. }
    cbn [stat_todo stat_in_progress stat_done stat_total].
    split; [apply User_toJSON_no_password|].
    do 4 (split; [done|]). unfold count_status.
    rewrite <- (length_filter_status (λ t, assignee t = Js.toLowerCase id)).
    lia.
Qed.

(** ** The dashboard of a user *)

(** The dashboard, once its guards are passed. *)
Lemma getUserDashboard_run c param now db oid :
  let target :=
    match param with
    | Some s => if Js.truthy s then s else user_id c
    | None => user_id c
    end in
  castObjectId (user_id c) = Some (user_id c) →
  castObjectId target = Some oid →
  respond (getUserDashboard (Some c) param now) db
  = if bool_decide (role c = MEMBER) && bool_decide (user_id c ≠ target)
    then (Thrown (AppError
            "Access denied. You can only access your own dashboard." 403), db)
    else
      match List.find (has_id oid) (users db) with
      | None => (Thrown (AppError "User not found" 404), db)
      | Some u =>
          let mine := filter (λ t, assignee t = oid) (tasks db) in
          (Sent 200
             (mkDashboard (User_toJSON u)
                (default (mkDashboardStats 0 0 0 0 0 0) (dashboard_group mine))
                ((λ t, (t, name_ref db (createdBy t)))
                 <$> take 5 (merge_sort
                               (sorted_by (task_sort_key "updatedAt") false)
                               mine))
                (merge_sort (sorted_by (task_sort_key "dueDate") true)
                   (filter (λ t, from_option (λ d, bool_decide (d < now)) false
                                   (dueDate t)
                                 ∧ status t ≠ DONE) mine))), db)
      end.
Proof.
  intros target Hcanon Hid.
  assert (Hbody : ∀ arg,
    IdArg_isValid arg = true → IdArg_toString arg = target →
    IdArg_cast arg = Some oid →
    respond
      (let userId := Some arg in
       match userId with
       | None => throw (AppError "User ID is required" 400)
       | Some userId =>
           if negb (IdArg_isValid userId) then
             throw (AppError "Invalid user ID format" 400)
           else if from_option
                     (λ c, bool_decide (role c = MEMBER)
                           && bool_decide (user_id c ≠ IdArg_toString userId))
                     false (Some c)
           then throw (AppError
                  "Access denied. You can only access your own dashboard." 403)
           else
             match IdArg_cast userId with
             | None => throw CastError
             | Some oid =>
                 do found <- read (λ db,
                   select MinusPassword <$> List.find (has_id oid) (users db));
                 match found with
                 | None => throw (AppError "User not found" 404)
                 | Some user =>
                     do mine <- read (λ db,
                       filter (λ t, assignee t = oid) (tasks db));
                     do creators <- read name_ref;
                     let stats :=
                       default (mkDashboardStats 0 0 0 0 0 0)
                         (dashboard_group mine) in
                     let recentTasks :=
                       (λ t, (t, creators (createdBy t)))
                       <$> take 5 (merge_sort
                                     (sorted_by (task_sort_key "updatedAt") false)
                                     mine) in
                     let overdueTasks :=
                       merge_sort (sorted_by (task_sort_key "dueDate") true)
                         (filter (λ t, from_option (λ d, bool_decide (d < now))
                                         false (dueDate t)
                                       ∧ status t ≠ DONE) mine) in
                     ret (200, mkDashboard (User_toJSON user) stats recentTasks
                                 overdueTasks)
                 end
             end
       end) db
    = if bool_decide (role c = MEMBER) && bool_decide (user_id c ≠ target)
      then (Thrown (AppError
              "Access denied. You can only access your own dashboard." 403), db)
      else
        match List.find (has_id oid) (users db) with
        | None => (Thrown (AppError "User not found" 404), db)
        | Some u =>
            let mine := filter (λ t, assignee t = oid) (tasks db) in
            (Sent 200
               (mkDashboard (User_toJSON u)
                  (default (mkDashboardStats 0 0 0 0 0 0) (dashboard_group mine))
                  ((λ t, (t, name_ref db (createdBy t)))
                   <$> take 5 (merge_sort
                                 (sorted_by (task_sort_key "updatedAt") false)
                                 mine))
                  (merge_sort (sorted_by (task_sort_key "dueDate") true)
                     (filter (λ t, from_option (λ d, bool_decide (d < now)) false
                                     (dueDate t)
                                   ∧ status t ≠ DONE) mine))), db)
        end).
  { intros arg Hvalid Hstr Hcast. cbv beta iota zeta.
    rewrite Hvalid, Hstr, Hcast.
    cbn [negb from_option].
    destruct (bool_decide (role c = MEMBER) && _); [done|].
    unfold respond. rewrite bind_read.
    destruct (List.find (has_id oid) (users db)) as [u|]; [|done].
    cbn [fmap option_fmap option_map select]. rewrite !bind_read.
    by rewrite User_toJSON_set_password. }
  unfold getUserDashboard. subst target.
  destruct param as [s|]; [destruct (Js.truthy s) eqn:Hs|].
  - apply (Hbody (Raw s)); [|done..].
    cbn. by destruct (castObjectId_Some _ _ Hid).
  - apply (Hbody (Oid (user_id c))); [done..|].
    cbn. congruence.
  - apply (Hbody (Oid (user_id c))); [done..|].
    cbn. congruence.
Qed.

Lemma overdue_query_truthy now t :
  from_option (λ d, bool_decide (d < now)) false (dueDate t) ∧ status t ≠ DONE
  ↔ JsVal_truthy (isOverdue now t).
Proof.
  unfold isOverdue. destruct (dueDate t) as [d|]; cbn; [|tauto].
  destruct (decide (d < now)), (decide (status t ≠ DONE));
    rewrite ?bool_decide_eq_true_2, ?bool_decide_eq_false_2 by done;
    cbn; tauto.
Qed.

(** X20. [getUserDashboard] for an authenticated caller whose identifier
    is in the form the store keeps; the dashboard asked for is that of
    the route parameter, or the caller's own when there is none. A member
    who asks for the dashboard of another is answered 403. Otherwise an
    identifier of no user is answered 404, and for a user of the store
    the answer is 200 with the user, without password, and: counters over
    the tasks assigned to the user, where the total is their number and
    the sum of the three status counters, and the high and urgent counters
    together do not exceed it; the recent tasks, at most five of the
    user's tasks, the last updated first, all of them when the user has
    five or fewer; the overdue tasks, exactly the user's tasks whose
    [isOverdue] is truthy, the earliest due first. *)
Theorem getUserDashboard_own_tasks c param now db oid :
  let target :=
    match param with
    | Some s => if Js.truthy s then s else user_id c
    | None => user_id c
    end in
  castObjectId (user_id c) = Some (user_id c) →
  castObjectId target = Some oid →
  (role c = MEMBER → target ≠ user_id c →
     respond (getUserDashboard (Some c) param now) db
     = (Thrown (AppError
          "Access denied. You can only access your own dashboard." 403), db))
  ∧ (role c = ADMIN ∨ target = user_id c →
     (List.find (has_id oid) (users db) = None →
        respond (getUserDashboard (Some c) param now) db
        = (Thrown (AppError "User not found" 404), db))
     ∧ (∀ u,
          List.find (has_id oid) (users db) = Some u →
          ∃ d,
            respond (getUserDashboard (Some c) param now) db = (Sent 200 d, db)
            ∧ db_user d = User_toJSON u
            ∧ db_user d !! "password" = None
            ∧ ds_totalTasks (db_stats d)
              = Z.of_nat (length (filter (λ t, assignee t = oid) (tasks db)))
            ∧ ds_totalTasks (db_stats d)
              = ds_todo (db_stats d) + ds_inProgress (db_stats d)
                + ds_done (db_stats d)
            ∧ 0 ≤ ds_highPriority (db_stats d)
            ∧ 0 ≤ ds_urgentPriority (db_stats d)
            ∧ ds_highPriority (db_stats d) + ds_urgentPriority (db_stats d)
              ≤ ds_totalTasks (db_stats d)
            ∧ (length (db_recentTasks d) ≤ 5)%nat
            ∧ (∀ t, t ∈ (db_recentTasks d).*1 →
                    t ∈ tasks db ∧ assignee t = oid)
            ∧ Sorted (λ a b, updatedAt b ≤ updatedAt a) (db_recentTasks d).*1
            ∧ ((length (filter (λ t, assignee t = oid) (tasks db)) ≤ 5)%nat →
               (db_recentTasks d).*1
               ≡ₚ filter (λ t, assignee t = oid) (tasks db))
            ∧ (∀ t, t ∈ db_overdueTasks d
                    ↔ t ∈ tasks db ∧ assignee t = oid
                      ∧ JsVal_truthy (isOverdue now t))
            ∧ Sorted (sorted_by (task_sort_key "dueDate") true)
                (db_overdueTasks d))).
Proof.
  intros target Hcanon Hid.
  pose proof (getUserDashboard_run c param now db oid Hcanon Hid) as Hrun.
  cbv zeta in Hrun. fold target in Hrun. rewrite Hrun. clear Hrun.
  split.
  { intros Hm Hne. by rewrite !bool_decide_eq_true_2. }
  intros Hallowed.
  assert (Hguard :
    bool_decide (role c = MEMBER) && bool_decide (user_id c ≠ target) = false).
  { destruct Hallowed as [Hadmin| ->].
    - rewrite bool_decide_eq_false_2; [done|]. congruence.
    - rewrite (bool_decide_eq_false_2 (_ ≠ _)); [apply andb_false_r|]. tauto. }
  rewrite Hguard. split; [by intros ->|].
  intros u ->. cbv zeta.
  set (mine := filter (λ t, assignee t = oid) (tasks db)).
  set (recent := merge_sort (sorted_by (task_sort_key "updatedAt") false) mine).
  eexists. split; [reflexivity|].
  cbn [db_user db_stats db_recentTasks db_overdueTasks].
  assert (Hfst :
    ((λ t, (t, name_ref db (createdBy t))) <$> take 5 recent).*1 = take 5 recent).
  { rewrite <- list_fmap_compose. apply list_fmap_id. }
  rewrite Hfst.
  split; [done|]. split; [apply User_toJSON_no_password|].
  assert (Hstats :
    let s := default (mkDashboardStats 0 0 0 0 0 0) (dashboard_group mine) in
    ds_totalTasks s = Z.of_nat (length mine)
    ∧ ds_totalTasks s = ds_todo s + ds_inProgress s + ds_done s
    ∧ 0 ≤ ds_highPriority s ∧ 0 ≤ ds_urgentPriority s
    ∧ ds_highPriority s + ds_urgentPriority s ≤ ds_totalTasks s).
  { unfold dashboard_group. destruct mine as [|t0 rest] eqn:Hmine; [cbn; lia|].
    cbn [default from_option id ds_totalTasks ds_todo ds_inProgress ds_done
         ds_highPriority ds_urgentPriority]. unfold count_where.
    pose proof (length_filter_status_all (t0 :: rest)).
    pose proof (length_filter_priority (t0 :: rest)). lia. }
  cbv zeta in Hstats. destruct Hstats as (H1 & H2 & H3 & H4 & H5).
  do 5 (split; [done|]).
  split; [rewrite length_fmap, length_take; lia|].
  split.
  { intros t Ht%(subseteq_take 5). unfold recent in Ht.
    rewrite merge_sort_Permutation in Ht.
    apply list_elem_of_filter in Ht. tauto. }
  split.
  { apply Sorted_take.
    apply (Sorted_impl (sorted_by (task_sort_key "updatedAt") false)).
    - intros a b. unfold sorted_by. cbn. intros Hle%Is_true_true.
      by apply Z.leb_le.
    - apply Sorted_merge_sort. apply _. }
  split.
  { intros Hfew. rewrite take_ge.
    - apply merge_sort_Permutation.
    - unfold recent. by rewrite merge_sort_Permutation. }
  split.
  { intros t. rewrite merge_sort_Permutation, list_elem_of_filter.
    unfold mine. rewrite list_elem_of_filter, overdue_query_truthy. tauto. }
  apply Sorted_merge_sort. apply _.
Qed.

(** ** The overview of the statistics *)

Lemma filter_filter_implied {A} (P Q : A → Prop)
    `{∀ x, Decision (P x)} `{∀ x, Decision (Q x)} (l : list A) :
  (∀ x, P x → Q x) → filter P (filter Q l) = filter P l.
Proof.
  intros HPQ. induction l as [|a l IH]; [done|].
  destruct (decide (Q a)) as [Hq|Hq].
  - rewrite (filter_cons_True Q) by done.
    destruct (decide (P a)).
    + rewrite !(filter_cons_True P) by done. by f_equal.
    + by rewrite !(filter_cons_False P) by done.
  - rewrite (filter_cons_False Q) by done.
    rewrite (filter_cons_False P); [done|]. intros Hp. by apply Hq, HPQ.
Qed.

Lemma length_filter_le_implied {A} (P Q : A → Prop)
    `{∀ x, Decision (P x)} `{∀ x, Decision (Q x)} (l : list A) :
  (∀ x, P x → Q x) → (length (filter P l) ≤ length (filter Q l))%nat.
Proof.
  intros HPQ. rewrite <- (filter_filter_implied P Q l HPQ).
  apply length_filter.
Qed.

Lemma filter_iff_on {A} (P Q : A → Prop)
    `{∀ x, Decision (P x)} `{∀ x, Decision (Q x)} (l : list A) :
  (∀ x, x ∈ l → P x ↔ Q x) → filter P l = filter Q l.
Proof.
  induction l as [|a l IH]; [done|]. intros Hiff.
  rewrite !filter_cons.
  destruct (decide (P a)) as [Hp|Hp], (decide (Q a)) as [Hq|Hq].
  - f_equal. apply IH. intros x Hx. apply Hiff. by right.
  - exfalso. apply Hq, (Hiff a); [left|done].
  - exfalso. apply Hp, (Hiff a); [left|done].
  - apply IH. intros x Hx. apply Hiff. by right.
Qed.

(** X21. [getOverviewStats] counts over the scope of the caller: every
    task for an administrator, the tasks assigned to the caller for a
    member. The answer is always 200 and nothing is written. The total is
    the number of tasks in scope; it is the sum of the three status
    counters, and the sum of the four priority counters. The overdue
    counter counts the tasks in scope that are not done and whose due
    date is before now or is not set: it is at least the number of tasks
    in scope whose [isOverdue] is truthy, equal to it when every task in
    scope that is not done has a due date, and at most the number of
    tasks not done. The weekly counters are the numbers of tasks in
    scope created since the start of the week, and done and updated
    since then. The number of users is part of the answer for an
    administrator only. *)
Theorem getOverviewStats_counts c now oneWeekAgo db :
  let scope :=
    filter (λ t, role c = ADMIN ∨ assignee t = user_id c) (tasks db) in
  let count (P : ITask → Prop) `{∀ t, Decision (P t)} :=
    Z.of_nat (length (filter P scope)) in
  ∃ o,
    respond (getOverviewStats (Some c) now oneWeekAgo) db = (Sent 200 o, db)
    ∧ totalTasks (ov_counts o) = Z.of_nat (length scope)
    ∧ totalTasks (ov_counts o)
      = todoTasks (ov_counts o) + inProgressTasks (ov_counts o)
        + doneTasks (ov_counts o)
    ∧ totalTasks (ov_counts o)
      = lowPriority (ov_counts o) + mediumPriority (ov_counts o)
        + highPriority (ov_counts o) + urgentPriority (ov_counts o)
    ∧ todoTasks (ov_counts o) = count (λ t, status t = TODO)
    ∧ inProgressTasks (ov_counts o) = count (λ t, status t = IN_PROGRESS)
    ∧ doneTasks (ov_counts o) = count (λ t, status t = DONE)
    ∧ overdueTasks (ov_counts o) = count (late_or_undated now)
    ∧ count (λ t, JsVal_truthy (isOverdue now t)) ≤ overdueTasks (ov_counts o)
    ∧ overdueTasks (ov_counts o)
      ≤ totalTasks (ov_counts o) - doneTasks (ov_counts o)
    ∧ ((∀ t, t ∈ scope → status t ≠ DONE → is_Some (dueDate t)) →
       overdueTasks (ov_counts o) = count (λ t, JsVal_truthy (isOverdue now t)))
    ∧ tasksCreatedThisWeek (ov_weekly o)
      = count (λ t, oneWeekAgo ≤ createdAt t)
    ∧ tasksCompletedThisWeek (ov_weekly o)
      = count (λ t, status t = DONE ∧ oneWeekAgo ≤ updatedAt t)
    ∧ ov_totalUsers o
      = if decide (role c = ADMIN) then Some (Z.of_nat (length (users db)))
        else None.
Proof.
  intros scope count.
  assert (Hscope :
    filter (λ t, in_stats_scope c t) (tasks db) = scope).
  { apply list_filter_iff. intros t. unfold in_stats_scope.
    rewrite orb_True, !bool_decide_spec. done. }
  assert (Hlate : ∀ l : list ITask,
    filter (λ t, agg_lt_date (dueDate t) now ∧ status t ≠ DONE) l
    = filter (late_or_undated now) l).
  { intros l. apply list_filter_iff. intros t. unfold late_or_undated, agg_lt_date.
    destruct (dueDate t) as [d|]; [|cbn; tauto].
    rewrite Z_ltb_decide, bool_decide_spec. tauto. }
  eexists. split.
  { apply respond_sent. unfold getOverviewStats. rewrite !bind_read.
    rewrite Hscope. reflexivity. }
  cbn [ov_counts ov_weekly ov_totalUsers].
  assert (Hcounts :
    default (mkCounts 0 0 0 0 0 0 0 0 0) (overview_group now scope)
    = mkCounts (Z.of_nat (length scope))
        (count (λ t, status t = TODO) _) (count (λ t, status t = IN_PROGRESS) _)
        (count (λ t, status t = DONE) _)
        (count (λ t, priority t = LOW) _) (count (λ t, priority t = MEDIUM) _)
        (count (λ t, priority t = HIGH) _) (count (λ t, priority t = URGENT) _)
        (count (late_or_undated now) _)).
  { unfold overview_group, count_where, count. rewrite Hlate.
    by destruct scope. }
  rewrite Hcounts.
  cbn [totalTasks todoTasks inProgressTasks doneTasks lowPriority mediumPriority
       highPriority urgentPriority overdueTasks].
  pose proof (length_filter_status_all scope) as Hstatus.
  pose proof (length_filter_priority scope) as Hpriority.
  assert (Hnotdone :
    (length (filter (late_or_undated now) scope)
     + length (filter (λ t, status t = DONE) scope) ≤ length scope)%nat).
  { clear. induction scope as [|t l IH]; [done|]. rewrite !filter_cons.
    destruct (decide (late_or_undated now t)) as [[Hnd _]|?],
             (decide (status t = DONE)); cbn; try lia. done. }
  assert (Htruthy :
    (length (filter (λ t, JsVal_truthy (isOverdue now t)) scope)
     ≤ length (filter (late_or_undated now) scope))%nat).
  { apply length_filter_le_implied. intros t Ht.
    apply overdue_query_truthy in Ht as [Hd Hs]. split; [done|].
    destruct (dueDate t); [|done]. by apply bool_decide_unpack in Hd. }
  unfold count.
  split; [done|]. split; [lia|]. split; [lia|]. do 4 (split; [done|]).
  split; [lia|]. split; [lia|]. split.
  { intros Hdated. do 2 f_equal. apply filter_iff_on. intros t Ht.
    rewrite <- overdue_query_truthy. unfold late_or_undated.
    split.
    - intros [Hnd Hdue]. split; [|done].
      destruct (Hdated t Ht Hnd) as [d Hd]. rewrite Hd in *. cbn.
      by apply bool_decide_pack.
    - intros [Hd Hnd]. split; [done|].
      destruct (dueDate t); [|done]. by apply bool_decide_unpack in Hd. }
  set (weekly := filter _ scope).
  assert (Hweekly :
    default (mkWeekly 0 0) (weekly_group oneWeekAgo weekly)
    = mkWeekly
        (Z.of_nat (length (filter (λ t, oneWeekAgo ≤ createdAt t) weekly)))
        (Z.of_nat (length (filter
           (λ t, status t = DONE ∧ oneWeekAgo ≤ updatedAt t) weekly))))
    by (unfold weekly_group, count_where; by destruct weekly).
  rewrite Hweekly. cbn [tasksCreatedThisWeek tasksCompletedThisWeek].
  unfold weekly. rewrite !filter_filter_implied by tauto.
  do 2 (split; [done|]).
  destruct (decide (role c = ADMIN)).
  - by rewrite bool_decide_eq_true_2.
  - by rewrite bool_decide_eq_false_2.
Qed.

(** ** Guards *)

(** X22. The guards of the routes. [requireAdmin] lets an
    authenticated user pass exactly when the role is [admin] and answers
    403 otherwise. [requireOwnershipOrAdmin] lets an administrator pass;
    for any other user it looks at the identifier of the resource, taken
    from the route parameter or, when that is missing or empty, from the
    body, and lets the user pass exactly when there is none, or it is
    empty, or it is, letter for letter, the user's own identifier; it
    answers 403 otherwise. Both answer 401 to a request without user, and
    neither writes. A request for a dashboard that passed the ownership
    guard is never answered 403 by [getUserDashboard]. *)
Theorem route_guards u param body now db :
  let resource :=
    match param with
    | Some s => if Js.truthy s then Some s else body
    | None => body
    end in
  (requireAdmin (Some u) db = (inr tt, db) ↔ role u = ADMIN)
  ∧ (role u ≠ ADMIN →
     requireAdmin (Some u) db
     = (inl (AppError "Access denied. Admin privileges required." 403), db))
  ∧ requireAdmin None db = (inl (AppError "Authentication required." 401), db)
  ∧ (requireOwnershipOrAdmin (Some u) param body db = (inr tt, db)
     ↔ role u = ADMIN ∨ resource = None ∨ resource = Some ""
       ∨ resource = Some (user_id u))
  ∧ (role u ≠ ADMIN → resource ≠ None → resource ≠ Some "" →
     resource ≠ Some (user_id u) →
     requireOwnershipOrAdmin (Some u) param body db
     = (inl (AppError
          "Access denied. You can only access your own resources." 403), db))
  ∧ requireOwnershipOrAdmin None param body db
    = (inl (AppError "Authentication required." 401), db)
  ∧ (requireOwnershipOrAdmin (Some u) param body db = (inr tt, db) →
     http_status (respond (getUserDashboard (Some u) param now) db).1 ≠ 403).
Proof.
  intros resource.
  assert (Hown :
    requireOwnershipOrAdmin (Some u) param body db
    = if decide (role u = ADMIN) then (inr tt, db)
      else match resource with
           | Some s =>
               if Js.truthy s && bool_decide (s ≠ user_id u)
               then (inl (AppError
                      "Access denied. You can only access your own resources."
                      403), db)
               else (inr tt, db)
           | None => (inr tt, db)
           end).
  { unfold requireOwnershipOrAdmin. fold resource.
    destruct (decide (role u = ADMIN)); [done|].
    destruct resource as [s|]; [|done]. by destruct (Js.truthy s && _). }
  assert (Hpass :
    requireOwnershipOrAdmin (Some u) param body db = (inr tt, db)
    ↔ role u = ADMIN ∨ resource = None ∨ resource = Some ""
      ∨ resource = Some (user_id u)).
  { rewrite Hown. destruct (decide (role u = ADMIN)) as [|Hm]; [tauto|].
    destruct resource as [s|]; [|tauto].
    destruct s as [|ch s]; [cbn; tauto|]. cbn [Js.truthy andb].
    destruct (decide (String ch s = user_id u)) as [->|Hne].
    - rewrite bool_decide_eq_false_2 by tauto. tauto.
    - rewrite bool_decide_eq_true_2 by done.
      split; [discriminate|]. intros [?|[?|[?|[= ?]]]]; done. }
  split.
  { unfold requireAdmin. destruct (decide (role u ≠ ADMIN)) as [|Ha%dec_stable].
    - split; [discriminate|done].
    - done. }
  split.
  { intros Hne. unfold requireAdmin. by rewrite decide_True. }
  split; [done|]. split; [exact Hpass|]. split.
  { intros Hne Hsome Hempty Hother. rewrite Hown, decide_False by done.
    destruct resource as [s|]; [|done].
    destruct s as [|ch s]; [done|]. cbn [Js.truthy andb].
    rewrite bool_decide_eq_true_2; [done|].
    intros Heq. apply Hother. by rewrite Heq. }
  split; [done|].
  intros Hok%Hpass. unfold respond, getUserDashboard.
  set (userId := match param with Some _ => _ | None => _ end).
  assert (Hguard : ∀ arg, userId = Some arg →
    bool_decide (role u = MEMBER)
    && bool_decide (user_id u ≠ IdArg_toString arg) = false).
  { intros arg Harg. destruct (decide (role u = ADMIN)) as [Ha|Hm].
    { rewrite bool_decide_eq_false_2; [done|]. congruence. }
    rewrite (bool_decide_eq_false_2 (_ ≠ _)); [apply andb_false_r|].
    intros Hne. apply Hne. clear Hne.
    subst userId resource.
    destruct param as [s|]; [destruct (Js.truthy s) eqn:Hs|];
      cbn in Harg; injection Harg as <-; try done.
    destruct Hok as [?|[?|[Hempty|Hself]]]; try done.
    - injection Hempty as ->. done.
    - by injection Hself as ->. }
  destruct userId as [arg|]; [|cbn; lia].
  destruct (negb (IdArg_isValid arg)); [cbn; lia|].
  cbn [from_option]. rewrite (Hguard arg eq_refl).
  destruct (IdArg_cast arg); [|cbn; lia].
  rewrite bind_read.
  destruct (_ <$> List.find _ _); [|cbn; lia].
  rewrite !bind_read. cbn. lia.
Qed.

(** What a successful [deleteUser] did. *)
Lemma deleteUser_sent `{External} caller id db code message db' :
  respond (deleteUser caller id) db = (Sent code message, db') →
  ∃ oid u,
    castObjectId id = Some oid
    ∧ user_id <$> caller ≠ Some id
    ∧ List.find (has_id oid) (users db) = Some u
    ∧ (∀ t, t ∈ tasks db → assignee t ≠ oid)
    ∧ code = 200
    ∧ db' = mkDb (filter (λ v, user_id v ≠ oid) (users db)) (tasks db)
                 (activityLogs db).
Proof.
  unfold respond, deleteUser.
  destruct (ObjectId_isValid id) eqn:Hvalid; [|discriminate]. cbn [negb].
  case_bool_decide as Hself; [discriminate|].
  assert (Hid : castObjectId id = Some (Js.toLowerCase id))
    by (unfold castObjectId; by rewrite Hvalid).
  rewrite (bind_run _ _ _ _ _ (User_findById_run _ _ _ _ Hid)).
  destruct (List.find _ (users db)) as [u|] eqn:Hfind; [|discriminate].
  cbn [fmap option_fmap option_map].
  assert (Hcast : forallb castable [Assignee_eq id] = true).
  { simpl. rewrite Hid. by rewrite bool_decide_eq_true_2 by eauto. }
  rewrite (bind_run _ _ _ _ _ (Task_countDocuments_run _ _ Hcast)).
  destruct (0 <? _) eqn:Hcount; [discriminate|].
  unfold User_findByIdAndDelete. rewrite Hid.
  intros [= <- <- <-]. exists (Js.toLowerCase id), u.
  repeat split; try done.
  intros t Ht Ha. apply not_true_iff_false in Hcount. apply Hcount.
  apply (count_assigned_pos id _ _ Hid). eauto.
Qed.

Lemma find_has_id_filter_other oid (l : list IUser) :
  List.find (has_id oid) (filter (λ v, user_id v ≠ oid) l) = None.
Proof.
  induction l as [|v l IH]; [done|].
  destruct (decide (user_id v ≠ oid)) as [Hne|Heq].
  - rewrite filter_cons_True by done. cbn. unfold has_id at 1.
    by rewrite bool_decide_eq_false_2.
  - by rewrite filter_cons_False.
Qed.

(** X23. [authenticate] and [optionalAuth], from the user identifier a
    verified token carries. [authenticate] yields the user with that
    identifier, without the password, when the store has one, and
    answers 401 when it has none. [optionalAuth] never fails: it yields
    the user that [authenticate] yields, and no user where
    [authenticate] fails. Neither writes. After a successful
    [deleteUser], a token for the deleted user no longer authenticates:
    the answer is 401 "Token is valid but user no longer exists." *)
Theorem authenticate_finds_token_user `{External} userId oid db :
  castObjectId userId = Some oid →
  (∀ u,
     List.find (has_id oid) (users db) = Some u →
     authenticate (Some userId) db = (inr (set_password None u), db)
     ∧ password (set_password None u) = None
     ∧ user_id (set_password None u) = oid
     ∧ optionalAuth (Some userId) db = (inr (Some (set_password None u)), db))
  ∧ (List.find (has_id oid) (users db) = None →
     authenticate (Some userId) db
     = (inl (AppError "Token is valid but user no longer exists." 401), db)
     ∧ optionalAuth (Some userId) db = (inr None, db))
  ∧ (∀ decoded,
       optionalAuth decoded db
       = (inr match authenticate decoded db with
              | (inr u, _) => Some u
              | (inl _, _) => None
              end, db))
  ∧ (∀ caller code message db',
       respond (deleteUser caller userId) db = (Sent code message, db') →
       authenticate (Some userId) db'
       = (inl (AppError "Token is valid but user no longer exists." 401), db')).
Proof.
  intros Hid.
  assert (Hauth : ∀ d,
    authenticate (Some userId) d
    = match List.find (has_id oid) (users d) with
      | Some u => (inr (set_password None u), d)
      | None =>
          (inl (AppError "Token is valid but user no longer exists." 401), d)
      end).
  { intros d. unfold authenticate.
    rewrite (bind_run _ _ _ _ _ (User_findById_run _ _ _ _ Hid)).
    by destruct (List.find _ _). }
  assert (Hopt : ∀ d,
    optionalAuth (Some userId) d
    = (inr (set_password None <$> List.find (has_id oid) (users d)), d)).
  { intros d. unfold optionalAuth.
    by rewrite (User_findById_run _ _ _ _ Hid). }
  split; [|split; [|split]].
  - intros u Hfind. rewrite Hauth, Hopt, Hfind.
    apply find_has_id_Some in Hfind as [_ Hu]. done.
  - intros Hnone. by rewrite Hauth, Hopt, Hnone.
  - intros [id|]; [|done]. unfold optionalAuth, authenticate, User_findById.
    destruct (castObjectId id); [|done]. rewrite bind_read. unfold read.
    by destruct (List.find _ _).
  - intros caller code message db' Hrun.
    destruct (deleteUser_sent _ _ _ _ _ _ Hrun)
      as (oid' & u & Hid' & _ & _ & _ & _ & ->).
    rewrite Hid in Hid'. injection Hid' as <-.
    rewrite Hauth. cbn [users]. by rewrite find_has_id_filter_other.
Qed.

(** ** Tags *)

Lemma filter_Forall_id {A} (P : A → Prop) `{∀ x, Decision (P x)} (l : list A) :
  Forall P l → filter P l = l.
Proof.
  induction 1 as [|a l Ha _ IH]; [done|].
  rewrite filter_cons_True by done. by f_equal.
Qed.

Lemma indexOf_NoDup arr i x :
  NoDup arr → arr !! i = Some x → Js.indexOf arr x = Z.of_nat i.
Proof.
  intros Hnd Hi.
  destruct (indexOf_lookup arr x) as (j & -> & Hj);
    [by apply list_elem_of_lookup_2 in Hi|].
  f_equal. by apply (proj1 (NoDup_alt arr) Hnd j i x).
Qed.

Lemma normalize_tags_fixed l :
  Forall tag_normalized l → NoDup l → normalize_tags l = l.
Proof.
  intros Hnorm Hnd. unfold normalize_tags.
  assert (Harr : (λ tag, Js.trim (Js.toLowerCase tag)) <$> l = l).
  { rewrite <- (list_fmap_id l) at 2. apply Forall_fmap_ext_1.
    eapply Forall_impl; [exact Hnorm|]. intros x (Hl & Ht & _). cbn.
    by rewrite Hl, Ht. }
  rewrite Harr. rewrite filter_Forall_id.
  - apply list_eq. intros i. rewrite list_lookup_fmap, list_lookup_imap.
    by destruct (l !! i).
  - apply Forall_forall. intros [i x] Hin.
    apply elem_of_lookup_imap_1 in Hin as (j & y & [= -> ->] & Hy). cbn.
    split.
    + rewrite Forall_forall in Hnorm.
      destruct (Hnorm y) as (_ & _ & Hne);
        [by apply list_elem_of_lookup_2 in Hy|].
      by apply truthy_nonempty.
    + by apply indexOf_NoDup.
Qed.

Lemma is_ascii_toLowerCase s : is_ascii s → is_ascii (Js.toLowerCase s).
Proof.
  unfold is_ascii. induction s as [|c s IH]; [done|].
  cbn [Js.toLowerCase list_ascii_of_string forallb].
  intros [Hc Hs]%andb_true_iff. rewrite IH by done.
  rewrite andb_true_r. revert Hc.
  destruct c as [[] [] [] [] [] [] [] []]; by vm_compute.
Qed.

Lemma is_ascii_trimStart s : is_ascii s → is_ascii (Js.trimStart s).
Proof.
  unfold is_ascii. induction s as [|c s IH]; [done|]. cbn [Js.trimStart].
  destruct (Js.is_space c); [|done].
  cbn [list_ascii_of_string forallb]. intros [_ Hs]%andb_true_iff. auto.
Qed.

Lemma is_ascii_trimEnd s : is_ascii s → is_ascii (Js.trimEnd s).
Proof.
  unfold is_ascii. induction s as [|c s IH]; [done|]. cbn [Js.trimEnd].
  cbn [list_ascii_of_string forallb]. intros [Hc Hs]%andb_true_iff.
  specialize (IH Hs). destruct (Js.trimEnd s) as [|c' s'].
  - destruct (Js.is_space c); [done|].
    cbn [list_ascii_of_string forallb]. by rewrite Hc.
  - change (((nat_of_ascii c <? 128)%nat
             && forallb (λ c, (nat_of_ascii c <? 128)%nat)
                  (list_ascii_of_string (String c' s'))) = true).
    by rewrite Hc, IH.
Qed.

(** X24. The normalization of tags done when a task is saved, on tags
    of the ASCII range (where the lower-casing and the trimming of the
    model are those of JavaScript), is idempotent: normalizing a list
    already normalized changes nothing. More generally a list whose
    tags are lower-cased, trimmed and not empty, and in which no tag
    occurs twice, is left as it is, whatever its length. The result
    never has more tags than the list given, its tags are of the ASCII
    range again, and it holds a tag exactly when it is not empty and is
    the lower-cased and trimmed form of a tag given. *)
Theorem normalize_tags_idempotent tags :
  Forall is_ascii tags →
  normalize_tags (normalize_tags tags) = normalize_tags tags
  ∧ Forall is_ascii (normalize_tags tags)
  ∧ (Forall tag_normalized tags → NoDup tags → normalize_tags tags = tags)
  ∧ (length (normalize_tags tags) ≤ length tags)%nat
  ∧ NoDup (normalize_tags tags)
  ∧ ∀ x, x ∈ normalize_tags tags
         ↔ x ≠ "" ∧ ∃ tag, tag ∈ tags ∧ x = Js.trim (Js.toLowerCase tag).
Proof.
  intros Hascii. split; [|split; [|split; [|split; [|split]]]].
  - apply normalize_tags_fixed; [|apply NoDup_normalize_tags].
    apply Forall_forall. intros x Hx.
    apply elem_of_normalize_tags in Hx as (Hne & tag & _ & ->).
    split; [|split; [|done]].
    + by rewrite toLowerCase_trim, toLowerCase_idem.
    + apply trim_idem.
  - apply Forall_forall. intros x Hx.
    apply elem_of_normalize_tags in Hx as (_ & tag & Htag & ->).
    rewrite Forall_forall in Hascii.
    by apply is_ascii_trimEnd, is_ascii_trimStart, is_ascii_toLowerCase,
      Hascii.
  - apply normalize_tags_fixed.
  - apply length_normalize_tags.
  - apply NoDup_normalize_tags.
  - apply elem_of_normalize_tags.
Qed.

(** ** The filters of the task list *)

Lemma matches_app `{External} f g t :
  matches (f ++ g) t ↔ matches f t ∧ matches g t.
Proof. unfold matches. rewrite forallb_app, andb_True. done. Qed.

Lemma matches_nil `{External} t : matches [] t ↔ True.
Proof. done. Qed.

Lemma matches_one `{External} c t : matches [c] t ↔ matches_cond c t.
Proof. unfold matches. cbn. by rewrite andb_true_r. Qed.

Lemma matches_when_truthy `{External} v c t :
  matches (when_truthy v c) t
  ↔ ∀ s, v = Some s → s ≠ "" → matches_cond (c s) t.
Proof.
  unfold when_truthy. destruct v as [s|].
  - destruct s as [|ch s]; cbn [Js.truthy].
    + split; [by intros _ ? [= <-]|done].
    + rewrite matches_one. split; [by intros ? ? [= <-]|].
      intros Hall. by apply Hall.
  - split; [by intros _ ? [=]|done].
Qed.

Lemma matches_when_given `{External} {A} (v : option A) c t :
  matches (when_given v c) t ↔ ∀ a, v = Some a → matches_cond (c a) t.
Proof.
  unfold when_given. destruct v as [a|].
  - rewrite matches_one. split; [by intros ? ? [= <-]|]. intros Hall. by apply Hall.
  - split; [by intros _ ? [=]|done].
Qed.

(** X25. The filters of [getTasks] are applied together. A task
    matches the filter built from a query exactly when: for a member, it
    is assigned to the caller, whatever assignee the query names; for an
    administrator, it is assigned to the assignee the query names, if it
    names one; its title or its description matches the search, case
    ignored, if a search is given; its status and its priority are those
    asked for, if any; it carries at least one of the tags asked for, if
    any; and its due date is set and not before the lower bound, and set
    and not after the upper bound, for each bound given. An empty value
    asks for nothing. The answer holds only tasks of the store that match,
    and its total counts the tasks that match. *)
Theorem getTasks_applies_every_filter `{External} user q db p l :
  Js.parseInt (default "1" (q_page q)) = Js.Int p →
  Js.parseInt (default "10" (q_limit q)) = Js.Int l →
  forallb castable (getTasks_filter user q) = true →
  (∀ t,
     matches (getTasks_filter user q) t
     ↔ (role user = MEMBER → assignee t = user_id user)
       ∧ (role user = ADMIN →
          ∀ a, q_assignee q = Some a → a ≠ "" →
               castObjectId a = Some (assignee t))
       ∧ (∀ s, q_search q = Some s → s ≠ "" →
               regex_test s true (title t)
               ∨ ∃ d, description t = Some d ∧ regex_test s true d)
       ∧ (∀ s, q_status q = Some s → s ≠ "" → TaskStatus_value (status t) = s)
       ∧ (∀ s, q_priority q = Some s → s ≠ "" →
               TaskPriority_value (priority t) = s)
       ∧ (∀ tag rest, q_tags q = Some (tag :: rest) →
                      ∃ x, x ∈ tags t ∧ x ∈ tag :: rest)
       ∧ (∀ d, q_dueDateFrom q = Some d → ∃ x, dueDate t = Some x ∧ d ≤ x)
       ∧ (∀ d, q_dueDateTo q = Some d → ∃ x, dueDate t = Some x ∧ x ≤ d))
  ∧ ∃ body,
      respond (getTasks (Some user) q) db = (Sent 200 body, db)
      ∧ (∀ t, t ∈ page_data body →
              doc t ∈ tasks db ∧ matches (getTasks_filter user q) (doc t))
      ∧ totalItems (pagination body)
        = Z.of_nat (length (filter (λ t, matches (getTasks_filter user q) t)
                                   (tasks db))).
Proof.
  intros Hp Hl Hcast. split.
  - intros t. unfold getTasks_filter. cbn [concat].
    rewrite !matches_app, !matches_when_truthy, !matches_when_given, matches_nil.
    assert (Hrole :
      matches (if decide (role user = MEMBER) then [Assignee_is (user_id user)]
               else when_truthy (q_assignee q) Assignee_eq) t
      ↔ (role user = MEMBER → assignee t = user_id user)
        ∧ (role user = ADMIN →
           ∀ a, q_assignee q = Some a → a ≠ "" →
                castObjectId a = Some (assignee t))).
    { destruct (decide (role user = MEMBER)) as [Hm|Hm].
      - rewrite matches_one. cbn. rewrite bool_decide_spec.
        split; [|tauto]. intros Ha. split; [done|]. congruence.
      - rewrite matches_when_truthy. cbn.
        assert (role user = ADMIN) by (destruct (role user); done).
        split.
        + intros Hall. split; [done|]. intros _ a Ha Hne.
          specialize (Hall a Ha Hne). by apply bool_decide_unpack in Hall.
        + intros [_ Hall] a Ha Hne. apply bool_decide_pack. by apply Hall. }
    assert (Htags :
      matches match q_tags q with
              | Some (tag :: l) => [Tags_in (tag :: l)]
              | _ => []
              end t
      ↔ ∀ tag rest, q_tags q = Some (tag :: rest) →
                    ∃ x, x ∈ tags t ∧ x ∈ tag :: rest).
    { destruct (q_tags q) as [[|tag rest]|].
      - split; [by intros _ ? ? [=]|done].
      - rewrite matches_one. cbn [matches_cond].
        split.
        + intros Hex%Is_true_true%existsb_exists tag' rest' [= <- <-].
          destruct Hex as (x & Hx%list_elem_of_In & Hin%bool_decide_eq_true_1).
          eauto.
        + intros Hall. destruct (Hall tag rest eq_refl) as (x & Hx & Hin).
          apply Is_true_true, existsb_exists. exists x.
          split; [by apply list_elem_of_In|by apply bool_decide_eq_true_2].
      - split; [by intros _ ? ? [=]|done]. }
    rewrite Hrole, Htags. cbn [matches_cond].
    assert (Hsearch : ∀ s,
      regex_test s true (title t)
      || from_option (regex_test s true) false (description t)
      ↔ regex_test s true (title t)
        ∨ ∃ d, description t = Some d ∧ regex_test s true d).
    { intros s. rewrite orb_True. destruct (description t) as [d|]; cbn.
      - split; [intros [?|?]; eauto|intros [?|(? & [= <-] & ?)]; auto].
      - split; [intros [?|[]]; auto|intros [?|(? & [=] & _)]; auto]. }
    assert (Hfrom : ∀ d,
      from_option (λ x, bool_decide (d ≤ x)) false (dueDate t)
      ↔ ∃ x, dueDate t = Some x ∧ d ≤ x).
    { intros d. destruct (dueDate t) as [x|]; cbn.
      - rewrite bool_decide_spec. split; [eauto|by intros (? & [= <-] & ?)].
      - split; [done|by intros (? & [=] & _)]. }
    assert (Hto : ∀ d,
      from_option (λ x, bool_decide (x ≤ d)) false (dueDate t)
      ↔ ∃ x, dueDate t = Some x ∧ x ≤ d).
    { intros d. destruct (dueDate t) as [x|]; cbn.
      - rewrite bool_decide_spec. split; [eauto|by intros (? & [= <-] & ?)].
      - split; [done|by intros (? & [=] & _)]. }
    setoid_rewrite Hsearch. setoid_rewrite Hfrom. setoid_rewrite Hto.
    setoid_rewrite bool_decide_spec. tauto.
  - eexists. split; [by apply getTasks_run|].
    cbn [page_data pagination paginate totalItems]. split; [|done].
    intros t (t0 & -> & Hin%elem_of_skip_limit)%list_elem_of_fmap.
    rewrite merge_sort_Permutation in Hin.
    apply list_elem_of_filter in Hin. cbn. tauto.
Qed.

(** ** The page of a list *)

Lemma length_skip_limit {A} skip limit (l : list A) :
  0 ≤ skip → 0 ≤ limit →
  Z.of_nat (length (skip_limit skip limit l))
  = Z.min limit (Z.max 0 (Z.of_nat (length l) - skip)).
Proof.
  intros Hs Hl. unfold skip_limit. rewrite length_take, length_drop. lia.
Qed.

(** X26. The page that [getTasks] answers. With [page] and [limit]
    parsed as in the handler, the page is sorted by the sort key, in the
    direction asked, by creation date, newest first, when the query names
    neither; it holds as many tasks as the limit allows and the list
    still has after the pages before it, so it is full whenever there is
    a next page and empty whenever the page number is beyond the last
    page; and a task of the page is a task of the store populated from
    the users of the store. *)
Theorem getTasks_page_window `{External} user q db p l :
  Js.parseInt (default "1" (q_page q)) = Js.Int p →
  Js.parseInt (default "10" (q_limit q)) = Js.Int l →
  forallb castable (getTasks_filter user q) = true →
  ∃ body,
    respond (getTasks (Some user) q) db = (Sent 200 body, db)
    ∧ let pg := pagination body in
      Sorted (sorted_by (task_sort_key (default "createdAt" (q_sortBy q)))
                        (bool_decide (q_sortOrder q = Some "asc")))
             (doc <$> page_data body)
      ∧ (q_sortBy q = None → q_sortOrder q = None →
         Sorted (λ a b, createdAt b ≤ createdAt a) (doc <$> page_data body))
      ∧ Z.of_nat (length (page_data body))
        = Z.min (itemsPerPage pg)
            (Z.max 0 (totalItems pg - (currentPage pg - 1) * itemsPerPage pg))
      ∧ (hasNextPage pg = true →
         Z.of_nat (length (page_data body)) = itemsPerPage pg)
      ∧ (totalPages pg < currentPage pg → page_data body = [])
      ∧ (0 < totalItems pg → currentPage pg ≤ totalPages pg →
         page_data body ≠ [])
      ∧ ∀ t, t ∈ page_data body → t = populated db (doc t).
Proof.
  intros Hp Hl Hcast. eexists. split; [by apply getTasks_run|].
  cbn [page_data pagination paginate totalItems currentPage itemsPerPage
       totalPages hasNextPage].
  set (pageNumber := Z.max 1 p). set (limitNumber := Z.min 100 (Z.max 1 l)).
  set (found := filter _ (tasks db)).
  set (order := sorted_by _ _). set (sorted := merge_sort order found).
  assert (Hlimit : 0 < limitNumber) by lia.
  assert (Hpage : 1 ≤ pageNumber) by lia.
  assert (Hlen : length sorted = length found)
    by (unfold sorted; by rewrite merge_sort_Permutation).
  assert (Hwindow :
    Z.of_nat (length (populated db <$>
      skip_limit ((pageNumber - 1) * limitNumber) limitNumber sorted))
    = Z.min limitNumber
        (Z.max 0 (Z.of_nat (length found) - (pageNumber - 1) * limitNumber))).
  { rewrite length_fmap, length_skip_limit by nia. by rewrite Hlen. }
  pose proof (ceil_div_bounds (Z.of_nat (length found)) limitNumber Hlimit)
    as Hceil.
  rewrite doc_populated. cbv zeta.
  assert (Hsorted : Sorted order
    (skip_limit ((pageNumber - 1) * limitNumber) limitNumber sorted)).
  { unfold skip_limit. apply Sorted_take, Sorted_drop.
    apply Sorted_merge_sort. apply _. }
  split; [exact Hsorted|]. split.
  { intros Hby Hord. revert Hsorted. unfold order. rewrite Hby, Hord.
    apply Sorted_impl. intros a b. unfold sorted_by. cbn.
    intros Hle%Is_true_true. by apply Z.leb_le. }
  split; [exact Hwindow|]. split.
  { intros Hnext%Z.ltb_lt. rewrite Hwindow. nia. }
  split.
  { intros Hbeyond. apply length_zero_iff_nil, Nat2Z.inj. rewrite Hwindow. nia. }
  split.
  { intros Hsome Hwithin Hnil. apply (f_equal length) in Hnil.
    apply (f_equal Z.of_nat) in Hnil. rewrite Hwindow in Hnil. cbn in Hnil.
    nia. }
  intros t (t0 & -> & _)%list_elem_of_fmap. done.
Qed.

(** ** The profile *)

Lemma validate_name_nil `{External} label v :
  validate_name label v = [] →
  v ≠ "" ∧ (String.length v ≤ 50)%nat ∧ regex_test name_pattern false v = true.
Proof.
  unfold validate_name. destruct (Js.truthy v) eqn:Hv; [|discriminate].
  intros Hc%concat_nil_inv. rewrite !Forall_cons in Hc.
  destruct Hc as (Hlen%check_nil & Hre%check_nil & _).
  split; [by intros ->|]. split; [lia|done].
Qed.

(** X27. [updateProfile] changes the names given and nothing else. For
    a caller who is a user of the store, an update that is answered is
    answered 200 with the user as stored after it, without password: a
    name given is stored trimmed, is not empty, has at most fifty
    characters and matches the pattern of names; a name not given keeps
    its value; identifier, address, password hash and role are
    untouched, as are the other users, the tasks and the log. An update
    that is refused writes nothing. *)
Theorem updateProfile_changes_names_only `{External} c first last now db u :
  List.find (has_id (user_id c)) (users db) = Some u →
  (∀ code body db',
     respond (updateProfile (Some c) first last now) db = (Sent code body, db') →
     ∃ u',
       code = 200
       ∧ body = Some (User_toJSON u')
       ∧ User_toJSON u' !! "password" = None
       ∧ List.find (has_id (user_id c)) (users db') = Some u'
       ∧ match first with
         | Some f =>
             firstName u' = Js.trim f ∧ firstName u' ≠ ""
             ∧ (String.length (firstName u') ≤ 50)%nat
             ∧ regex_test name_pattern false (firstName u') = true
         | None => firstName u' = firstName u
         end
       ∧ match last with
         | Some l =>
             lastName u' = Js.trim l ∧ lastName u' ≠ ""
             ∧ (String.length (lastName u') ≤ 50)%nat
             ∧ regex_test name_pattern false (lastName u') = true
         | None => lastName u' = lastName u
         end
       ∧ user_id u' = user_id u ∧ email u' = email u
       ∧ password u' = password u ∧ role u' = role u
       ∧ (∀ v, v ∈ users db → user_id v ≠ user_id c → v ∈ users db')
       ∧ length (users db') = length (users db)
       ∧ tasks db' = tasks db ∧ activityLogs db' = activityLogs db)
  ∧ (∀ e db',
       respond (updateProfile (Some c) first last now) db = (Thrown e, db') →
       db' = db).
Proof.
  intros Hfind.
  pose proof Hfind as [_ Hp]%List.find_some.
  split.
  - intros code body db'. unfold respond, updateProfile.
    destruct (concat _) eqn:Hv; [|discriminate].
    apply concat_nil_inv in Hv. rewrite !Forall_cons in Hv.
    destruct Hv as (Hf & Hl & _).
    rewrite bind_write, bind_read. cbn [users].
    rewrite (find_update_first_user _ _ _ _ u Hfind Hfind) by exact Hp.
    cbn [fmap option_fmap option_map select]. intros [= <- <- <-].
    eexists. split; [done|]. split; [by rewrite User_toJSON_set_password|].
    split; [apply User_toJSON_no_password|].
    cbn [users tasks activityLogs].
    split; [by apply find_update_first_user|].
    cbn [set_names firstName lastName user_id email password role].
    split.
    { destruct first as [f|]; [|done]. cbn in Hf |- *.
      split; [done|]. by apply (validate_name_nil "First name"). }
    split.
    { destruct last as [l|]; [|done]. cbn in Hl |- *.
      split; [done|]. by apply (validate_name_nil "Last name"). }
    do 4 (split; [done|]). split.
    { intros v Hv Hne. apply update_first_user_other; [done|].
      unfold has_id. by rewrite bool_decide_eq_false_2. }
    split; [|done].
    clear. induction (users db) as [|a l IH]; [done|]. cbn.
    destruct (has_id _ a); cbn; by f_equal.
  - intros e db'. unfold respond, updateProfile.
    destruct (concat _); [|by intros [= _ <-]].
    rewrite bind_write, bind_read. discriminate.
Qed.

(** ** The statics of the models *)

Lemma cast_email_toLowerCase e : cast_email (Js.toLowerCase e) = cast_email e.
Proof. unfold cast_email. by rewrite toLowerCase_idem. Qed.

(** X28. The statics of the models. [User.findByEmail] finds the user
    whose address is the one given lower-cased and trimmed, as a query by
    address does, so that two spellings of an address find the same
    user; the user comes without password. [User.getAdmins] and
    [User.getMembers] split the users: each user is in exactly one of the
    two lists, by role, and none comes with a password.
    [Task.findOverdue] returns exactly the tasks whose [isOverdue] is
    truthy, and [Task.findByAssignee] the tasks assigned to the user the
    identifier denotes, in the order of the store; it fails on a text
    that is no identifier. *)
Theorem model_statics `{External} db :
  (∀ e, User_findByEmail e db = User_findOne_email DefaultSelect e db)
  ∧ (∀ e e', cast_email e = cast_email e' →
             User_findByEmail e db = User_findByEmail e' db)
  ∧ (∀ e u, (User_findByEmail e db).1 = inr (Some u) →
            email u = cast_email e ∧ password u = None)
  ∧ (∃ admins members,
       User_getAdmins db = (inr admins, db)
       ∧ User_getMembers db = (inr members, db)
       ∧ (∀ u, u ∈ admins → role u = ADMIN ∧ password u = None)
       ∧ (∀ u, u ∈ members → role u = MEMBER ∧ password u = None)
       ∧ (length admins + length members = length (users db))%nat)
  ∧ (∀ now, ∃ found,
       Task_findOverdue now db = (inr found, db)
       ∧ ∀ t, t ∈ found ↔ t ∈ tasks db ∧ JsVal_truthy (isOverdue now t))
  ∧ (∀ id oid,
       castObjectId id = Some oid →
       Task_findByAssignee id db
       = (inr (filter (λ t, assignee t = oid) (tasks db)), db))
  ∧ (∀ id, castObjectId id = None →
           Task_findByAssignee id db = (inl CastError, db)).
Proof.
  assert (Hfind : ∀ e,
    User_findByEmail e db = User_findOne_email DefaultSelect e db).
  { intros e. unfold User_findByEmail, User_findOne_email, read.
    by rewrite cast_email_toLowerCase. }
  split; [exact Hfind|]. split.
  { intros e e' He. rewrite !Hfind. unfold User_findOne_email, read.
    by rewrite He. }
  split.
  { intros e u. rewrite Hfind. unfold User_findOne_email, read. cbn.
    destruct (List.find _ (users db)) as [v|] eqn:Hv; [|discriminate].
    intros [= <-]. apply List.find_some in Hv as [_ Hv].
    by apply bool_decide_eq_true_1 in Hv. }
  split.
  { eexists _, _. split; [reflexivity|]. split; [reflexivity|].
    split; [|split].
    - intros u (v & -> & Hv%list_elem_of_filter)%list_elem_of_fmap. tauto.
    - intros u (v & -> & Hv%list_elem_of_filter)%list_elem_of_fmap. tauto.
    - rewrite !length_fmap. induction (users db) as [|u l IH]; [done|].
      rewrite !filter_cons.
      destruct (role u) eqn:Hr;
        repeat (destruct (decide _); try congruence); cbn; lia. }
  split.
  { intros now. eexists. split.
    - unfold Task_findOverdue. by apply Task_find_run.
    - intros t. rewrite list_elem_of_filter.
      change (TaskStatus_value DONE) with "done".
      rewrite matches_overdue. tauto. }
  split.
  { intros id oid Hid. unfold Task_findByAssignee.
    rewrite Task_find_run.
    - by rewrite (filter_assignee_eq _ _ _ Hid).
    - cbn. rewrite Hid. by rewrite bool_decide_eq_true_2. }
  intros id Hid. unfold Task_findByAssignee, Task_find. cbn. rewrite Hid.
  rewrite bool_decide_eq_false_2; [done|]. by intros [x Hx].
Qed.

(** ** Refusals *)

(** X29. A refusal of [deleteUser], [updateUserRole] or
    [changePassword] writes nothing. Each of them writes to the store
    once, to one document, and does so last: whenever one of them ends
    in an error, whatever the error, the store is exactly as it was
    before the call. *)
Theorem refusals_write_nothing `{External} caller db e db' :
  (∀ id, respond (deleteUser caller id) db = (Thrown e, db') → db' = db)
  ∧ (∀ id r now,
       respond (updateUserRole caller id r now) db = (Thrown e, db') → db' = db)
  ∧ (∀ currentPassword newPassword now,
       respond (changePassword caller currentPassword newPassword now) db
       = (Thrown e, db') → db' = db).
Proof.
  split; [|split].
  - intros id. unfold respond, deleteUser.
    destruct (ObjectId_isValid id) eqn:Hvalid; [|wrote_nothing]. cbn [negb].
    case_bool_decide; [wrote_nothing|].
    assert (Hid : castObjectId id = Some (Js.toLowerCase id))
      by (unfold castObjectId; by rewrite Hvalid).
    rewrite (bind_run _ _ _ _ _ (User_findById_run _ _ _ _ Hid)).
    destruct (List.find _ (users db)) as [u|]; [|wrote_nothing].
    cbn [fmap option_fmap option_map].
    assert (Hcast : forallb castable [Assignee_eq id] = true).
    { simpl. rewrite Hid. by rewrite bool_decide_eq_true_2 by eauto. }
    rewrite (bind_run _ _ _ _ _ (Task_countDocuments_run _ _ Hcast)).
    destruct (0 <? _); [wrote_nothing|].
    unfold User_findByIdAndDelete. rewrite Hid. discriminate.
  - intros id r now. unfold respond, updateUserRole.
    destruct (ObjectId_isValid id) eqn:Hvalid; [|wrote_nothing]. cbn [negb].
    case_bool_decide; [wrote_nothing|].
    unfold User_findByIdAndUpdate_role, castObjectId. rewrite Hvalid.
    destruct (UserRole_of r) as [newRole|]; [|rewrite bind_throw; wrote_nothing].
    unfold bind, write, read. cbn [users].
    destruct (List.find _ (update_first_user _ _ _)) as [u|] eqn:Hfound;
      [discriminate|].
    cbn [fmap option_fmap option_map]. intros [= _ <-].
    rewrite update_first_user_none; [apply Db_eta|].
    intros u Hu. destruct (has_id _ u) eqn:Hp; [|done].
    destruct (find_some_elem (has_id (Js.toLowerCase id)) (users db) u Hu Hp)
      as [v Hv].
    pose proof Hv as [_ Hpv]%List.find_some.
    by rewrite (find_update_first_user _ _ _ _ v Hv Hv) in Hfound.
  - intros currentPassword newPassword now. unfold respond, changePassword.
    destruct caller as [c|]; [|wrote_nothing]. rewrite bind_read.
    destruct (List.find _ (users db)) as [u|]; [|wrote_nothing].
    destruct (from_option _ _ _); [|wrote_nothing].
    destruct (User_validate _ _ _ _ _); [|wrote_nothing].
    destruct (decide _); [rewrite bind_ret|rewrite bind_write]; discriminate.
Qed.

(** ** The user list *)

Lemma user_matches_spec `{External} q u :
  user_matches q u
  ↔ (∀ s, uq_search q = Some s → s ≠ "" →
          regex_test s true (firstName u) ∨ regex_test s true (lastName u)
          ∨ regex_test s true (email u))
    ∧ (∀ r, uq_role q = Some r → r ≠ "" → UserRole_value (role u) = r).
Proof.
  unfold user_matches. rewrite andb_True.
  assert (Hs :
    Is_true
      match uq_search q with
      | Some s =>
          if Js.truthy s
          then regex_test s true (firstName u) || regex_test s true (lastName u)
               || regex_test s true (email u)
          else true
      | None => true
      end
    ↔ ∀ s, uq_search q = Some s → s ≠ "" →
           regex_test s true (firstName u) ∨ regex_test s true (lastName u)
           ∨ regex_test s true (email u)).
  { destruct (uq_search q) as [[|ch s]|]; cbn [Js.truthy].
    - split; [by intros _ ? [= <-]|done].
    - rewrite !orb_True. split.
      + intros Hm ? [= <-] _. tauto.
      + intros Hall. destruct (Hall _ eq_refl) as [?|[?|?]]; auto.
    - split; [by intros _ ? [=]|done]. }
  assert (Hr :
    Is_true
      match uq_role q with
      | Some r => if Js.truthy r then bool_decide (UserRole_value (role u) = r)
                  else true
      | None => true
      end
    ↔ ∀ r, uq_role q = Some r → r ≠ "" → UserRole_value (role u) = r).
  { destruct (uq_role q) as [[|ch r]|]; cbn [Js.truthy].
    - split; [by intros _ ? [= <-]|done].
    - rewrite bool_decide_spec. split.
      + by intros Hm ? [= <-] _.
      + intros Hall. by apply Hall.
    - split; [by intros _ ? [=]|done]. }
  by rewrite Hs, Hr.
Qed.

(** X30. [getUsers] lists the users that match, a page at a time. With
    [page] and [limit] parsed as in the handler, the answer is 200 and
    nothing is written. A user matches when one of the names or the
    address matches the search, case ignored, if a search is given, and
    the role is the one asked for, if any. The total is the number of
    users that match; the page holds as many of them as the limit allows
    and the list still has after the pages before it; every entry of the
    page is the object of a user of the store that matches, and carries
    no password. *)
Theorem getUsers_lists_matching `{External} q db p l :
  Js.parseInt (default "1" (uq_page q)) = Js.Int p →
  Js.parseInt (default "10" (uq_limit q)) = Js.Int l →
  ∃ body,
    respond (getUsers q) db = (Sent 200 body, db)
    ∧ let pg := pagination body in
      currentPage pg = Z.max 1 p
      ∧ itemsPerPage pg = Z.min 100 (Z.max 1 l)
      ∧ totalItems pg
        = Z.of_nat (length (filter (λ u, user_matches q u) (users db)))
      ∧ (totalPages pg - 1) * itemsPerPage pg < totalItems pg
          ≤ totalPages pg * itemsPerPage pg
      ∧ Z.of_nat (length (page_data body))
        = Z.min (itemsPerPage pg)
            (Z.max 0 (totalItems pg - (currentPage pg - 1) * itemsPerPage pg))
      ∧ ∀ o, o ∈ page_data body →
             o !! "password" = None
             ∧ ∃ u, u ∈ users db ∧ o = User_toJSON u
                    ∧ (∀ s, uq_search q = Some s → s ≠ "" →
                            regex_test s true (firstName u)
                            ∨ regex_test s true (lastName u)
                            ∨ regex_test s true (email u))
                    ∧ (∀ r, uq_role q = Some r → r ≠ "" →
                            UserRole_value (role u) = r).
Proof.
  intros Hp Hl. unfold getUsers, pageNumber_of, limitNumber_of.
  rewrite Hp, Hl. cbn [Js.Math_max Js.Math_min].
  set (pageNumber := Z.max 1 p). set (limitNumber := Z.min 100 (Z.max 1 l)).
  assert (Hlimit : 0 < limitNumber) by lia.
  assert (Hpage : 1 ≤ pageNumber) by lia.
  eexists. split; [apply respond_sent; rewrite bind_read; reflexivity|].
  cbn [page_data pagination paginate totalItems currentPage itemsPerPage
       totalPages].
  set (found := filter _ (users db)).
  pose proof (ceil_div_bounds (Z.of_nat (length found)) limitNumber Hlimit)
    as Hceil.
  cbv zeta. do 3 (split; [done|]). split; [exact Hceil|]. split.
  { rewrite !length_fmap, length_skip_limit by nia.
    by rewrite merge_sort_Permutation. }
  intros o (u1 & -> & (u & -> & Hin%elem_of_skip_limit)%list_elem_of_fmap)
    %list_elem_of_fmap.
  split; [apply User_toJSON_no_password|].
  rewrite merge_sort_Permutation in Hin.
  apply list_elem_of_filter in Hin as [Hm Hu].
  exists u. split; [done|]. split; [apply User_toJSON_set_password|].
  by apply user_matches_spec.
Qed.

(** ** The further properties at the sample data *)

Lemma createTask_then_getTaskById_witness :
  ∃ task db' history,
    respond (@createTask Sample.ext (Some Sample.ada) Sample2.new_task
               Sample2.task3_id 100) Sample.db
    = (Sent 201 task, db')
    ∧ respond (getTaskById (Some Sample.bob) Sample2.task3_id) db'
      = (Sent 200 (mkDetail task history), db')
    ∧ title (doc task) = "Plan the release"
    ∧ tags (doc task) = ["ops"; "q3"].
Proof.
  eexists _, _.
  destruct (@createTask_then_getTaskById Sample.ext Sample.ada Sample.bob
              Sample2.new_task Sample2.task3_id 100 Sample.db 201 _ _
              eq_refl eq_refl (or_intror eq_refl))
    as [[history Hget] _].
  exists history. split; [reflexivity|]. split; [exact Hget|]. split; reflexivity.
Defined.

Lemma createTask_refusals_precede_write_witness :
  ∃ messages,
    respond (@createTask Sample.ext (Some Sample.ada) Sample2.late_task
               Sample2.task3_id 100) Sample.db
    = (Thrown (ValidationError messages), Sample.db)
    ∧ "Due date must be in the future" ∈ messages.
Proof.
  destruct (@createTask_refusals_precede_write Sample.ext (Some Sample.ada)
              Sample2.late_task Sample2.task3_id 100 Sample.db)
    as (_ & Hlate).
  apply (Hlate Sample.ada Sample.bob_id Sample.bob_id Sample.bob 50);
    try reflexivity; [repeat constructor|lia].
Defined.

Lemma createTask_appends_task_and_entry_witness :
  ∃ task db' entry,
    respond (@createTask Sample.ext (Some Sample.ada) Sample2.new_task
               Sample2.task3_id 100) Sample.db
    = (Sent 201 task, db')
    ∧ tasks db' = [Sample.task1; Sample.task2; doc task]
    ∧ activityLogs db' = [entry]
    ∧ changes entry
      = {[ "title" := CVal (JStr "  Plan the release ");
           "assignee" := CVal (JStr "bob@example.com") ]}.
Proof.
  eexists _, _.
  destruct (@createTask_appends_task_and_entry Sample.ext Sample.ada
              Sample2.new_task Sample2.task3_id 100 Sample.db 201 _ _ eq_refl)
    as (_ & Htasks & entry & who & Hlog & _).
  exists entry. split; [reflexivity|]. split; [exact Htasks|].
  split; [exact Hlog|]. cbn in Hlog. injection Hlog as <-. reflexivity.
Defined.

Lemma deleteTask_then_not_found_witness :
  ∃ db',
    respond (deleteTask (Some Sample.bob) Sample.task1_id 100) Sample.db
    = (Sent 200 "Task deleted successfully", db')
    ∧ tasks db' = [Sample.task2]
    ∧ respond (getTaskById (Some Sample.ada) Sample.task1_id) db'
      = (Thrown (AppError "Task not found" 404), db').
Proof.
  eexists.
  destruct (deleteTask_then_not_found Sample.bob Sample.task1_id
              Sample.task1_id Sample.task1 100 Sample.db _ _
              eq_refl eq_refl eq_refl) as (_ & _ & _ & _ & Hget & _).
  split; [reflexivity|]. split; [reflexivity|]. apply Hget.
Defined.

Lemma updateTask_sets_given_fields_witness :
  ∃ body db' t,
    respond (updateTask (Some Sample.bob) Sample.task1_id
               (Sample.set_status_to "in-progress") 100) Sample.db
    = (Sent 200 body, db')
    ∧ List.find (has_task_id Sample.task1_id) (tasks db') = Some t
    ∧ TaskStatus_value (status t) = "in-progress"
    ∧ title t = "Write report"
    ∧ tags t = ["docs"]
    ∧ createdBy t = Sample.ada_id
    ∧ createdAt t = 10.
Proof.
  eexists _, _.
  destruct (updateTask_sets_given_fields Sample.bob Sample.task1_id
              Sample.task1_id Sample.task1 (Sample.set_status_to "in-progress")
              100 Sample.db 200 _ _ eq_refl eq_refl eq_refl)
    as (t & _ & _ & Hfind & _ & Htitle & _ & Hstatus & _ & _ & Htags & _
        & Hauthor & Hcreated & _).
  exists t. split; [reflexivity|]. split; [exact Hfind|].
  split; [exact Hstatus|]. split; [exact Htitle|]. split; [exact Htags|].
  split; [exact Hauthor|exact Hcreated].
Defined.

Lemma normalize_tags_idempotent_witness :
  normalize_tags ["Ops"; " ops"; "Q3"] = ["ops"; "q3"]
  ∧ normalize_tags (normalize_tags ["Ops"; " ops"; "Q3"])
    = normalize_tags ["Ops"; " ops"; "Q3"].
Proof.
  split; [reflexivity|].
  refine (proj1 (normalize_tags_idempotent ["Ops"; " ops"; "Q3"] _)).
  repeat constructor.
Defined.

Lemma getTaskById_access_and_history_witness :
  respond (getTaskById (Some Sample.bob) Sample.task2_id) Sample.db
  = (Thrown (AppError
       "Access denied. You can only view your assigned tasks." 403), Sample.db).
Proof.
  refine (proj1 (proj2 (getTaskById_access_and_history Sample.bob
            Sample.task2_id Sample.task2_id Sample.db eq_refl)
            Sample.task2 Sample.ada eq_refl eq_refl) eq_refl _).
  vm_compute. discriminate.
Defined.

Lemma bulkUpdateTasks_updates_listed_witness :
  ∃ db',
    respond (bulkUpdateTasks (Some Sample.ada)
               [Sample.task1_id; Sample.absent_id]
               (Sample.set_status_to "done") 100) Sample.db
    = (Sent 200 (mkResult 1 1), db')
    ∧ users db' = users Sample.db
    ∧ length (tasks db') = 2%nat.
Proof.
  assert (Hunique : NoDup (task_id <$> tasks Sample.db))
    by (apply (bool_decide_unpack _); vm_compute; exact I).
  eexists.
  destruct (bulkUpdateTasks_updates_listed Sample.ada
              [Sample.task1_id; Sample.absent_id]
              (Sample.set_status_to "done") 100 Sample.db 200 (mkResult 1 1) _
              Hunique eq_refl)
    as (_ & Husers & Hlen & _).
  split; [reflexivity|]. split; [exact Husers|exact Hlen].
Defined.

Lemma handlers_keep_assignees_witness :
  assignees_exist
    (respond (@createTask Sample.ext (Some Sample.ada) Sample2.new_task
                Sample2.task3_id 100) Sample.db).2
  ∧ assignees_exist
      (respond (@deleteUser Sample.ext (Some Sample.ada) Sample.bob_id)
         Sample.db).2.
Proof.
  assert (Hinv : assignees_exist Sample.db).
  { intros t Ht. apply elem_of_cons in Ht as [->|Ht].
    - split; [reflexivity|]. exists Sample.bob.
      split; [repeat constructor|reflexivity].
    - apply elem_of_cons in Ht as [->|Ht]; [|by apply elem_of_nil in Ht].
      split; [reflexivity|]. exists Sample.ada.
      split; [repeat constructor|reflexivity]. }
  destruct (@handlers_keep_assignees Sample.ext (Some Sample.ada) Sample.db Hinv)
    as (Hcreate & _ & _ & Hdelete).
  split; [apply Hcreate|apply Hdelete].
Defined.

Lemma handlers_keep_unique_ids_witness :
  unique_ids
    (respond (@register Sample.ext Sample2.new_user Sample2.cy_id 100)
       Sample.db).2.
Proof.
  assert (Hinv : unique_ids Sample.db).
  { repeat split; apply (bool_decide_unpack _); vm_compute; exact I. }
  destruct (@handlers_keep_unique_ids Sample.ext None Sample.db Hinv)
    as (_ & _ & _ & _ & _ & Hregister).
  apply Hregister.
Defined.

Lemma register_then_login_witness :
  ∃ resp db',
    respond (@register Sample.ext Sample2.new_user Sample2.cy_id 100) Sample.db
    = (Sent 201 resp, db')
    ∧ (respond (@login Sample.ext (mkLogin "CY@example.com" "secret1")) db').1
      = Sent 200 (mkAuth "Logged in successfully" (auth_user resp)
                         (auth_token resp)).
Proof.
  eexists _, _.
  destruct (@register_then_login Sample.ext Sample2.new_user Sample2.cy_id 100
              Sample.db 201 _ _
              (λ p, bool_decide_eq_true_2 _ eq_refl) eq_refl)
    as (e & p & u & He & Hp & _ & _ & _ & _ & _ & _ & _ & _ & _ & _ & Huser & _
        & Htoken & Hlogin).
  split; [reflexivity|].
  injection He as <-. injection Hp as <-.
  rewrite (Hlogin "CY@example.com" eq_refl). cbn [fst].
  by rewrite Huser, Htoken.
Defined.

Lemma register_refuses_taken_email_witness :
  respond (@register Sample.ext
             (mkRegister (Some " BOB@example.com") (Some "secret1") (Some "Bob")
                         (Some "B") None)
             Sample2.cy_id 100) Sample.db
  = (Thrown (AppError "User with this email already exists" 400), Sample.db).
Proof.
  refine (proj1 (@register_refuses_taken_email Sample.ext
                   (mkRegister (Some " BOB@example.com") (Some "secret1")
                               (Some "Bob") (Some "B") None)
                   Sample2.cy_id 100
                   Sample.db " BOB@example.com" Sample.bob eq_refl _ eq_refl)).
  repeat constructor.
Defined.

Lemma login_refusals_alike_witness :
  ∃ o,
    respond (@login Sample.ext (mkLogin "nobody@example.com" "hunter2"))
      Sample.db
    = (o, Sample.db)
    ∧ o = Thrown (AppError "Invalid credentials" 401).
Proof.
  eexists. split; [reflexivity|].
  destruct (@login_refusals_alike Sample.ext
              (mkLogin "nobody@example.com" "hunter2") Sample.db _ _ eq_refl)
    as (_ & _ & Hunknown & _).
  apply Hunknown. intros u Hu.
  apply elem_of_cons in Hu as [->|Hu]; [vm_compute; discriminate|].
  apply elem_of_cons in Hu as [->|Hu]; [vm_compute; discriminate|].
  by apply elem_of_nil in Hu.
Defined.

Lemma changePassword_then_login_witness :
  ∃ db' resp,
    respond (@changePassword Sample.ext (Some Sample.bob) "hunter2" "newsecret"
               100) Sample.db
    = (Sent 200 "Password changed successfully", db')
    ∧ respond (@login Sample.ext (mkLogin "bob@example.com" "newsecret")) db'
      = (Sent 200 resp, db').
Proof.
  eexists.
  destruct (proj2 (@changePassword_then_login Sample.ext Sample.bob "hunter2"
                     "newsecret" 100 Sample.db Sample.bob
                     (λ p, bool_decide_eq_true_2 _ eq_refl) eq_refl)
              200 _ _ eq_refl) as (_ & _ & _ & _ & _ & _ & Hnew).
  destruct Hnew as [_ Hlogin]; [discriminate|].
  destruct (Hlogin "bob@example.com" eq_refl) as (resp & Hresp & _).
  exists resp. split; [reflexivity|exact Hresp].
Defined.

Lemma updateUserRole_sets_role_witness :
  ∃ u' db',
    respond (updateUserRole (Some Sample.ada) Sample.bob_id "admin" 100)
      Sample.db
    = (Sent 200 (User_toJSON u'), db')
    ∧ UserRole_value (role u') = "admin"
    ∧ email u' = "bob@example.com".
Proof.
  destruct (updateUserRole_sets_role (Some Sample.ada) Sample.bob_id
              Sample.bob_id "admin" 100 Sample.db eq_refl) as [_ Hother].
  destruct Hother as (_ & _ & Hset); [discriminate|].
  destruct (Hset ADMIN Sample.bob eq_refl eq_refl)
    as (u' & db' & Hrun & _ & Hrole & _ & Hemail & _).
  exists u', db'. split; [exact Hrun|]. split; [exact Hrole|exact Hemail].
Defined.

Lemma getUserDashboard_own_tasks_witness :
  ∃ d,
    respond (getUserDashboard (Some Sample.bob) None 100) Sample.db
    = (Sent 200 d, Sample.db)
    ∧ ds_totalTasks (db_stats d) = 1
    ∧ (∀ t, t ∈ db_overdueTasks d → t = Sample.task1).
Proof.
  destruct (getUserDashboard_own_tasks Sample.bob None 100 Sample.db
              Sample.bob_id eq_refl eq_refl) as [_ Hown].
  destruct Hown as [_ Hfound]; [by right|].
  destruct (Hfound Sample.bob eq_refl)
    as (d & Hrun & _ & _ & Htotal & _ & _ & _ & _ & _ & _ & _ & _ & Hoverdue & _).
  exists d. split; [exact Hrun|]. split; [exact Htotal|].
  intros t [Ht [Ha _]]%Hoverdue.
  apply elem_of_cons in Ht as [->|Ht]; [done|].
  apply elem_of_cons in Ht as [->|Ht]; [discriminate|].
  by apply elem_of_nil in Ht.
Defined.

Lemma authenticate_finds_token_user_witness :
  authenticate (Some Sample.bob_id) Sample.db
  = (inr (set_password None Sample.bob), Sample.db).
Proof.
  exact (proj1 (proj1 (@authenticate_finds_token_user Sample.ext Sample.bob_id
                         Sample.bob_id Sample.db eq_refl) Sample.bob eq_refl)).
Defined.

Lemma getTasks_applies_every_filter_witness :
  ∃ body,
    respond (@getTasks Sample.ext (Some Sample.ada) Sample2.todo_query) Sample.db
    = (Sent 200 body, Sample.db)
    ∧ totalItems (pagination body) = 1
    ∧ ∀ t, t ∈ page_data body → doc t ∈ tasks Sample.db.
Proof.
  destruct (@getTasks_applies_every_filter Sample.ext Sample.ada
              Sample2.todo_query Sample.db 1 10 eq_refl eq_refl eq_refl)
    as (_ & body & Hrun & Hpage & Htotal).
  exists body. split; [exact Hrun|]. split; [exact Htotal|].
  intros t Ht. by destruct (Hpage t Ht).
Defined.

Lemma getTasks_page_window_witness :
  ∃ body,
    respond (@getTasks Sample.ext (Some Sample.ada) Sample2.second_page)
      Sample.db
    = (Sent 200 body, Sample.db)
    ∧ Z.of_nat (length (page_data body)) = 1.
Proof.
  destruct (@getTasks_page_window Sample.ext Sample.ada Sample2.second_page
              Sample.db 2 1 eq_refl eq_refl eq_refl)
    as (body & Hrun & _ & _ & Hlen & _).
  exists body. split; [exact Hrun|].
  rewrite Hlen. injection Hrun as <-. reflexivity.
Defined.

Lemma updateProfile_changes_names_only_witness :
  ∃ u' db',
    respond (@updateProfile Sample.ext (Some Sample.bob) (Some " Robert ") None
               100) Sample.db
    = (Sent 200 (Some (User_toJSON u')), db')
    ∧ firstName u' = "Robert"
    ∧ lastName u' = "B".
Proof.
  destruct (proj1 (@updateProfile_changes_names_only Sample.ext Sample.bob
                     (Some " Robert ") None 100 Sample.db Sample.bob eq_refl)
              200 _ _ eq_refl)
    as (u' & _ & Hbody & _ & _ & (Hfirst & _) & Hlast & _).
  exists u'. eexists. split; [|split; [exact Hfirst|exact Hlast]].
  injection Hbody as <-. reflexivity.
Defined.

Lemma getUsers_lists_matching_witness :
  ∃ body,
    respond (@getUsers Sample.ext Sample2.admins_query) Sample.db
    = (Sent 200 body, Sample.db)
    ∧ totalItems (pagination body) = 1.
Proof.
  destruct (@getUsers_lists_matching Sample.ext Sample2.admins_query Sample.db
              1 10 eq_refl eq_refl)
    as (body & Hrun & _ & _ & Htotal & _).
  exists body. split; [exact Hrun|]. exact Htotal.
Defined.

Lemma getTasksByAssignee_lists_assigned_witness :
  ∃ body,
    respond (@getTasksByAssignee Sample.ext Sample.bob_id) Sample.db
    = (Sent 200 body, Sample.db)
    ∧ at_count body = 1
    ∧ ref_email (at_assignee body) = "bob@example.com".
Proof.
  destruct (@getTasksByAssignee_lists_assigned Sample.ext Sample.bob_id
              Sample.db) as (_ & _ & Hfound).
  destruct (Hfound Sample.bob_id Sample.bob eq_refl eq_refl)
    as (body & Hrun & Hassignee & _ & _ & _ & Hcount).
  exists body. split; [exact Hrun|]. split; [exact Hcount|].
  by rewrite Hassignee.
Defined.

Lemma bulkUpdateUsers_sets_roles_witness :
  respond (bulkUpdateUsers (Some Sample.ada) [Sample.bob_id; Sample.ada_id]
             "member" 100) Sample.db
  = (Thrown (AppError "You cannot change your own role" 400), Sample.db).
Proof.
  refine (proj1 (proj2 (bulkUpdateUsers_sets_roles (Some Sample.ada)
            [Sample.bob_id; Sample.ada_id] "member" 100 Sample.db) _)
            Sample.ada eq_refl eq_refl _);
    repeat constructor.
Defined.

Lemma getUserById_counts_assigned_witness :
  ∃ stats,
    respond (getUserById Sample.bob_id) Sample.db
    = (Sent 200 (User_toJSON Sample.bob, stats), Sample.db)
    ∧ stat_total stats = 1
    ∧ stat_todo stats = 1.
Proof.
  destruct (proj2 (getUserById_counts_assigned Sample.bob_id Sample.db)
              Sample.bob_id eq_refl) as [_ Hfound].
  destruct (Hfound Sample.bob eq_refl)
    as (stats & Hrun & _ & Htodo & _ & _ & _ & Htotal).
  exists stats. split; [exact Hrun|]. split; [exact Htotal|exact Htodo].
Defined.

Lemma route_guards_witness :
  requireOwnershipOrAdmin (Some Sample.bob) (Some Sample.ada_id) None Sample.db
  = (inl (AppError
       "Access denied. You can only access your own resources." 403), Sample.db)
  ∧ requireOwnershipOrAdmin (Some Sample.bob) (Some Sample.bob_id) None Sample.db
    = (inr tt, Sample.db).
Proof.
  split.
  - destruct (route_guards Sample.bob (Some Sample.ada_id) None 100 Sample.db)
      as (_ & _ & _ & _ & Hdenied & _).
    apply Hdenied; discriminate.
  - destruct (route_guards Sample.bob (Some Sample.bob_id) None 100 Sample.db)
      as (_ & _ & _ & Hpass & _).
    apply Hpass. by do 3 right.
Defined.
